(** * Supply-chain demand forecasting and inventory planning

    A shallow embedding of [core_demand.py] and [core_inventory.py] and the
    properties of them that the design document states.

    Conventions of the embedding.
    - Python floats that hold quantities (demand, stock, days) are exact
      rationals [Q]; NaN is [VNaN] in a cell and [None] of an [option]
      elsewhere.  Rounding error, overflow and infinities are outside the
      model, and so is a division by zero: [days_per_month] is positive.
      The theorems are stated on the expressions and the comparisons
      of the code, on the numbers of a row.
    - Text is [string] over ASCII.
    - A DataFrame is its ordered headers and its rows, a row giving the
      cell under each header.  The headers of a frame are distinct once
      trimmed.
    - [numpy.sqrt], the printing of a float and pandas' parsing of a numeric
      string belong to the libraries; they are Section variables.
    - [sort_values] is a stable sort; pandas leaves the order of equal keys
      open, and nothing below depends on it. *)

From Stdlib Require Import QArith Qround Qminmax Lqa ZArith String Ascii List.
From Stdlib Require Import Lia Bool Sorted Permutation.
From Stdlib Require Import Morphisms Setoid.
From Stdlib Require Import DecimalString DecimalPos DecimalN.
Import ListNotations.

Local Open Scope string_scope.

(* ================================================================== *)
(** ** Python strings *)

Module PyStr.

(** [str.isspace] on ASCII: TAB..CR, FS..US and the blank. *)
Definition is_space (c : ascii) : bool :=
  let n := nat_of_ascii c in
  ((9 <=? n) && (n <=? 13) || (28 <=? n) && (n <=? 32))%nat.

Definition is_digit (c : ascii) : bool :=
  let n := nat_of_ascii c in ((48 <=? n) && (n <=? 57))%nat.

Definition is_upper (c : ascii) : bool :=
  let n := nat_of_ascii c in ((65 <=? n) && (n <=? 90))%nat.

Definition lower_char (c : ascii) : ascii :=
  if is_upper c then ascii_of_nat (nat_of_ascii c + 32) else c.

Definition upper_char (c : ascii) : ascii :=
  let n := nat_of_ascii c in
  if ((97 <=? n) && (n <=? 122))%nat then ascii_of_nat (n - 32) else c.

Fixpoint map_chars (f : ascii -> ascii) (s : string) : string :=
  match s with
  | EmptyString => EmptyString
  | String c r => String (f c) (map_chars f r)
  end.

(** [s.lower()] and [s.upper()]. *)
Definition lower : string -> string := map_chars lower_char.
Definition upper : string -> string := map_chars upper_char.

Fixpoint lstrip (s : string) : string :=
  match s with
  | EmptyString => EmptyString
  | String c r => if is_space c then lstrip r else s
  end.

Fixpoint rstrip (s : string) : string :=
  match s with
  | EmptyString => EmptyString
  | String c r =>
      match rstrip r with
      | EmptyString => if is_space c then EmptyString else String c EmptyString
      | r' => String c r'
      end
  end.

(** [s.strip()]. *)
Definition strip (s : string) : string := rstrip (lstrip s).

(** [s.replace(c, "")] for a one-character [c]. *)
Fixpoint remove_char (c : ascii) (s : string) : string :=
  match s with
  | EmptyString => EmptyString
  | String d r => if Ascii.eqb c d then remove_char c r else String d (remove_char c r)
  end.

(** [sub in s]. *)
Fixpoint contains (sub s : string) : bool :=
  match s with
  | EmptyString => prefix sub EmptyString
  | String _ r => prefix sub s || contains sub r
  end.

Fixpoint all_chars (p : ascii -> bool) (s : string) : bool :=
  match s with
  | EmptyString => true
  | String c r => p c && all_chars p r
  end.

(** [s.isdigit()]: at least one character and all of them digits. *)
Definition isdigit (s : string) : bool :=
  match s with
  | EmptyString => false
  | _ => all_chars is_digit s
  end.

(** [s.split(c, 1)] when [c] occurs in [s]: the text before the first [c]
    and the text after it. *)
Fixpoint split_once (c : ascii) (s : string) : option (string * string) :=
  match s with
  | EmptyString => None
  | String d r =>
      if Ascii.eqb c d then Some (EmptyString, r)
      else match split_once c r with
           | Some (l, r') => Some (String d l, r')
           | None => None
           end
  end.

(** [str(n)] for an [int]. *)
Definition str_Z (z : Z) : string := NilZero.string_of_int (Z.to_int z).
Definition str_N (n : N) : string := NilZero.string_of_uint (N.to_uint n).
Definition str_nat (n : nat) : string := NilZero.string_of_uint (Nat.to_uint n).

(** ["%+d" % z]. *)
Definition str_Z_signed (z : Z) : string :=
  if (z <? 0)%Z then str_Z z else "+" ++ str_Z z.

End PyStr.

(* ================================================================== *)
(** ** Python numbers *)

Module PyNum.
Local Open Scope Q_scope.

Definition Qlt_bool (a b : Q) : bool := negb (Qle_bool b a).

(** [round(x)] of a float: to the nearest integer, ties to the even one. *)
Definition py_round (x : Q) : Z :=
  let f := Qfloor x in
  match Qcompare (x - inject_Z f) (1 # 2) with
  | Lt => f
  | Gt => (f + 1)%Z
  | Eq => if Z.even f then f else (f + 1)%Z
  end.

(** The builtin [max(a, b)]: the later argument wins only when strictly
    larger. *)
Definition py_max (a b : Q) : Q := if Qlt_bool a b then b else a.
Definition py_min (a b : Q) : Q := if Qlt_bool b a then b else a.

(** [Series.sum()] and [Series.mean()]. *)
Definition sumQ (l : list Q) : Q := fold_right Qplus 0 l.
Definition meanQ (l : list Q) : Q := sumQ l / inject_Z (Z.of_nat (length l)).

(** [Series.tail(k)]. *)
Definition tail {A} (k : nat) (l : list A) : list A := skipn (length l - k) l.

(** Elementwise product of two arrays. *)
Fixpoint mul_arrays (a b : list Q) : list Q :=
  match a, b with
  | x :: a', y :: b' => (x * y) :: mul_arrays a' b'
  | _, _ => []
  end.

End PyNum.

(* ================================================================== *)
(** ** Python values found in a spreadsheet cell *)

Module PyVal.
Import PyStr.

Inductive value :=
| VNone                 (* None *)
| VNaN                  (* float('nan') *)
| VInt (z : Z)
| VFloat (q : Q)        (* a finite float *)
| VStr (s : string).

Section Str.
(** [str(x)] of a finite float: the interpreter's shortest repr. *)
Variable float_repr : Q -> string.

(** [str(x)]. *)
Definition str (x : value) : string :=
  match x with
  | VNone => "None"
  | VNaN => "nan"
  | VInt z => str_Z z
  | VFloat q => float_repr q
  | VStr s => s
  end.
End Str.

(** [x is None or x is NaN]: what [dropna]/[notna] test. *)
Definition isna (x : value) : bool :=
  match x with VNone | VNaN => true | _ => false end.

Section Numeric.
(** pandas' reading of a text as a number; [None] when it is not one. *)
Variable parse_float : string -> option Q.

(** [pd.to_numeric(x, errors="coerce")] on one cell; [None] is NaN. *)
Definition to_numeric (x : value) : option Q :=
  match x with
  | VNone | VNaN => None
  | VInt z => Some (inject_Z z)
  | VFloat q => Some q
  | VStr s => parse_float s
  end.

(** [pd.to_numeric(x, errors="coerce")] followed by [fillna(0.0)]. *)
Definition to_numeric_fill0 (x : value) : value :=
  VFloat (match to_numeric x with Some q => q | None => 0 end).
End Numeric.

(** The number held by a numeric cell; NaN is [None]. *)
Definition as_float (x : value) : option Q :=
  match x with
  | VFloat q => Some q
  | VInt z => Some (inject_Z z)
  | _ => None
  end.

(** Float arithmetic on cells: NaN in, NaN out. *)
Definition lift2 (f : Q -> Q -> Q) (a b : value) : value :=
  match as_float a, as_float b with
  | Some x, Some y => VFloat (f x y)
  | _, _ => VNaN
  end.

Definition vadd := lift2 Qplus.
Definition vsub := lift2 Qminus.
Definition vmul := lift2 Qmult.
Definition vdiv := lift2 Qdiv.

(** Comparisons with NaN are false. *)
Definition vle (a b : value) : bool :=
  match as_float a, as_float b with
  | Some x, Some y => Qle_bool x y
  | _, _ => false
  end.

Definition vlt (a b : value) : bool :=
  match as_float a, as_float b with
  | Some x, Some y => negb (Qle_bool y x)
  | _, _ => false
  end.

(** [a == b] on cells. *)
Definition veqb (a b : value) : bool :=
  match a, b with
  | VStr s, VStr t => String.eqb s t
  | VNone, VNone => true
  | VStr _, _ | _, VStr _ | VNone, _ | _, VNone => false
  | _, _ => match as_float a, as_float b with
            | Some x, Some y => Qeq_bool x y
            | _, _ => false
            end
  end.

End PyVal.

(* ================================================================== *)
(** ** DataFrames *)

Module PyFrame.
Import PyStr PyVal.

(** A row gives the cell under each header; a frame is its ordered
    headers and its rows.  Cells under headers that are not in [columns]
    are never read. *)
Definition row := string -> value.

Record DataFrame := mkFrame {
  columns : list string;
  rows : list row
}.

Definition mem (h : string) (l : list string) : bool :=
  existsb (String.eqb h) l.

(** [h in df.columns]. *)
Definition has_col (h : string) (df : DataFrame) : bool :=
  mem h (columns df).

Definition upd (r : row) (h : string) (v : value) : row :=
  fun h' => if String.eqb h' h then v else r h'.

(** [df[h] = f(row)] for every row: replaces the column or appends it. *)
Definition assign (h : string) (f : row -> value) (df : DataFrame)
  : DataFrame :=
  {| columns := if has_col h df then columns df else columns df ++ [h];
     rows := List.map (fun r => upd r h (f r)) (rows df) |}.

(** A row from its cells, the first binding of a header winning. *)
Definition row_of (cells : list (string * value)) : row :=
  fun h =>
    match find (fun p => String.eqb (fst p) h) cells with
    | Some p => snd p
    | None => VNaN
    end.

(** [df.columns = [f(c) for c in df.columns]]: the headers are renamed in
    place and the cells stay under them. *)
Definition rename_columns (f : string -> string) (df : DataFrame)
  : DataFrame :=
  {| columns := List.map f (columns df);
     rows := List.map
               (fun r => row_of (List.map (fun c => (f c, r c)) (columns df)))
               (rows df) |}.

(** [df[h]] as a list of cells. *)
Definition column (h : string) (df : DataFrame) : list value :=
  List.map (fun r => r h) (rows df).

End PyFrame.

(* ================================================================== *)
(** ** The [decimal] module: [Decimal(str)], [to_integral_value], [==], [str] *)

Module PyDecimal.
Import PyStr.
Local Open Scope Z_scope.

(** A decimal is sign, coefficient and exponent, or a special value.
    The range limits of the exponent are outside the model. *)
Inductive decimal :=
| Finite (neg : bool) (coef : N) (exp : Z)
| Infinity (neg : bool)
| NaN (neg : bool) (signaling : bool).

Fixpoint span_digits (s : string) : string * string :=
  match s with
  | EmptyString => (EmptyString, EmptyString)
  | String c r =>
      if is_digit c
      then let (d, rest) := span_digits r in (String c d, rest)
      else (EmptyString, s)
  end.

Fixpoint int_of_digits_from (acc : N) (s : string) : N :=
  match s with
  | EmptyString => acc
  | String c r =>
      int_of_digits_from (acc * 10 + N.of_nat (nat_of_ascii c - 48)) r
  end.

(** [int(s)] for a string of digits. *)
Definition int_of_digits (s : string) : N := int_of_digits_from 0%N s.

Definition parse_sign (s : string) : bool * string :=
  match s with
  | String "-" r => (true, r)
  | String "+" r => (false, r)
  | _ => (false, s)
  end.

(** An optional exponent, [E] with an optional sign and at least one
    digit, then the end of the text. *)
Definition parse_exponent (s : string) : option Z :=
  match s with
  | EmptyString => Some 0
  | String c r =>
      if Ascii.eqb (lower_char c) "e" then
        let (neg, r1) := parse_sign r in
        let (ds, r2) := span_digits r1 in
        match ds, r2 with
        | EmptyString, _ => None
        | _, EmptyString =>
            Some (if neg then - Z.of_N (int_of_digits ds)
                  else Z.of_N (int_of_digits ds))
        | _, _ => None
        end
      else None
  end.

(** Digits with an optional fraction, at least one digit in all, then an
    optional exponent, then the end of the text. *)
Definition parse_number (neg : bool) (s : string) : option decimal :=
  let (ip, r0) := span_digits s in
  let (fp, r1) :=
    match r0 with
    | String "." r => span_digits r
    | _ => (EmptyString, r0)
    end in
  if (ip =? "")%string && (fp =? "")%string then None
  else match parse_exponent r1 with
       | Some e =>
           Some (Finite neg (int_of_digits (ip ++ fp))
                   (e - Z.of_nat (String.length fp)))
       | None => None
       end.

(** [Inf], [Infinity], [NaN] or [sNaN] with optional diagnostic digits,
    in any case. *)
Definition parse_special (neg : bool) (s : string) : option decimal :=
  let l := lower s in
  if (l =? "inf")%string || (l =? "infinity")%string then Some (Infinity neg)
  else if prefix "nan" l && all_chars is_digit (substring 3 (String.length l) l)
  then Some (NaN neg false)
  else if prefix "snan" l && all_chars is_digit (substring 4 (String.length l) l)
  then Some (NaN neg true)
  else None.

(** [Decimal(s)]; [None] is [InvalidOperation]. *)
Definition of_string (s : string) : option decimal :=
  let (neg, body) := parse_sign (remove_char "_" (strip s)) in
  match parse_number neg body with
  | Some d => Some d
  | None => parse_special neg body
  end.

(** [c / p] rounded to the nearest integer, ties to even
    (ROUND_HALF_EVEN, the rounding of the default context). *)
Definition div_half_even (c p : N) : N :=
  let q := (c / p)%N in
  let r := (c mod p)%N in
  match (2 * r ?= p)%N with
  | Lt => q
  | Gt => (q + 1)%N
  | Eq => if N.even q then q else (q + 1)%N
  end.

(** [d.to_integral_value()]; [None] is the [InvalidOperation] that a
    signaling NaN raises. *)
Definition to_integral_value (d : decimal) : option decimal :=
  match d with
  | Finite neg c e =>
      if 0 <=? e then Some d
      else Some (Finite neg (div_half_even c (Z.to_N (10 ^ (- e)))) 0)
  | Infinity _ => Some d
  | NaN _ false => Some d
  | NaN _ true => None
  end.

(** [a == b]; [None] is [InvalidOperation]. *)
Definition eqb (a b : decimal) : option bool :=
  match a, b with
  | NaN _ true, _ | _, NaN _ true => None
  | NaN _ false, _ | _, NaN _ false => Some false
  | Infinity n1, Infinity n2 => Some (Bool.eqb n1 n2)
  | Infinity _, Finite _ _ _ | Finite _ _ _, Infinity _ => Some false
  | Finite n1 c1 e1, Finite n2 c2 e2 =>
      if (c1 =? 0)%N && (c2 =? 0)%N then Some true
      else
        let e := Z.min e1 e2 in
        Some (Bool.eqb n1 n2 &&
              (Z.of_N c1 * 10 ^ (e1 - e) =? Z.of_N c2 * 10 ^ (e2 - e)))
  end.

Fixpoint zeros (n : nat) : string :=
  match n with O => EmptyString | S k => String "0" (zeros k) end.

(** [str(d)]: plain notation when the exponent is at most 0 and more than
    -6 digits stand left of the point, scientific notation otherwise. *)
Definition to_str (d : decimal) : string :=
  match d with
  | Infinity neg => ((if neg then "-" else "") ++ "Infinity")%string
  | NaN neg sig =>
      ((if neg then "-" else "") ++ (if sig then "sNaN" else "NaN"))%string
  | Finite neg c e =>
      let digits := str_N c in
      let len := Z.of_nat (String.length digits) in
      let leftdigits := e + len in
      let dotplace :=
        if (e <=? 0) && (-6 <? leftdigits) then leftdigits else 1 in
      let intpart :=
        if dotplace <=? 0 then "0"%string
        else if len <=? dotplace
             then (digits ++ zeros (Z.to_nat (dotplace - len)))%string
             else substring 0 (Z.to_nat dotplace) digits in
      let fracpart :=
        if dotplace <=? 0
        then ("." ++ zeros (Z.to_nat (- dotplace)) ++ digits)%string
        else if len <=? dotplace then EmptyString
             else ("." ++ substring (Z.to_nat dotplace)
                           (Z.to_nat (len - dotplace)) digits)%string in
      let exp :=
        if leftdigits =? dotplace then EmptyString
        else ("E" ++ str_Z_signed (leftdigits - dotplace))%string in
      ((if neg then "-" else "") ++ intpart ++ fracpart ++ exp)%string
  end.

End PyDecimal.

(* ================================================================== *)
(** ** core_demand.py: forecast engine and ABC classes *)

Module Demand.
Import PyStr PyNum.
Local Open Scope Q_scope.

Record DemandStats := mkStats {
  months_count : nat;
  demand_total : Q;
  demand_avg_all : Q;
  demand_avg_nonzero : Q;
  demand_std : Q;
  demand_cv : option Q;
  last_month_demand : Q;
  zeros_count : nat;
  zero_ratio : Q;
  forecast_next_month : Q;
  forecast_next_month_rounded : Z;
  forecast_method : string
}.

(** [demand.astype(float).fillna(0.0)]. *)
Definition fillna0 (s : list (option Q)) : list Q :=
  map (fun o => match o with Some q => q | None => 0 end) s.

Definition positive (d : list Q) : list Q := filter (fun x => Qlt_bool 0 x) d.

Definition total_of (d : list Q) : Q := sumQ d.

Definition avg_all_of (d : list Q) : Q :=
  if (0 <? length d)%nat then meanQ d else 0.

Definition avg_nonzero_of (d : list Q) : Q :=
  if (0 <? length (positive d))%nat then meanQ (positive d) else 0.

Definition zeros_of (d : list Q) : nat :=
  length (filter (fun x => Qeq_bool x 0) d).

Definition zero_ratio_of (d : list Q) : Q :=
  if (0 <? length d)%nat
  then inject_Z (Z.of_nat (zeros_of d)) / inject_Z (Z.of_nat (length d))
  else 1.

(** The weights of the windowed branch:
    [np.concatenate([np.ones(num_old), np.full(num_last_3, 2.0)])]. *)
Definition window_weights (m : nat) : list Q :=
  let num_last_3 := Nat.min 3 m in
  let num_old := (m - num_last_3)%nat in
  repeat 1 num_old ++ repeat 2 num_last_3.

(** The forecast branch of [_compute_demand_stats_and_forecast], on the
    series after [fillna]: the forecast and the name of the method. *)
Definition forecast_of (d : list Q) : Q * string :=
  let n := length d in
  if Qeq_bool (total_of d) 0 then (0, "zero_demand")
  else if Qle_bool (1 # 2) (zero_ratio_of d) && Qlt_bool 0 (avg_nonzero_of d)
  then (avg_nonzero_of d, "avg_nonzero_intermittent")
  else if (4 <=? n)%nat then
    let recent := tail (Nat.min 9 n) d in
    let m := length recent in
    if (m <=? 3)%nat then (meanQ recent, "mean_last_" ++ str_nat m)
    else
      let weights := window_weights m in
      (sumQ (mul_arrays recent weights) / sumQ weights,
       "weighted_last_" ++ str_nat m ++ "_old1_new2")
  else ((if (0 <? n)%nat then meanQ d else 0), "mean_all_few_months").

(** The weighted mean as the design document words it: weight 1 on the
    oldest [m - 3] points of the window and weight 2 on the most recent
    3.  It is compared with [forecast_of] below. *)
Definition weighted_old1_new2 (window : list Q) : Q :=
  let m := length window in
  (sumQ (firstn (m - 3) window) + 2 * sumQ (skipn (m - 3) window))
  / inject_Z (Z.of_nat (m - 3) + 2 * 3).

Section Stats.
(** [numpy.sqrt] on the rationals of the model. *)
Variable sqrtQ : Q -> Q.

(** [demand.std(ddof=0)]: the population standard deviation. *)
Definition std_pop (d : list Q) : Q :=
  let mu := meanQ d in
  sqrtQ (meanQ (map (fun x => (x - mu) * (x - mu)) d)).

Definition std_of (d : list Q) : Q :=
  if (1 <? length d)%nat then std_pop d else 0.

Definition cv_of (d : list Q) : option Q :=
  if Qlt_bool 0 (avg_all_of d) then Some (std_of d / avg_all_of d) else None.

Definition _compute_demand_stats_and_forecast (demand : list (option Q))
  : DemandStats :=
  let d := fillna0 demand in
  let fc := forecast_of d in
  {| months_count := length d;
     demand_total := total_of d;
     demand_avg_all := avg_all_of d;
     demand_avg_nonzero := avg_nonzero_of d;
     demand_std := std_of d;
     demand_cv := cv_of d;
     last_month_demand := last d 0;
     zeros_count := zeros_of d;
     zero_ratio := zero_ratio_of d;
     forecast_next_month := fst fc;
     forecast_next_month_rounded := Z.max (py_round (fst fc)) 0;
     forecast_method := snd fc |}.
End Stats.

Section Codes.
Variable float_repr : Q -> string.

(** [normalize_item_code]: the canonical text of an item code. *)
Definition normalize_item_code (x : PyVal.value) : string :=
  if PyVal.isna x then ""
  else
    let s := strip (PyVal.str float_repr x) in
    if (s =? "")%string || (lower s =? "nan")%string then ""
    else
      let s_clean := strip (remove_char "," s) in
      match PyDecimal.of_string s_clean with
      | None => s_clean
      | Some d =>
          match PyDecimal.to_integral_value d with
          | None => s_clean
          | Some i =>
              match PyDecimal.eqb d i with
              | Some true => PyDecimal.to_str i
              | Some false => s_clean
              | None => s_clean
              end
          end
      end.
End Codes.

(** *** Month labels *)

Definition pad0 (w : nat) (s : string) : string :=
  (PyDecimal.zeros (w - String.length s) ++ s)%string.

(** [f"{y:04d}-{m:02d}"]. *)
Definition fmt_month (y m : N) : string :=
  (pad0 4 (str_N y) ++ "-" ++ pad0 2 (str_N m))%string.

(** Digits, one of [-] and [/], digits, and nothing else. *)
Definition split_label (s : string) : option (string * string) :=
  let (a, r) := PyDecimal.span_digits s in
  match r with
  | String c r' =>
      if Ascii.eqb c "-" || Ascii.eqb c "/" then
        let (b, rest) := PyDecimal.span_digits r' in
        match rest with
        | EmptyString => Some (a, b)
        | _ => None
        end
      else None
  | EmptyString => None
  end.

Definition standardize_month_label (label : string) : string :=
  let s := strip label in
  match split_label s with
  | Some (a, b) =>
      let la := String.length a in
      let lb := String.length b in
      if ((la =? 4) && (1 <=? lb) && (lb <=? 2))%nat
      then fmt_month (PyDecimal.int_of_digits a) (PyDecimal.int_of_digits b)
      else if ((1 <=? la) && (la <=? 2) && (lb =? 4))%nat
      then fmt_month (PyDecimal.int_of_digits b) (PyDecimal.int_of_digits a)
      else s
  | None => s
  end.

(** *** One month's sheet, from wide to long *)

(** A row of the melted sheet. *)
Record Melted := mkMelted {
  id_item : PyVal.value;
  id_code : PyVal.value;
  variable : string;
  cell_value : PyVal.value
}.

(** A row of the long table while it is cleaned: the item is text once its
    name is cleaned, the demand a number once it is coerced. *)
Record Long (I D : Type) := mkLong {
  l_item : I;
  l_code : string;
  l_branch : string;
  l_demand : D
}.
Arguments mkLong {I D}.
Arguments l_item {I D}.
Arguments l_code {I D}.
Arguments l_branch {I D}.
Arguments l_demand {I D}.

(** A row of the demand table. *)
Record DemandRecord := mkDemand {
  month : string;
  branch : string;
  d_item_code : string;
  d_iteam_name : string;
  demand : Q
}.

Definition _is_total_col (c : string) : bool :=
  contains "total" (lower (strip c)).

Section Sheets.
Variable float_repr : Q -> string.
Variable parse_float : string -> option Q.

(** [df[h].dropna().astype(str).head(10)]. *)
Definition sample (h : string) (df : PyFrame.DataFrame) : list string :=
  firstn 10
    (map (PyVal.str float_repr)
       (filter (fun v => negb (PyVal.isna v)) (PyFrame.column h df))).

Definition looks_digits (s : string) : bool :=
  isdigit (remove_char "." (strip s)).

(** The mean of [looks_digits] over a sample, 0 for an empty one. *)
Definition digits_ratio (smp : list string) : Q :=
  if (0 <? length smp)%nat
  then inject_Z (Z.of_nat (length (filter looks_digits smp)))
       / inject_Z (Z.of_nat (length smp))
  else 0.

(** The names are mostly digits and the codes mostly are not. *)
Definition columns_reversed (df : PyFrame.DataFrame) : bool :=
  PyFrame.has_col "iteam name" df && PyFrame.has_col "item code" df &&
  Qlt_bool (8 # 10) (digits_ratio (sample "iteam name" df)) &&
  Qlt_bool (digits_ratio (sample "item code" df)) (1 # 2).

(** The two id columns exchange their cells. *)
Definition swap_id_columns (df : PyFrame.DataFrame) : PyFrame.DataFrame :=
  {| PyFrame.columns := PyFrame.columns df;
     PyFrame.rows :=
       map (fun r =>
              PyFrame.upd (PyFrame.upd r "item code" (r "iteam name"))
                "iteam name" (r "item code"))
           (PyFrame.rows df) |}.

Definition branch_columns (item_col code_col : string)
    (df : PyFrame.DataFrame) : list string :=
  filter (fun c => negb (PyFrame.mem c [item_col; code_col])
                   && negb (_is_total_col c))
         (PyFrame.columns df).

(** [df.melt(id_vars=[item_col, code_col], value_vars=branch_cols)]:
    column after column, the rows in their order. *)
Definition melt (item_col code_col : string) (value_vars : list string)
    (df : PyFrame.DataFrame) : list Melted :=
  flat_map
    (fun c => map (fun r => mkMelted (r item_col) (r code_col) c (r c))
                  (PyFrame.rows df))
    value_vars.

(** The branch is trimmed and the code normalised. *)
Definition with_code (m : Melted) : Long PyVal.value PyVal.value :=
  mkLong (id_item m) (normalize_item_code float_repr (id_code m))
         (strip (variable m)) (cell_value m).

Definition code_present {I D} (l : Long I D) : bool :=
  negb (strip (l_code l) =? "")%string.

Definition with_name (l : Long PyVal.value PyVal.value)
  : Long string PyVal.value :=
  mkLong (strip (PyVal.str float_repr (l_item l)))
         (l_code l) (l_branch l) (l_demand l).

Definition not_total_row {D} (l : Long string D) : bool :=
  negb (contains "total" (lower (l_item l))).

Definition with_demand (l : Long string PyVal.value)
  : Long string (option Q) :=
  mkLong (l_item l) (l_code l) (l_branch l)
         (PyVal.to_numeric parse_float (l_demand l)).

Definition demand_notna {I} (l : Long I (option Q)) : bool :=
  match l_demand l with Some _ => true | None => false end.

Definition stamp (month_label_std : string) (l : Long string (option Q))
  : DemandRecord :=
  mkDemand month_label_std (l_branch l) (l_code l) (l_item l)
           (match l_demand l with Some q => q | None => 0 end).

(** The cleaning of the melted table, step after step. *)
Definition clean_long (month_label_std : string) (long_df : list Melted)
  : list DemandRecord :=
  let long_df := map with_code long_df in
  let long_df := filter code_present long_df in
  let long_df := map with_name long_df in
  let long_df := filter not_total_row long_df in
  let long_df := map with_demand long_df in
  let long_df := filter demand_notna long_df in
  map (stamp month_label_std) long_df.

(** The sheet as [melt] receives it: headers trimmed, id columns
    exchanged when they look reversed. *)
Definition prepared (df_wide : PyFrame.DataFrame) : PyFrame.DataFrame :=
  let df := PyFrame.rename_columns strip df_wide in
  if columns_reversed df then swap_id_columns df else df.

(** [build_long_from_wide_month]; [None] is the [KeyError] of [melt]
    when an id column is not in the sheet. *)
Definition build_long_from_wide_month (df_wide : PyFrame.DataFrame)
    (month_label item_col code_col : string)
  : option (list DemandRecord) :=
  let df := prepared df_wide in
  let month_label_std := standardize_month_label month_label in
  let branch_cols := branch_columns item_col code_col df in
  if PyFrame.has_col item_col df && PyFrame.has_col code_col df
  then Some (clean_long month_label_std
               (melt item_col code_col branch_cols df))
  else None.
End Sheets.

(** *** ABC classes (the tail of [build_product_level_forecast]) *)

(** A row of [summary]: the item and its statistics. *)
Record SummaryRow := mkSummary {
  item_code : string;
  iteam_name : string;
  stats : DemandStats
}.

Record ProductForecast := mkProduct {
  summary : SummaryRow;
  demand_share : Q;
  cum_demand_share : Q;
  abc_class : string
}.

Definition row_total (r : SummaryRow) : Q := demand_total (stats r).

Definition _abc (x : Q) : string :=
  if Qle_bool x (8 # 10) then "A"
  else if Qle_bool x (95 # 100) then "B"
  else "C".

(** [sort_values("demand_total", ascending=False)], as a stable insertion
    sort: rows of equal total keep their order. *)
Fixpoint insert_desc {A} (key : A -> Q) (x : A) (l : list A) : list A :=
  match l with
  | [] => [x]
  | y :: r => if Qle_bool (key y) (key x) then x :: l
              else y :: insert_desc key x r
  end.

Definition sort_desc {A} (key : A -> Q) (l : list A) : list A :=
  fold_right (insert_desc key) [] l.

(** The order of a list sorted by [sort_desc]: an earlier row has a key
    at least as large as a later one. *)
Definition desc {A} (key : A -> Q) (a b : A) : Prop := key b <= key a.

(** [Series.cumsum()]. *)
Fixpoint cumsum_from (acc : Q) (l : list Q) : list Q :=
  match l with
  | [] => []
  | x :: r => (acc + x) :: cumsum_from (acc + x) r
  end.

Definition cumsum : list Q -> list Q := cumsum_from 0.

Definition abc_classify (rows : list SummaryRow) : list ProductForecast :=
  let total_all := sumQ (map row_total rows) in
  if Qlt_bool 0 total_all then
    let sorted := sort_desc row_total rows in
    let shares := map (fun r => row_total r / total_all) sorted in
    map (fun '(r, (sh, cum)) => mkProduct r sh cum (_abc cum))
        (combine sorted (combine shares (cumsum shares)))
  else
    map (fun r => mkProduct r 0 0 "C") rows.


(** The order of the classes down a table: the cumulative share does not
    fall, a row before an "A" row is "A" and a row after a "C" row is
    "C". *)
Definition classes_in_order (p q : ProductForecast) : Prop :=
  cum_demand_share p <= cum_demand_share q
  /\ (abc_class q = "A" -> abc_class p = "A")
  /\ (abc_class p = "C" -> abc_class q = "C").

(** The numeral of [n] padded to [w] digits is [w] digits that read
    as [n]. *)
Definition padded_ok (w : nat) (n : N) : bool :=
  let t := pad0 w (str_N n) in
  all_chars is_digit t && (String.length t =? w)%nat
  && (PyDecimal.int_of_digits t =? n)%N.

End Demand.

(* ================================================================== *)
(** ** core_inventory.py: the inventory planner *)

Module Inventory.
Import PyStr PyNum PyVal PyFrame.
Local Open Scope Q_scope.

(** What a call can raise. *)
Inductive table := Forecast | InventorySnapshot.

Inductive error :=
| MissingColumns (t : table) (names : list string)  (* the ValueError *)
| KeyError (h : string).

Inductive result (A : Type) :=
| Ok (a : A)
| Raise (e : error).
Arguments Ok {A}.
Arguments Raise {A}.

Definition bind {A B} (m : result A) (k : A -> result B) : result B :=
  match m with
  | Ok a => k a
  | Raise e => Raise e
  end.

Notation "x <- m ;; k" := (bind m (fun x => k))
  (at level 61, m at next level, right associativity).

(** Reading [df[h]] raises when the frame has no such column. *)
Definition require (h : string) (df : DataFrame) : result unit :=
  if has_col h df then Ok tt else Raise (KeyError h).

Definition required_forecast_cols : list string :=
  ["item code"; "months_count"; "months_list"; "demand_total";
   "demand_avg_all"; "demand_avg_nonzero"; "demand_std"; "demand_cv";
   "last_month_demand"; "forecast_next_month";
   "forecast_next_month_rounded"; "forecast_method"].

Definition required_inv_cols : list string :=
  ["item code"; "iteam name"; "on_hand_dc"; "on_order_from_china";
   "lead_time_import_days"; "safety_stock_days"].

Definition cols_order : list string :=
  ["item code"; "iteam name"; "months_count"; "months_list";
   "demand_total"; "demand_avg_all"; "demand_avg_nonzero"; "demand_std";
   "demand_daily_std"; "demand_cv"; "last_month_demand"; "forecast_method";
   "forecast_next_month"; "forecast_next_month_rounded"; "forecast_daily";
   "on_hand_dc"; "on_order_from_china"; "available_qty_total";
   "lead_time_import_days"; "demand_during_lead_time"; "min_order_qty_lt";
   "safety_stock_days"; "safety_stock_mode"; "service_level";
   "service_level_effective"; "safety_stock_qty"; "days_of_supply";
   "reorder_point"; "review_days"; "review_buffer_qty";
   "target_coverage_days"; "target_stock_level"; "inventory_decision";
   "suggested_order_qty"].

(** [_z_from_service_level]. *)
Definition _z_from_service_level (service_level : value) : value :=
  match service_level with
  | VNone => VFloat 0
  | sl =>
      if vle (VFloat (999 # 1000)) sl then VFloat (309 # 100)
      else if vle (VFloat (99 # 100)) sl then VFloat (233 # 100)
      else if vle (VFloat (98 # 100)) sl then VFloat (205 # 100)
      else if vle (VFloat (95 # 100)) sl then VFloat (164 # 100)
      else if vle (VFloat (90 # 100)) sl then VFloat (128 # 100)
      else if vle (VFloat (85 # 100)) sl then VFloat (104 # 100)
      else VFloat 0
  end.

(** [df[cols]]. *)
Definition select (cols : list string) (df : DataFrame) : DataFrame :=
  {| columns := cols; rows := rows df |}.

(** [drop_duplicates(h, keep="first")]. *)
Fixpoint drop_duplicates_from (h : string) (seen : list value)
    (l : list row) : list row :=
  match l with
  | [] => []
  | r :: rest =>
      if existsb (veqb (r h)) seen then drop_duplicates_from h seen rest
      else r :: drop_duplicates_from h (r h :: seen) rest
  end.

Definition drop_duplicates (h : string) (df : DataFrame) : DataFrame :=
  {| columns := columns df; rows := drop_duplicates_from h [] (rows df) |}.

Definition float_of (v : value) : Q :=
  match as_float v with Some q => q | None => 0 end.

(** [sort_values(h, ascending=False)] on a numeric column without NaN. *)
Definition sort_values_desc (h : string) (df : DataFrame) : DataFrame :=
  {| columns := columns df;
     rows := Demand.sort_desc (fun r => float_of (r h)) (rows df) |}.

(** [pd.merge(lhs, rhs, on=on, how="left")]: every row of [lhs], in order,
    once for each row of [rhs] of the same key and once with NaN when there
    is none.  A header that both sides have gets the suffixes [_x] and
    [_y]. *)
Definition merge_left (lhs rhs : DataFrame) (on : string) : DataFrame :=
  let rcols := filter (fun c => negb (c =? on)%string) (columns rhs) in
  let lname c :=
    if mem c rcols then (c ++ "_x")%string else c in
  let rname c :=
    if mem c (columns lhs) then (c ++ "_y")%string else c in
  let lcells l := map (fun c => (lname c, l c)) (columns lhs) in
  {| columns := map lname (columns lhs) ++ map rname rcols;
     rows :=
       flat_map
         (fun l =>
            match filter (fun r => veqb (l on) (r on)) (rows rhs) with
            | [] => [row_of (lcells l ++ map (fun c => (rname c, VNaN)) rcols)]
            | ms =>
                map (fun r =>
                       row_of (lcells l ++ map (fun c => (rname c, r c)) rcols))
                    ms
            end)
         (rows lhs) |}.

(** The row that [merge_left] makes of a row of [lhs] that has at most one
    row of its key in [rhs]. *)
Definition joined_row (lhs rhs : DataFrame) (on : string) (l : row) : row :=
  let rcols := filter (fun c => negb (c =? on)%string) (columns rhs) in
  let lname c :=
    if mem c rcols then (c ++ "_x")%string else c in
  let rname c :=
    if mem c (columns lhs) then (c ++ "_y")%string else c in
  row_of
    (map (fun c => (lname c, l c)) (columns lhs)
     ++ match filter (fun r => veqb (l on) (r on)) (rows rhs) with
        | [] => map (fun c => (rname c, VNaN)) rcols
        | r :: _ => map (fun c => (rname c, r c)) rcols
        end).

(** The decision as the design document words it, the first rule that
    applies.  It is compared with [_decide_action] below. *)
Definition decision_rule (forecast_daily available reorder_point
    review_buffer_qty : Q) : string :=
  if Qle_bool forecast_daily 0 then "Hold"
  else if Qle_bool available reorder_point then "Order"
  else if Qle_bool available (reorder_point + review_buffer_qty)
       then "Review"
       else "Hold".

(** The suggested quantity as the design document words it.  It is
    compared with [_calc_order_qty] below. *)
Definition order_qty_rule (decision : string)
    (target_stock_level available min_order_qty_lt : Q) : Z :=
  if String.eqb decision "Order"
  then py_round (Qmax (Qmax (target_stock_level - available) 0)
                      min_order_qty_lt)
  else 0%Z.

(** The suggested quantity as [_calc_order_qty] computes it, on
    numbers. *)
Definition order_qty_code (decision : string)
    (forecast_daily target_stock_level available min_order_qty_lt : Q) : Z :=
  if negb (String.eqb decision "Order") then 0%Z
  else if Qle_bool forecast_daily 0 then 0%Z
  else
    let order_qty :=
      py_max (py_max (target_stock_level - available) 0) min_order_qty_lt in
    if Qlt_bool 0 order_qty then py_round order_qty else 0%Z.

Section Planner.
Variable float_repr : Q -> string.
Variable parse_float : string -> option Q.
Variable sqrtQ : Q -> Q.

(** The planner's own normaliser of item codes. *)
Definition normalize_item_code (x : value) : string :=
  let s := strip (str float_repr x) in
  if (s =? "")%string || (lower s =? "nan")%string then ""
  else
    let s :=
      match split_once "." s with
      | Some (before, after) =>
          if all_chars (Ascii.eqb "0") after then before else s
      | None => s
      end in
    strip s.

Definition numeric (h : string) (df : DataFrame) : DataFrame :=
  assign h (fun r => to_numeric_fill0 parse_float (r h)) df.

Definition _map_service_level (has_abc : bool) (service_level : Q)
    (r : row) : value :=
  let abc :=
    upper (strip (str float_repr
                    (if has_abc then r "abc_class" else VStr ""))) in
  let base := service_level in
  if (abc =? "A")%string then VFloat (py_max base (98 # 100))
  else if (abc =? "B")%string then VFloat base
  else if (abc =? "C")%string then VFloat (py_min base (90 # 100))
  else VFloat base.

Definition vsqrt (v : value) : value :=
  match as_float v with Some q => VFloat (sqrtQ q) | None => VNaN end.

Definition _calc_safety_stock (safety_stock_mode : string) (r : row)
  : value :=
  let fd := r "forecast_daily" in
  let ss_days := r "safety_stock_days" in
  let lt_days := r "lead_time_import_days" in
  let sigma_d := r "demand_daily_std" in
  let sl := r "service_level_effective" in
  let z := _z_from_service_level sl in
  if vle fd (VFloat 0) then VFloat 0
  else if (safety_stock_mode =? "days")%string then vmul fd ss_days
  else if vlt (VFloat 0) z && vlt (VFloat 0) sigma_d
          && vlt (VFloat 0) lt_days
  then vmul (vmul z sigma_d) (vsqrt lt_days)
  else vmul fd ss_days.

Definition _calc_dos (r : row) : value :=
  let fd := r "forecast_daily" in
  if vle fd (VFloat 0) then VNaN
  else vdiv (r "available_qty_total") fd.

Definition _decide_action (r : row) : value :=
  let fd := r "forecast_daily" in
  let avail := r "available_qty_total" in
  let rop := r "reorder_point" in
  let buffer_qty := r "review_buffer_qty" in
  if vle fd (VFloat 0) then VStr "Hold"
  else if vle avail rop then VStr "Order"
  else if vle avail (vadd rop buffer_qty) then VStr "Review"
  else VStr "Hold".

(** [max(a, b)] on cells. *)
Definition vmax (a b : value) : value := if vlt a b then b else a.

(** [int(round(x))]. *)
Definition vround (x : value) : value :=
  match as_float x with Some q => VInt (py_round q) | None => VNaN end.

Definition _calc_order_qty (r : row) : value :=
  if negb (veqb (r "inventory_decision") (VStr "Order")) then VInt 0
  else
    let fd := r "forecast_daily" in
    if vle fd (VFloat 0) then VInt 0
    else
      let avail := r "available_qty_total" in
      let target := r "target_stock_level" in
      let min_lt := r "min_order_qty_lt" in
      let raw_needed := vmax (vsub target avail) (VFloat 0) in
      let order_qty := vmax raw_needed min_lt in
      if vlt (VFloat 0) order_qty then vround order_qty else VInt 0.

(** [Series.clip(lower=0.0)] on one cell. *)
Definition clip_lower0 (v : value) : value :=
  if vlt v (VFloat 0) then VFloat 0 else v.

(** [df[h] = pd.to_numeric(df[h], errors="coerce").fillna(0.0)] on one
    row. *)
Definition numeric_cell (h : string) (r : row) : value :=
  to_numeric_fill0 parse_float (r h).

(** The columns computed on the merged table, in the order of the
    source: the header assigned and its cell as a function of the row
    so far.  [has_abc] is ["abc_class" in df_merged.columns]. *)
Definition derived_columns (days_per_month : Z) (service_level : Q)
    (safety_stock_mode : string) (review_days : Z) (has_abc : bool)
  : list (string * (row -> value)) :=
  let dpm := VFloat (inject_Z days_per_month) in
  [ ("forecast_next_month", numeric_cell "forecast_next_month");
    ("forecast_daily", fun r => vdiv (r "forecast_next_month") dpm);
    ("on_hand_dc", numeric_cell "on_hand_dc");
    ("on_order_from_china", numeric_cell "on_order_from_china");
    ("available_qty_total",
      fun r => vadd (r "on_hand_dc") (r "on_order_from_china"));
    ("lead_time_import_days", numeric_cell "lead_time_import_days");
    ("safety_stock_days", numeric_cell "safety_stock_days");
    ("demand_std", numeric_cell "demand_std");
    ("demand_daily_std", fun r => vdiv (r "demand_std") (vsqrt dpm));
    ("service_level_effective",
      if has_abc then _map_service_level true service_level
      else fun _ => VFloat service_level);
    ("safety_stock_qty", _calc_safety_stock safety_stock_mode);
    ("days_of_supply", _calc_dos);
    ("reorder_point",
      fun r => vadd (vmul (r "forecast_daily") (r "lead_time_import_days"))
                    (r "safety_stock_qty"));
    ("demand_during_lead_time",
      fun r => vmul (r "forecast_daily") (r "lead_time_import_days"));
    ("min_order_qty_lt",
      fun r => clip_lower0 (vsub (r "demand_during_lead_time")
                                 (r "available_qty_total")));
    ("review_buffer_qty",
      fun r => vmul (r "forecast_daily") (VFloat (inject_Z review_days)));
    ("inventory_decision", _decide_action);
    ("target_coverage_days",
      fun r => vadd (r "lead_time_import_days") (r "safety_stock_days"));
    ("target_stock_level",
      fun r => vmul (r "forecast_daily") (r "target_coverage_days"));
    ("suggested_order_qty", _calc_order_qty);
    ("service_level", fun _ => VFloat service_level);
    ("safety_stock_mode", fun _ => VStr safety_stock_mode);
    ("review_days", fun _ => VInt review_days) ].

Definition assign_all (steps : list (string * (row -> value)))
    (df : DataFrame) : DataFrame :=
  fold_left (fun df step => assign (fst step) (snd step) df) steps df.

(** The same assignments on one row. *)
Definition derive_row (steps : list (string * (row -> value))) (r : row)
  : row :=
  fold_left (fun r step => upd r (fst step) (snd step r)) steps r.

(** The last assignment to [h] among [steps], with the assignments
    made before it; [pre] are those made before [steps]. *)
Fixpoint last_assign (h : string) (pre steps : list (string * (row -> value)))
  : option (list (string * (row -> value)) * (row -> value)) :=
  match steps with
  | [] => None
  | s :: t =>
      match last_assign h (pre ++ [s]) t with
      | Some found => Some found
      | None => if String.eqb h (fst s) then Some (pre, snd s) else None
      end
  end.

(** The part of [plan_inventory_dc] after the join.  The two columns
    read from the forecast side are missing from the merged table when
    the inventory table has a column of the same name, the join then
    renaming both; the read raises [KeyError].  No assignment before the
    read of [demand_std] adds a column of that name, so both reads are
    checked on the merged table. *)
Definition derive (days_per_month : Z) (service_level : Q)
    (safety_stock_mode : string) (review_days : Z)
    (df_merged : DataFrame) : result DataFrame :=
  _ <- require "forecast_next_month" df_merged ;;
  _ <- require "demand_std" df_merged ;;
  let df :=
    assign_all
      (derived_columns days_per_month service_level safety_stock_mode
         review_days (has_col "abc_class" df_merged))
      df_merged in
  let cols_order :=
    if has_col "abc_class" df then (cols_order ++ ["abc_class"])%list
    else cols_order in
  let cols_final := filter (fun c => has_col c df) cols_order in
  Ok (select cols_final df).

(** The stripped headers, with [item name] accepted for [iteam name]. *)
Definition inventory_headers (df_inventory_dc : DataFrame) : DataFrame :=
  let df_i := rename_columns strip df_inventory_dc in
  if negb (has_col "iteam name" df_i) && has_col "item name" df_i
  then rename_columns
         (fun c => if (c =? "item name")%string then "iteam name" else c)
         df_i
  else df_i.

Definition missing (required : list string) (df : DataFrame)
  : list string :=
  filter (fun c => negb (has_col c df)) required.

(** The forecast rows as they enter the join: keyed, and one row for
    each key, the one of the largest [demand_total]. *)
Definition keyed (df : DataFrame) : DataFrame :=
  assign "item_code_key"
    (fun r => VStr (normalize_item_code (r "item code"))) df.

Definition forecast_for_merge (df_f : DataFrame) : DataFrame :=
  let df_f := keyed df_f in
  let df_f := numeric "demand_total" df_f in
  let df_f :=
    drop_duplicates "item_code_key" (sort_values_desc "demand_total" df_f) in
  let forecast_cols_for_merge :=
    "item_code_key"
      :: (filter (fun c => negb (c =? "item code")%string)
            required_forecast_cols
          ++ (if has_col "abc_class" df_f then ["abc_class"] else []))%list
  in
  select forecast_cols_for_merge df_f.

Definition plan_inventory_dc
    (df_product_forecast df_inventory_dc : DataFrame)
    (days_per_month : Z) (service_level : Q)
    (safety_stock_mode : string) (review_days : Z) : result DataFrame :=
  let df_f := rename_columns strip df_product_forecast in
  let df_i := inventory_headers df_inventory_dc in
  let missing_f := missing required_forecast_cols df_f in
  let missing_i := missing required_inv_cols df_i in
  match missing_f, missing_i with
  | _ :: _, _ => Raise (MissingColumns Forecast missing_f)
  | [], _ :: _ => Raise (MissingColumns InventorySnapshot missing_i)
  | [], [] =>
      let df_merged :=
        merge_left (keyed df_i) (forecast_for_merge df_f)
                   "item_code_key" in
      derive days_per_month service_level safety_stock_mode review_days
             df_merged
  end.

(** The inputs that pass the two checks of the required columns. *)
Definition schema_valid (df_product_forecast df_inventory_dc : DataFrame)
  : bool :=
  let df_f := rename_columns strip df_product_forecast in
  let df_i := inventory_headers df_inventory_dc in
  forallb (fun c => has_col c df_f) required_forecast_cols
  && forallb (fun c => has_col c df_i) required_inv_cols.

(** The inventory table has a column named as one of the two forecast
    columns that are read after the join.  No check of the code looks for
    it; the join then renames the column on both sides. *)
Definition forecast_clash (df_inventory_dc : DataFrame) : bool :=
  let df_i := inventory_headers df_inventory_dc in
  has_col "forecast_next_month" df_i || has_col "demand_std" df_i.
(** The safety stock as [_calc_safety_stock] computes it, on numbers;
    [z] is the factor of the effective service level. *)
Definition safety_stock_code (safety_stock_mode : string)
    (forecast_daily safety_stock_days lead_time_days sigma_d z : Q) : Q :=
  if Qle_bool forecast_daily 0 then 0
  else if (safety_stock_mode =? "days")%string
  then forecast_daily * safety_stock_days
  else if Qlt_bool 0 z && Qlt_bool 0 sigma_d && Qlt_bool 0 lead_time_days
  then z * sigma_d * sqrtQ lead_time_days
  else forecast_daily * safety_stock_days.

End Planner.

(** A header that is not one the join has made by a suffix. *)
Definition plain (h : string) : Prop :=
  forall c, (c ++ "_x")%string <> h /\ (c ++ "_y")%string <> h.

End Inventory.

(* ================================================================== *)
(** ** Whole numbers as texts *)

Module Numerals.
Import PyStr.

(** The characters of a signed numeral with a point. *)
Definition numeral_char (c : ascii) : bool :=
  is_digit c || Ascii.eqb c "-" || Ascii.eqb c ".".

(** The text of a whole number followed by a point and [k] zeros, and
    without the point when [k] is 0: "120", "120.0", "120.00". *)
Definition whole_text (z : Z) (k : nat) : string :=
  match k with
  | O => str_Z z
  | S _ => (str_Z z ++ "." ++ PyDecimal.zeros k)%string
  end.

End Numerals.

(* ================================================================== *)
(** ** app.py: the reports on a plan *)

Module App.
Import PyStr PyNum PyVal PyFrame.
Local Open Scope Q_scope.

(** [df[mask]]: the rows on which the mask holds, in their order. *)
Definition select_rows (mask : row -> bool) (df : DataFrame) : DataFrame :=
  {| columns := columns df; rows := filter mask (rows df) |}.

(** [df_plan[df_plan["inventory_decision"] == decision]]. *)
Definition decision_is (decision : string) (r : row) : bool :=
  veqb (r "inventory_decision") (VStr decision).

Definition df_order (df_plan : DataFrame) : DataFrame :=
  select_rows (decision_is "Order") df_plan.

Definition df_review (df_plan : DataFrame) : DataFrame :=
  select_rows (decision_is "Review") df_plan.

Definition df_hold (df_plan : DataFrame) : DataFrame :=
  select_rows (decision_is "Hold") df_plan.

(** [(df_plan["forecast_next_month"] == 0)
     & (df_plan["available_qty_total"] > 0)]. *)
Definition no_demand_with_stock (r : row) : bool :=
  veqb (r "forecast_next_month") (VInt 0)
  && vlt (VInt 0) (r "available_qty_total").

Definition df_no_demand_with_stock (df_plan : DataFrame) : DataFrame :=
  select_rows no_demand_with_stock df_plan.

(** [df_plan["days_of_supply"].notna()
     & (df_plan["days_of_supply"] >= dos_threshold)
     & (df_plan["forecast_daily"] > 0)]. *)
Definition mask_excess (dos_threshold : Z) (r : row) : bool :=
  negb (isna (r "days_of_supply"))
  && vle (VInt dos_threshold) (r "days_of_supply")
  && vlt (VInt 0) (r "forecast_daily").

Definition df_excess (dos_threshold : Z) (df_plan : DataFrame) : DataFrame :=
  select_rows (mask_excess dos_threshold) df_plan.

(** The loop over the uploaded files.  A file comes with the label typed
    for it.  The state is [used_labels] and [month_dfs]; the dictionary
    is the list of its items in the order of insertion, and a key that is
    new goes to its end. *)
Definition keep_file {A} (state : list string * list (string * A))
    (f : string * A) : list string * list (string * A) :=
  let (used_labels, month_dfs) := state in
  let month_label := strip (fst f) in
  if (month_label =? "")%string then state
  else if mem month_label used_labels then state
  else (month_label :: used_labels,
        (month_dfs ++ [(month_label, snd f)])%list).

Definition collect_months {A} (uploaded : list (string * A))
  : list string * list (string * A) :=
  fold_left keep_file uploaded ([], []).

End App.

(* ================================================================== *)
(** ** Sample inputs *)

Module Samples.
Import PyStr PyVal PyFrame.
Local Open Scope Q_scope.

(** Stand-ins for the library functions, right on the cells of the
    samples: whole floats print as [n.0], a text is a number when it is a
    decimal numeral, and the root is the integer root. *)
Definition float_repr (q : Q) : string := (str_Z (Qfloor q) ++ ".0")%string.

Definition parse_float (s : string) : option Q :=
  match PyDecimal.of_string s with
  | Some (PyDecimal.Finite neg c e) =>
      let m := inject_Z (Z.of_N c) * (10 # 1) ^ e in
      Some (if neg then - m else m)
  | _ => None
  end.

Definition sqrtQ (q : Q) : Q := inject_Z (Z.sqrt (Qfloor q)).

(** One product of total demand 5. *)
Definition one_item : Demand.SummaryRow :=
  Demand.mkSummary "1001" "widget"
    (Demand._compute_demand_stats_and_forecast sqrtQ [Some 5]).

Definition series : list (option Q) := [Some 10; Some 20; Some 30].

(** A month sheet with a total column, a total row, a blank cell and a
    zero. *)
Definition sheet : DataFrame :=
  mkFrame [" iteam name"; "item code "; "Branch A"; "Grand Total"; "B2"]
    [ row_of [(" iteam name", VStr "Widget"); ("item code ", VFloat 123);
              ("Branch A", VInt 0); ("Grand Total", VInt 7); ("B2", VNaN)];
      row_of [(" iteam name", VStr "Total"); ("item code ", VStr "999");
              ("Branch A", VInt 4); ("Grand Total", VInt 7); ("B2", VInt 3)];
      row_of [(" iteam name", VStr "Gadget"); ("item code ", VStr "1,000.0");
              ("Branch A", VStr ""); ("Grand Total", VInt 7);
              ("B2", VInt 3)] ].

Definition long_table : list Demand.DemandRecord :=
  match Demand.build_long_from_wide_month float_repr parse_float sheet
          "01-2025" "iteam name" "item code" with
  | Some rows => rows
  | None => []
  end.

Definition forecast_row (code total fc std : value) (abc : string) : row :=
  row_of [("item code", code); ("months_count", VInt 3);
          ("months_list", VStr "2025-01,2025-02,2025-03");
          ("demand_total", total); ("demand_avg_all", VFloat 1);
          ("demand_avg_nonzero", VFloat 1); ("demand_std", std);
          ("demand_cv", VNaN); ("last_month_demand", VFloat 0);
          ("forecast_next_month", fc);
          ("forecast_next_month_rounded", VInt 0);
          ("forecast_method", VStr "mean_all_few_months");
          ("abc_class", VStr abc)].

(** A forecast table in which the code 100 comes twice. *)
Definition forecast : DataFrame :=
  mkFrame (Inventory.required_forecast_cols ++ ["abc_class"])
    [ forecast_row (VStr "100") (VFloat 50) (VFloat 300) (VFloat 30) "A";
      forecast_row (VStr "100.0") (VFloat 70) (VFloat 600) (VFloat 30) "B";
      forecast_row (VStr "200") (VFloat 10) (VFloat 0) (VFloat 0) "C" ].

Definition snapshot_row (code : value) (name : string)
    (on_hand on_order lead_time safety_days : value) : row :=
  row_of [("item code", code); ("item name ", VStr name);
          ("on_hand_dc", on_hand); ("on_order_from_china", on_order);
          ("lead_time_import_days", lead_time);
          ("safety_stock_days", safety_days)].

Definition snapshot : DataFrame :=
  mkFrame ["item code"; "item name "; "on_hand_dc"; "on_order_from_china";
           "lead_time_import_days"; "safety_stock_days"]
    [ snapshot_row (VInt 100) "widget" (VInt 0) (VInt 0) (VInt 30) (VInt 10);
      snapshot_row (VStr "200") "gadget" (VInt 5) VNaN (VInt 30) (VInt 10);
      snapshot_row (VStr "300") "gizmo" (VInt 5) (VInt 1) (VInt 30) (VInt 10);
      snapshot_row (VFloat 100) "widget" (VInt 10000) (VInt 0) (VInt 30)
        (VInt 10) ].

(** The same snapshot with one column more, named as a column of the
    forecast table. *)
Definition snapshot_with_forecast : DataFrame :=
  mkFrame (columns snapshot ++ ["forecast_next_month"])
    (map (fun r => upd r "forecast_next_month" (VInt 12)) (rows snapshot)).

Definition run : Inventory.result DataFrame :=
  Inventory.plan_inventory_dc float_repr parse_float sqrtQ
    forecast snapshot 30 (95 # 100) "stat" 7.

Definition plan_table : DataFrame :=
  match run with
  | Inventory.Ok df => df
  | Inventory.Raise _ => mkFrame [] []
  end.

Definition first_row : row := hd (fun _ => VNaN) (rows plan_table).

(** Three products of the totals 9, 18 and 1. *)
Definition item_of (code : string) (total : Q) : Demand.SummaryRow :=
  Demand.mkSummary code "item"
    (Demand._compute_demand_stats_and_forecast sqrtQ [Some total]).

Definition three_items : list Demand.SummaryRow :=
  [item_of "1" 9; item_of "2" 18; item_of "3" 1].

(** The rows of the snapshot of the codes 100 and 300, the second one a
    code that no forecast row has, and the first forecast row. *)
Definition widget_row : row :=
  nth 0 (rows (Inventory.inventory_headers snapshot)) (fun _ => VNaN).

Definition gizmo_row : row :=
  nth 2 (rows (Inventory.inventory_headers snapshot)) (fun _ => VNaN).

Definition widget_forecast : row :=
  nth 0 (rows (rename_columns strip forecast)) (fun _ => VNaN).

(** A row that has nothing but a class. *)
Definition class_row (abc : value) : row := row_of [("abc_class", abc)].

End Samples.

(* ================================================================== *)
(** * Properties *)

(** ** Numbers *)

Section NumberFacts.
Import PyNum.
Local Open Scope Q_scope.

Lemma Qlt_bool_iff (a b : Q) : Qlt_bool a b = true <-> a < b.
Proof.
  unfold Qlt_bool. rewrite negb_true_iff.
  split; intro H.
  - apply Qnot_le_lt. intro Hle. apply Qle_bool_iff in Hle. congruence.
  - apply not_true_is_false. intro Hle. apply Qle_bool_iff in Hle.
    apply (Qlt_not_le _ _ H Hle).
Qed.

Lemma Qlt_bool_false_iff (a b : Q) : Qlt_bool a b = false <-> b <= a.
Proof.
  unfold Qlt_bool. rewrite negb_false_iff. apply Qle_bool_iff.
Qed.

Lemma Qle_bool_false_iff (a b : Q) : Qle_bool a b = false <-> b < a.
Proof.
  rewrite <- (Qlt_bool_iff b a). unfold Qlt_bool.
  rewrite negb_true_iff. tauto.
Qed.

Lemma Qeq_bool_false_iff (a b : Q) : Qeq_bool a b = false <-> ~ a == b.
Proof.
  rewrite <- Qeq_bool_iff. symmetry. apply not_true_iff_false.
Qed.

Lemma sumQ_app (a b : list Q) : sumQ (a ++ b)%list == sumQ a + sumQ b.
Proof.
  induction a as [|x a IH]; simpl.
  - lra.
  - rewrite IH. lra.
Qed.

Lemma sumQ_repeat (c : Q) (n : nat) :
  sumQ (repeat c n) == c * inject_Z (Z.of_nat n).
Proof.
  induction n as [|n IH].
  - change (0 == c * 0). lra.
  - cbn [repeat sumQ fold_right]. fold (sumQ (repeat c n)). rewrite IH.
    rewrite Nat2Z.inj_succ. unfold Z.succ. rewrite inject_Z_plus.
    change (inject_Z 1) with 1. lra.
Qed.

Lemma mul_arrays_app (a b wa wb : list Q) :
  length a = length wa ->
  (mul_arrays (a ++ b) (wa ++ wb) = mul_arrays a wa ++ mul_arrays b wb)%list.
Proof.
  revert wa. induction a as [|x a IH]; intros [|w wa] Hlen;
    simpl in *; try discriminate; auto.
  f_equal. apply IH. lia.
Qed.

Lemma sumQ_mul_repeat (c : Q) (a : list Q) :
  sumQ (mul_arrays a (repeat c (length a))) == c * sumQ a.
Proof.
  induction a as [|x a IH]; simpl.
  - lra.
  - fold (sumQ (mul_arrays a (repeat c (length a)))). rewrite IH.
    fold (sumQ a). lra.
Qed.

Lemma length_tail {A} (k : nat) (l : list A) :
  (k <= length l)%nat -> length (tail k l) = k.
Proof.
  intro H. unfold tail. rewrite length_skipn. lia.
Qed.

#[local] Instance py_round_compat : Proper (Qeq ==> eq) py_round.
Proof.
  intros x y Hxy. unfold py_round.
  rewrite (Qfloor_comp _ _ Hxy).
  assert (E : x - inject_Z (Qfloor y) == y - inject_Z (Qfloor y))
    by (rewrite Hxy; reflexivity).
  rewrite (Qcompare_comp _ _ E _ _ (Qeq_refl (1 # 2))).
  reflexivity.
Qed.

Lemma py_round_nonneg (x : Q) : 0 <= x -> (0 <= py_round x)%Z.
Proof.
  intro Hx. unfold py_round.
  assert (Hf : (0 <= Qfloor x)%Z).
  { change 0%Z with (Qfloor 0). apply Qfloor_resp_le. exact Hx. }
  destruct (Qcompare _ _); [destruct (Z.even _)| |]; lia.
Qed.

End NumberFacts.

(** ** The forecast engine *)

Section ForecastFacts.
Import PyStr PyNum Demand.
Local Open Scope Q_scope.
Variable sqrtQ : Q -> Q.

Lemma window_weights_ge3 (m : nat) :
  (3 <= m)%nat -> window_weights m = (repeat 1 (m - 3) ++ repeat 2 3)%list.
Proof.
  intro H. unfold window_weights. rewrite (Nat.min_l 3 m H). reflexivity.
Qed.

Lemma sumQ_mul_repeat_len (c : Q) (a : list Q) (n : nat) :
  length a = n -> sumQ (mul_arrays a (repeat c n)) == c * sumQ a.
Proof. intros <-. apply sumQ_mul_repeat. Qed.

Lemma weighted_window (w : list Q) :
  (3 <= length w)%nat ->
  sumQ (mul_arrays w (window_weights (length w)))
    / sumQ (window_weights (length w))
  == weighted_old1_new2 w.
Proof.
  intro H. unfold weighted_old1_new2.
  rewrite (window_weights_ge3 _ H).
  set (k := (length w - 3)%nat).
  assert (Hold : length (firstn k w) = k)
    by (rewrite length_firstn; subst k; lia).
  assert (Hnew : length (skipn k w) = 3%nat)
    by (rewrite length_skipn; subst k; lia).
  rewrite <- (firstn_skipn k w) at 1.
  rewrite mul_arrays_app by (rewrite repeat_length; exact Hold).
  rewrite !sumQ_app, !sumQ_repeat.
  rewrite (sumQ_mul_repeat_len 1 _ _ Hold), (sumQ_mul_repeat_len 2 _ _ Hnew).
  rewrite inject_Z_plus.
  change (inject_Z (Z.of_nat 3)) with 3.
  change (inject_Z (2 * 3)) with 6.
  apply Qdiv_comp; lra.
Qed.

Lemma mean_last_differs (m : nat) (s : string) :
  s = "zero_demand" \/ s = "avg_nonzero_intermittent"
  \/ s = "mean_all_few_months"
  \/ (exists k, s = ("weighted_last_" ++ str_nat k ++ "_old1_new2")%string) ->
  s <> ("mean_last_" ++ str_nat m)%string.
Proof.
  intros [-> | [-> | [-> | [k ->]]]]; simpl; discriminate.
Qed.

Lemma forecast_method_cases (d : list Q) :
  let s := snd (forecast_of d) in
  s = "zero_demand" \/ s = "avg_nonzero_intermittent"
  \/ s = "mean_all_few_months"
  \/ (exists k, s = ("weighted_last_" ++ str_nat k ++ "_old1_new2")%string).
Proof.
  unfold forecast_of.
  destruct (Qeq_bool (total_of d) 0); [now left|].
  destruct (_ && _); [now right; left|].
  destruct (4 <=? length d)%nat eqn:Hn; [|now right; right; left].
  apply Nat.leb_le in Hn.
  rewrite length_tail by lia.
  destruct (Nat.min 9 (length d) <=? 3)%nat eqn:Hm.
  - apply Nat.leb_le in Hm. lia.
  - right; right; right. eexists. reflexivity.
Qed.

(** C4.  For a non-empty series the forecast follows one precedence:
    total 0 gives forecast 0 by "zero_demand"; otherwise a zero ratio of at
    least one half with a positive mean of the positive values gives that
    mean by "avg_nonzero_intermittent"; otherwise four or more points give
    the weighted mean of the last min(9,n) points, weight 1 on the oldest
    m-3 and weight 2 on the latest 3; otherwise the mean of all points by
    "mean_all_few_months".  The three series of the design document give
    0, 5 and 20. *)
Theorem forecast_precedence (demand : list (option Q)) :
  demand <> [] ->
  let d := fillna0 demand in
  let st := _compute_demand_stats_and_forecast sqrtQ demand in
  let n := length d in
  let window := tail (Nat.min 9 n) d in
  let intermittent := 1 # 2 <= zero_ratio st /\ 0 < demand_avg_nonzero st in
  (demand_total st == 0 ->
     forecast_next_month st == 0 /\ forecast_method st = "zero_demand")
  /\ (~ demand_total st == 0 -> intermittent ->
        forecast_next_month st == demand_avg_nonzero st
        /\ forecast_method st = "avg_nonzero_intermittent")
  /\ (~ demand_total st == 0 -> ~ intermittent -> (4 <= n)%nat ->
        length window = Nat.min 9 n
        /\ window = skipn (n - Nat.min 9 n) d
        /\ forecast_next_month st == weighted_old1_new2 window
        /\ forecast_method st
           = ("weighted_last_" ++ str_nat (length window) ++ "_old1_new2")%string)
  /\ (~ demand_total st == 0 -> ~ intermittent -> (n < 4)%nat ->
        forecast_next_month st == meanQ d
        /\ forecast_method st = "mean_all_few_months")
  /\ (let z := _compute_demand_stats_and_forecast sqrtQ
                 [Some 0; Some 0; Some 0; Some 0; Some 0] in
      forecast_next_month z == 0 /\ forecast_method z = "zero_demand")
  /\ (let i := _compute_demand_stats_and_forecast sqrtQ
                 [Some 0; Some 5; Some 0; Some 0; Some 0] in
      forecast_next_month i == 5
      /\ forecast_method i = "avg_nonzero_intermittent")
  /\ (let f := _compute_demand_stats_and_forecast sqrtQ
                 [Some 10; Some 20; Some 30] in
      forecast_next_month f == 20
      /\ forecast_method f = "mean_all_few_months").
Proof.
  intros Hne d st n window intermittent.
  assert (Hn : (0 < n)%nat).
  { subst n d. unfold fillna0. rewrite length_map.
    destruct demand; [congruence | simpl; lia]. }
  assert (Hinter : intermittent <->
            Qle_bool (1 # 2) (zero_ratio_of d)
            && Qlt_bool 0 (avg_nonzero_of d) = true).
  { subst intermittent st. cbn [zero_ratio demand_avg_nonzero
      _compute_demand_stats_and_forecast]. fold d.
    rewrite andb_true_iff, Qle_bool_iff, Qlt_bool_iff. reflexivity. }
  subst st. cbn [demand_total forecast_next_month forecast_method
    _compute_demand_stats_and_forecast]. fold d.
  unfold forecast_of. fold n. fold window.
  assert (Hw : (4 <= n)%nat -> length window = Nat.min 9 n)
    by (intro; subst window; apply length_tail; lia).
  split; [|split; [|split; [|split; [|split; [|split]]]]].
  - intros Ht. apply Qeq_bool_iff in Ht. rewrite Ht. split; reflexivity.
  - intros Ht Hi. apply Qeq_bool_false_iff in Ht. rewrite Ht.
    apply Hinter in Hi. rewrite Hi. split; reflexivity.
  - intros Ht Hi Hge. apply Qeq_bool_false_iff in Ht. rewrite Ht.
    destruct (_ && _) eqn:E; [exfalso; apply Hi, Hinter; reflexivity|].
    specialize (Hw Hge).
    assert (Hlast : (length window <=? 3)%nat = false)
      by (apply Nat.leb_gt; lia).
    apply Nat.leb_le in Hge. rewrite Hge, Hlast. cbn [fst snd].
    split; [exact Hw|]. split; [reflexivity|].
    split; [|reflexivity].
    apply weighted_window. apply Nat.leb_gt in Hlast. lia.
  - intros Ht Hi Hlt. apply Qeq_bool_false_iff in Ht. rewrite Ht.
    destruct (_ && _) eqn:E; [exfalso; apply Hi, Hinter; reflexivity|].
    apply Nat.leb_gt in Hlt. rewrite Hlt.
    apply Nat.ltb_lt in Hn. rewrite Hn. split; reflexivity.
  - vm_compute. split; reflexivity.
  - vm_compute. split; reflexivity.
  - vm_compute. split; reflexivity.
Qed.

(** C5.  The rounded forecast is max(round(forecast), 0), and so it is
    never negative. *)
Theorem rounded_forecast_is_clamped (demand : list (option Q)) :
  let st := _compute_demand_stats_and_forecast sqrtQ demand in
  forecast_next_month_rounded st
    = Z.max (py_round (forecast_next_month st)) 0
  /\ (0 <= forecast_next_month_rounded st)%Z.
Proof.
  cbn. split; [reflexivity | apply Z.le_max_r].
Qed.

(** C10.  No series is given a method named "mean_last_m": the window
    holds min(9,n) points, at least 4 whenever the windowed branch is
    taken, so its sub-branch for at most 3 points is dead. *)
Theorem mean_last_unreachable (demand : list (option Q)) :
  let d := fillna0 demand in
  let st := _compute_demand_stats_and_forecast sqrtQ demand in
  let n := length d in
  (forall m, forecast_method st <> ("mean_last_" ++ str_nat m)%string)
  /\ length (tail (Nat.min 9 n) d) = Nat.min 9 n
  /\ ((4 <=? n)%nat = (4 <=? Nat.min 9 n)%nat).
Proof.
  intros d st n. repeat split.
  - intro m. apply mean_last_differs.
    subst st. cbn [forecast_method _compute_demand_stats_and_forecast].
    apply forecast_method_cases.
  - apply length_tail. lia.
  - destruct (4 <=? n)%nat eqn:E; symmetry.
    + apply Nat.leb_le in E. apply Nat.leb_le. lia.
    + apply Nat.leb_gt in E. apply Nat.leb_gt. lia.
Qed.

End ForecastFacts.

(** ** ABC classes *)

Section AbcFacts.
Import PyStr PyNum Demand.
Local Open Scope Q_scope.

Lemma _abc_of_one (x : Q) : x == 1 -> _abc x = "C".
Proof.
  intro Hx. unfold _abc.
  assert (H1 : Qle_bool x (8 # 10) = false)
    by (apply Qle_bool_false_iff; rewrite Hx; reflexivity).
  assert (H2 : Qle_bool x (95 # 100) = false)
    by (apply Qle_bool_false_iff; rewrite Hx; reflexivity).
  rewrite H1, H2. reflexivity.
Qed.

(** C1, as the code has it.  A table of one item of positive total demand
    gets the share 1 and the cumulative share 1, and as 1 is above both
    thresholds 0.80 and 0.95, the class "C". *)
Theorem single_item_abc (r : SummaryRow) :
  0 < row_total r ->
  exists p,
    abc_classify [r] = [p]
    /\ summary p = r
    /\ demand_share p == 1
    /\ cum_demand_share p == 1
    /\ abc_class p = "C".
Proof.
  intro Hpos. unfold abc_classify.
  cbn [map sumQ fold_right].
  assert (Ht : row_total r + 0 == row_total r) by lra.
  assert (Hlt : Qlt_bool 0 (row_total r + 0) = true)
    by (apply Qlt_bool_iff; lra).
  rewrite Hlt. cbn.
  assert (Hshare : row_total r / (row_total r + 0) == 1).
  { rewrite Ht. field. lra. }
  assert (Hcum : 0 + row_total r / (row_total r + 0) == 1)
    by (rewrite Hshare; reflexivity).
  eexists. split; [reflexivity|]. cbn.
  repeat split; auto.
  apply _abc_of_one. exact Hcum.
Qed.

End AbcFacts.

Lemma single_item_abc_witness :
  (0 < Demand.row_total Samples.one_item)%Q
  /\ exists p,
       Demand.abc_classify [Samples.one_item] = [p]
       /\ Demand.summary p = Samples.one_item
       /\ (Demand.demand_share p == 1)%Q
       /\ (Demand.cum_demand_share p == 1)%Q
       /\ Demand.abc_class p = "C".
Proof.
  split; [reflexivity | apply (single_item_abc Samples.one_item); reflexivity].
Defined.

(** C1, as the design document has it, fails: the one item is not given
    the class "A". *)
Lemma single_item_abc_counterexample :
  ~ (forall r : Demand.SummaryRow,
       (0 < Demand.row_total r)%Q ->
       exists p,
         Demand.abc_classify [r] = [p]
         /\ Demand.abc_class p = "A"
         /\ (Demand.cum_demand_share p == 1)%Q).
Proof.
  intro H.
  destruct (H Samples.one_item) as (p & Hp & Hclass & _); [reflexivity|].
  vm_compute in Hp. injection Hp as Hp. subst p.
  discriminate Hclass.
Qed.

(** ** The code normaliser *)

Section NormalizerFacts.
Import PyStr PyVal Demand.
Variable float_repr : Q -> string.

(** C6 at the inputs of the design document.  The text "6.97E+12" comes
    back as it went in, not as "6970000000000": a decimal of exponent 0
    or more is its own integral value and prints in scientific notation.
    The other inputs come back as documented. *)
Theorem normalize_keeps_scientific :
  normalize_item_code float_repr (VStr "6.97E+12") = "6.97E+12"
  /\ normalize_item_code float_repr (VStr "6.97E+12") <> "6970000000000"
  /\ normalize_item_code float_repr (VStr "6970000000000.0") = "6970000000000"
  /\ normalize_item_code float_repr (VStr "0.5") = "0.5"
  /\ normalize_item_code float_repr (VStr "") = ""
  /\ normalize_item_code float_repr (VStr " 123,456 ") = "123456"
  /\ normalize_item_code float_repr (VStr "nan") = ""
  /\ normalize_item_code float_repr VNone = ""
  /\ normalize_item_code float_repr VNaN = "".
Proof.
  repeat split; try reflexivity.
  vm_compute. discriminate.
Qed.

(** A text that [Decimal] refuses comes back cleaned and otherwise
    unchanged. *)
Lemma normalize_unparseable (s : string) :
  let t := strip s in
  let s_clean := strip (remove_char "," t) in
  (t =? "")%string || (lower t =? "nan")%string = false ->
  PyDecimal.of_string s_clean = None ->
  normalize_item_code float_repr (VStr s) = s_clean.
Proof.
  intros t s_clean Hblank Hparse. unfold normalize_item_code.
  cbn [isna str]. fold t. rewrite Hblank. fold s_clean.
  rewrite Hparse. reflexivity.
Qed.

(** A finite decimal of negative exponent whose value is not whole comes
    back as the cleaned text. *)
Lemma normalize_fractional (s : string) (neg : bool) (c : N) (e : Z) :
  let t := strip s in
  let s_clean := strip (remove_char "," t) in
  (t =? "")%string || (lower t =? "nan")%string = false ->
  PyDecimal.of_string s_clean = Some (PyDecimal.Finite neg c e) ->
  (e < 0)%Z ->
  (c mod Z.to_N (10 ^ (- e)) <> 0)%N ->
  normalize_item_code float_repr (VStr s) = s_clean.
Proof.
  intros t s_clean Hblank Hparse He Hfrac. unfold normalize_item_code.
  cbn [isna str]. fold t. rewrite Hblank. fold s_clean.
  rewrite Hparse. cbn [PyDecimal.to_integral_value].
  destruct (0 <=? e)%Z eqn:E; [apply Z.leb_le in E; lia|].
  set (p := Z.to_N (10 ^ (- e))) in *.
  set (q := PyDecimal.div_half_even c p).
  cbn [PyDecimal.eqb].
  destruct ((c =? 0)%N && (q =? 0)%N) eqn:Hz.
  - apply andb_true_iff in Hz. destruct Hz as [Hc _].
    apply N.eqb_eq in Hc. subst c. exfalso. apply Hfrac.
    apply N.Div0.mod_0_l.
  - rewrite eqb_reflx. cbn [andb].
    rewrite (Z.min_l e 0) by lia.
    rewrite Z.sub_diag. change (10 ^ 0)%Z with 1%Z. rewrite Z.mul_1_r.
    rewrite Z.sub_0_l.
    destruct (Z.of_N c =? Z.of_N q * 10 ^ (- e))%Z eqn:Heq; [|reflexivity].
    exfalso. apply Hfrac. apply Z.eqb_eq in Heq.
    assert (Hp : Z.of_N p = (10 ^ (- e))%Z).
    { subst p. apply Z2N.id. apply Z.pow_nonneg. lia. }
    rewrite <- Hp in Heq. rewrite <- N2Z.inj_mul in Heq.
    apply N2Z.inj in Heq. rewrite Heq. apply N.Div0.mod_mul.
Qed.

End NormalizerFacts.

(** ** From wide to long *)

Section SheetFacts.
Import PyStr PyVal PyFrame Demand.
Local Open Scope Q_scope.
Variable float_repr : Q -> string.
Variable parse_float : string -> option Q.

Local Abbreviation clean := (clean_long float_repr parse_float).
Local Abbreviation code_of m := (normalize_item_code float_repr (id_code m)).
Local Abbreviation name_of m := (strip (str float_repr (id_item m))).

Lemma clean_long_app (mo : string) (a b : list Melted) :
  clean mo (a ++ b)%list = (clean mo a ++ clean mo b)%list.
Proof.
  unfold clean_long.
  repeat (rewrite ?map_app, ?filter_app). reflexivity.
Qed.

(** The cleaning works cell by cell. *)
Lemma clean_long_flat (mo : string) (l : list Melted) :
  clean mo l = flat_map (fun m => clean mo [m]) l.
Proof.
  induction l as [|m l IH]; [reflexivity|].
  change (m :: l) with ([m] ++ l)%list at 1.
  rewrite clean_long_app, IH. reflexivity.
Qed.

(** What one melted cell leaves in the long table. *)
Lemma clean_long_one (mo : string) (m : Melted) :
  clean mo [m] =
  if negb (strip (code_of m) =? "")%string
     && negb (contains "total" (lower (name_of m)))
  then match to_numeric parse_float (cell_value m) with
       | Some q => [mkDemand mo (strip (variable m)) (code_of m) (name_of m) q]
       | None => []
       end
  else [].
Proof.
  unfold clean_long, code_present, not_total_row, demand_notna, stamp,
    with_demand, with_name, with_code.
  cbn -[normalize_item_code strip lower contains to_numeric str String.eqb].
  destruct (negb (strip (code_of m) =? "")%string); [|reflexivity].
  cbn -[normalize_item_code strip lower contains to_numeric str String.eqb].
  destruct (negb (contains "total" (lower (name_of m)))); [|reflexivity].
  cbn -[normalize_item_code strip lower contains to_numeric str String.eqb].
  destruct (to_numeric parse_float (cell_value m)); reflexivity.
Qed.

Lemma in_melt (item_col code_col : string) (vars : list string)
    (df : DataFrame) (m : Melted) :
  In m (melt item_col code_col vars df) -> In (variable m) vars.
Proof.
  unfold melt. rewrite in_flat_map. intros (c & Hc & Hm).
  apply in_map_iff in Hm. destruct Hm as (r & <- & _). exact Hc.
Qed.

Lemma in_branch_columns (item_col code_col c : string) (df : DataFrame) :
  In c (branch_columns item_col code_col df) ->
  In c (columns df) /\ _is_total_col c = false
  /\ c <> item_col /\ c <> code_col.
Proof.
  unfold branch_columns. rewrite filter_In.
  intros (Hin & Hok). apply andb_true_iff in Hok. destruct Hok as [Hid Htot].
  apply negb_true_iff in Hid, Htot.
  split; [exact Hin|]. split; [exact Htot|].
  unfold mem in Hid. cbn [existsb] in Hid.
  rewrite orb_false_r in Hid. apply orb_false_iff in Hid.
  destruct Hid as [H1 H2].
  apply String.eqb_neq in H1, H2. auto.
Qed.

Lemma clean_long_length (mo : string) (l : list Melted) :
  length (clean mo l)
  = length
      (filter
         (fun m =>
            negb (strip (code_of m) =? "")%string
            && negb (contains "total" (lower (name_of m)))
            && match to_numeric parse_float (cell_value m) with
               | Some _ => true
               | None => false
               end)
         l).
Proof.
  induction l as [|m l IH]; [reflexivity|].
  change (m :: l) with ([m] ++ l)%list at 1.
  rewrite clean_long_app, length_app, IH, clean_long_one.
  cbn [filter].
  destruct (negb (strip (code_of m) =? "")%string
            && negb (contains "total" (lower (name_of m))));
    [|reflexivity].
  cbn [andb].
  destruct (to_numeric parse_float (cell_value m)); reflexivity.
Qed.

Lemma branch_columns_filter (item_col code_col : string) (df : DataFrame) :
  branch_columns item_col code_col df
  = filter (fun c => negb (c =? item_col)%string
                     && negb (c =? code_col)%string
                     && negb (contains "total" (lower (strip c))))
           (columns df).
Proof.
  unfold branch_columns. apply filter_ext. intro c.
  unfold mem, _is_total_col. cbn [existsb].
  rewrite orb_false_r, negb_orb. reflexivity.
Qed.

Lemma branch_columns_iff (item_col code_col c : string) (df : DataFrame) :
  In c (branch_columns item_col code_col df)
  <-> In c (columns df) /\ c <> item_col /\ c <> code_col
      /\ contains "total" (lower (strip c)) = false.
Proof.
  rewrite branch_columns_filter, filter_In, !andb_true_iff, !negb_true_iff.
  rewrite !String.eqb_neq. tauto.
Qed.

Lemma melt_length (item_col code_col : string) (vars : list string)
    (df : DataFrame) :
  length (melt item_col code_col vars df)
  = (length vars * length (rows df))%nat.
Proof.
  unfold melt. induction vars as [|c vars IH]; [reflexivity|].
  cbn [flat_map length]. rewrite length_app, length_map, IH. reflexivity.
Qed.

Lemma prepared_shape (df_wide : DataFrame) :
  columns (prepared float_repr df_wide) = map strip (columns df_wide)
  /\ length (rows (prepared float_repr df_wide)) = length (rows df_wide).
Proof.
  unfold prepared.
  destruct (columns_reversed float_repr (rename_columns strip df_wide));
    unfold swap_id_columns, rename_columns; cbn [columns rows];
    rewrite ?length_map; split; reflexivity.
Qed.

Lemma row_of_renamed (f : string -> string) (r : row) (cols : list string)
    (c : string) :
  NoDup (map f cols) -> In c cols ->
  row_of (map (fun c => (f c, r c)) cols) (f c) = r c.
Proof.
  unfold row_of. induction cols as [|a cols IH]; intros Hnd Hin;
    [destruct Hin|].
  cbn [map find fst]. inversion Hnd as [|x l Hnot Hnd']. subst.
  destruct (String.eqb (f a) (f c)) eqn:E.
  - apply String.eqb_eq in E. destruct Hin as [-> | Hin]; [reflexivity|].
    exfalso. apply Hnot. rewrite E. apply in_map. exact Hin.
  - destruct Hin as [-> | Hin].
    + rewrite String.eqb_refl in E. discriminate E.
    + apply IH; assumption.
Qed.

(** The rows of the sheet that is melted are the rows of the sheet that
    was given, cell for cell under the trimmed headers; only the cells of
    the two id columns move, and only when these look reversed. *)
Lemma prepared_rows (df_wide : DataFrame) :
  NoDup (map strip (columns df_wide)) ->
  exists g : row -> row,
    rows (prepared float_repr df_wide) = map g (rows df_wide)
    /\ (forall r c, In c (columns df_wide) ->
          strip c <> "iteam name" -> strip c <> "item code" ->
          g r (strip c) = r c)
    /\ (columns_reversed float_repr (rename_columns strip df_wide) = false ->
        forall r c, In c (columns df_wide) -> g r (strip c) = r c).
Proof.
  intro Hnd. unfold prepared.
  destruct (columns_reversed float_repr (rename_columns strip df_wide)).
  - exists (fun r =>
              let r' := row_of (map (fun c => (strip c, r c))
                                  (columns df_wide)) in
              upd (upd r' "item code" (r' "iteam name"))
                "iteam name" (r' "item code")).
    split; [|split; [|discriminate]].
    + unfold swap_id_columns, rename_columns. cbn [rows columns].
      rewrite map_map. reflexivity.
    + intros r c Hc Hn1 Hn2. cbv zeta. unfold upd.
      apply String.eqb_neq in Hn1, Hn2. rewrite Hn1, Hn2.
      apply row_of_renamed; assumption.
  - exists (fun r => row_of (map (fun c => (strip c, r c))
                               (columns df_wide))).
    split; [reflexivity|].
    split; intros; apply row_of_renamed; assumption.
Qed.

(** C7.  The long table of a sheet holds no row of a branch whose header
    contains "total", whatever the case, and no row of an item whose
    trimmed name does.  The sheet is read with its headers trimmed and
    all its rows, each cell under its trimmed header.  Its branch columns are the columns other than the two
    id columns whose header does not contain "total", and the melted
    sheet has one cell for each branch column and each row, column after
    column.  The long table is made cell after cell of the melted sheet:
    a cell that is no number leaves no row, and a numeric cell, 0
    included, of a row with a code and without "total" in its name leaves
    exactly one row, with the cell's number as demand; so the long table
    has as many rows as the melted sheet has such cells. *)
Theorem wide_to_long_rows (df_wide : DataFrame)
    (month_label item_col code_col : string) (out : list DemandRecord) :
  build_long_from_wide_month float_repr parse_float
    df_wide month_label item_col code_col = Some out ->
  let sheet := prepared float_repr df_wide in
  let mo := standardize_month_label month_label in
  let branch_cols := branch_columns item_col code_col sheet in
  let cells := melt item_col code_col branch_cols sheet in
  let cell (r : row) (c : string) :=
    mkMelted (r item_col) (r code_col) c (r c) in
  let kept (m : Melted) :=
    negb (strip (code_of m) =? "")%string
    && negb (contains "total" (lower (name_of m)))
    && match to_numeric parse_float (cell_value m) with
       | Some _ => true
       | None => false
       end in
  (forall d, In d out ->
     contains "total" (lower (branch d)) = false
     /\ contains "total" (lower (d_iteam_name d)) = false
     /\ exists m, In m cells /\ d_iteam_name d = name_of m
                  /\ branch d = strip (variable m))
  /\ (forall c, contains "total" (lower (strip c)) = true ->
        forall d, In d out -> branch d <> strip c)
  /\ out = flat_map (fun m => clean mo [m]) cells
  /\ (forall m, to_numeric parse_float (cell_value m) = None ->
        clean mo [m] = [])
  /\ (forall i c b, clean mo [mkMelted i c b VNaN] = []
                    /\ clean mo [mkMelted i c b VNone] = [])
  /\ (forall m q,
        to_numeric parse_float (cell_value m) = Some q ->
        strip (code_of m) <> "" ->
        contains "total" (lower (name_of m)) = false ->
        clean mo [m]
        = [mkDemand mo (strip (variable m)) (code_of m) (name_of m) q])
  /\ (forall m,
        cell_value m = VInt 0 \/ cell_value m = VFloat 0 ->
        strip (code_of m) <> "" ->
        contains "total" (lower (name_of m)) = false ->
        exists d, clean mo [m] = [d] /\ demand d == 0
                  /\ branch d = strip (variable m))
  /\ (columns sheet = map strip (columns df_wide)
      /\ length (rows sheet) = length (rows df_wide))
  /\ (forall c, In c branch_cols
                <-> In c (columns sheet) /\ c <> item_col /\ c <> code_col
                    /\ contains "total" (lower (strip c)) = false)
  /\ branch_cols
     = filter (fun c => negb (c =? item_col)%string
                        && negb (c =? code_col)%string
                        && negb (contains "total" (lower (strip c))))
              (columns sheet)
  /\ cells
     = flat_map (fun c => map (fun r => cell r c) (rows sheet)) branch_cols
  /\ length cells = (length branch_cols * length (rows sheet))%nat
  /\ (forall r c, In r (rows sheet) -> In c branch_cols ->
        In (cell r c) cells)
  /\ out
     = flat_map
         (fun c => flat_map (fun r => clean mo [cell r c]) (rows sheet))
         branch_cols
  /\ (forall r c q,
        In r (rows sheet) -> In c (columns sheet) ->
        c <> item_col -> c <> code_col ->
        contains "total" (lower (strip c)) = false ->
        to_numeric parse_float (r c) = Some q ->
        strip (normalize_item_code float_repr (r code_col)) <> "" ->
        contains "total" (lower (strip (str float_repr (r item_col))))
        = false ->
        In (mkDemand mo (strip c)
              (normalize_item_code float_repr (r code_col))
              (strip (str float_repr (r item_col))) q)
           out)
  /\ length out = length (filter kept cells)
  /\ (length out <= length branch_cols * length (rows sheet))%nat
  /\ (NoDup (map strip (columns df_wide)) ->
      exists g : row -> row,
        rows sheet = map g (rows df_wide)
        /\ (forall r c, In c (columns df_wide) ->
              strip c <> "iteam name" -> strip c <> "item code" ->
              g r (strip c) = r c)
        /\ (columns_reversed float_repr (rename_columns strip df_wide)
            = false ->
            forall r c, In c (columns df_wide) -> g r (strip c) = r c)).
Proof.
  intros Hout sheet mo branch_cols cells cell kept.
  unfold build_long_from_wide_month in Hout.
  fold sheet in Hout. fold mo in Hout. fold branch_cols in Hout.
  destruct (has_col item_col sheet && has_col code_col sheet);
    [|discriminate].
  injection Hout as Hout. fold cells in Hout.
  assert (Hlen : length out = length (filter kept cells)).
  { rewrite <- Hout. apply clean_long_length. }
  rewrite clean_long_flat in Hout.
  assert (Hone : forall m q,
            to_numeric parse_float (cell_value m) = Some q ->
            strip (code_of m) <> "" ->
            contains "total" (lower (name_of m)) = false ->
            clean mo [m]
            = [mkDemand mo (strip (variable m)) (code_of m) (name_of m) q]).
  { intros m q Hq Hcode Hname. rewrite clean_long_one.
    apply String.eqb_neq in Hcode. rewrite Hcode, Hname, Hq. reflexivity. }
  assert (Hrows : forall d, In d out ->
            contains "total" (lower (branch d)) = false
            /\ contains "total" (lower (d_iteam_name d)) = false
            /\ exists m, In m cells /\ d_iteam_name d = name_of m
                         /\ branch d = strip (variable m)).
  { intros d Hd. rewrite <- Hout in Hd. apply in_flat_map in Hd.
    destruct Hd as (m & Hm & Hd). rewrite clean_long_one in Hd.
    destruct (negb (strip (code_of m) =? "")%string); [|destruct Hd].
    destruct (contains "total" (lower (name_of m))) eqn:Hname;
      [destruct Hd|].
    cbn [negb andb] in Hd.
    destruct (to_numeric parse_float (cell_value m)); [|destruct Hd].
    destruct Hd as [<- | []]. cbn [branch d_iteam_name].
    split; [|split; [exact Hname | exists m; auto]].
    apply in_melt, in_branch_columns in Hm.
    destruct Hm as (_ & Htot & _). exact Htot. }
  assert (Hcell : forall r c, In r (rows sheet) -> In c branch_cols ->
            In (cell r c) cells).
  { intros r c Hr Hc. unfold cells, melt. apply in_flat_map.
    exists c. split; [exact Hc|]. apply in_map_iff. exists r. auto. }
  split; [exact Hrows|].
  split.
  { intros c Hc d Hd Heq. destruct (Hrows d Hd) as (Hb & _).
    rewrite Heq in Hb. congruence. }
  split; [symmetry; exact Hout|].
  split.
  { intros m Hnone. rewrite clean_long_one, Hnone.
    destruct (_ && _); reflexivity. }
  split.
  { intros i c b. rewrite !clean_long_one. cbn [cell_value to_numeric].
    split; destruct (_ && _); reflexivity. }
  split; [exact Hone|].
  split.
  { intros m Hzero Hcode Hname.
    eexists. split; [apply Hone; auto|].
    - destruct Hzero as [-> | ->]; reflexivity.
    - cbn [demand branch]. split; reflexivity. }
  split; [apply prepared_shape|].
  split; [intro c; apply branch_columns_iff|].
  split; [apply branch_columns_filter|].
  split; [reflexivity|].
  split; [apply melt_length|].
  split; [exact Hcell|].
  split.
  { rewrite <- Hout. unfold cells, melt. rewrite flat_map_concat_map.
    rewrite flat_map_concat_map.
    rewrite (flat_map_concat_map
               (fun c => flat_map (fun r => clean mo [cell r c])
                           (rows sheet))).
    clear. induction branch_cols as [|c l IH]; [reflexivity|].
    cbn [map concat]. rewrite map_app, concat_app.
    rewrite <- IH. f_equal.
    rewrite flat_map_concat_map, map_map. reflexivity. }
  split.
  { intros r c q Hr Hc Hi Hk Htot Hq Hcode Hname.
    rewrite <- Hout. apply in_flat_map. exists (cell r c).
    split; [apply Hcell; [exact Hr | apply branch_columns_iff; auto]|].
    rewrite (Hone (cell r c) q Hq Hcode Hname). left. reflexivity. }
  split; [exact Hlen|].
  split; [|apply prepared_rows].
  rewrite Hlen.
  rewrite <- (melt_length item_col code_col branch_cols sheet).
  apply filter_length_le.
Qed.

End SheetFacts.

(** ** The inventory planner *)

Section PlannerFacts.
Import PyStr PyNum PyVal PyFrame Inventory.
Local Open Scope Q_scope.
Variable float_repr : Q -> string.
Variable parse_float : string -> option Q.
Variable sqrtQ : Q -> Q.

Local Abbreviation plan :=
  (plan_inventory_dc float_repr parse_float sqrtQ).

Lemma mem_In (h : string) (l : list string) : mem h l = true <-> In h l.
Proof.
  unfold mem. rewrite existsb_exists. split.
  - intros (x & Hx & E). apply String.eqb_eq in E. subst. exact Hx.
  - intro H. exists h. split; [exact H | apply String.eqb_refl].
Qed.

Lemma in_missing (req : list string) (df : DataFrame) (c : string) :
  In c (missing req df) <-> In c req /\ ~ In c (columns df).
Proof.
  unfold missing, has_col. rewrite filter_In, negb_true_iff.
  rewrite <- (mem_In c (columns df)), not_true_iff_false. reflexivity.
Qed.

Lemma derive_raises_key_error (dpm : Z) (sl : Q) (mode : string) (rd : Z)
    (df : DataFrame) (t : table) (names : list string) :
  derive float_repr parse_float sqrtQ dpm sl mode rd df
  <> Raise (MissingColumns t names).
Proof.
  unfold derive, bind, require.
  destruct (has_col "forecast_next_month" df); [|discriminate].
  match goal with |- context [has_col "demand_std" ?d] =>
    destruct (has_col "demand_std" d) end; discriminate.
Qed.

(** C8.  The call raises the missing-column error exactly when a required
    column is absent from the forecast table or from the inventory table,
    headers trimmed and [item name] accepted for [iteam name]; the error
    names the table and lists the required columns absent from it. *)
Theorem missing_columns_raised
    (df_product_forecast df_inventory_dc : DataFrame)
    (days_per_month : Z) (service_level : Q)
    (safety_stock_mode : string) (review_days : Z) :
  let df_f := rename_columns strip df_product_forecast in
  let df_i := inventory_headers df_inventory_dc in
  let run := plan df_product_forecast df_inventory_dc days_per_month
               service_level safety_stock_mode review_days in
  let required t :=
    match t with
    | Forecast => required_forecast_cols
    | InventorySnapshot => required_inv_cols
    end in
  let given t :=
    match t with Forecast => df_f | InventorySnapshot => df_i end in
  let absent t c := In c (required t) /\ ~ In c (columns (given t)) in
  ((exists t names, run = Raise (MissingColumns t names))
   <-> exists t c, absent t c)
  /\ (forall t names, run = Raise (MissingColumns t names) ->
        names <> [] /\ names = missing (required t) (given t)
        /\ forall c, In c names <-> absent t c).
Proof.
  intros df_f df_i run required given absent.
  assert (Hrun : run =
    match missing required_forecast_cols df_f,
          missing required_inv_cols df_i with
    | _ :: _, _ =>
        Raise (MissingColumns Forecast (missing required_forecast_cols df_f))
    | [], _ :: _ =>
        Raise (MissingColumns InventorySnapshot
                 (missing required_inv_cols df_i))
    | [], [] =>
        derive float_repr parse_float sqrtQ days_per_month service_level
          safety_stock_mode review_days
          (merge_left (keyed float_repr df_i)
             (forecast_for_merge float_repr parse_float df_f)
             "item_code_key")
    end) by reflexivity.
  assert (Hf := in_missing required_forecast_cols df_f).
  assert (Hi := in_missing required_inv_cols df_i).
  destruct (missing required_forecast_cols df_f) as [|cf mf] eqn:Ef;
    [destruct (missing required_inv_cols df_i) as [|ci mi] eqn:Ei|].
  - (* nothing is absent *)
    split.
    + split.
      * intros (t & names & E). rewrite Hrun in E.
        exfalso. exact (derive_raises_key_error _ _ _ _ _ _ _ E).
      * intros ([|] & c & Hc);
          [apply Hf in Hc | apply Hi in Hc]; destruct Hc.
    + intros t names E. rewrite Hrun in E.
      exfalso. exact (derive_raises_key_error _ _ _ _ _ _ _ E).
  - (* the inventory table lacks a column *)
    split.
    + split; [intros _|intros _; eauto].
      exists InventorySnapshot, ci. apply Hi. left. reflexivity.
    + intros t names E. rewrite Hrun in E. injection E as <- <-.
      split; [discriminate|]. split; [symmetry; exact Ei|].
      intro c. apply Hi.
  - (* the forecast table lacks a column *)
    split.
    + split; [intros _|intros _; eauto].
      exists Forecast, cf. apply Hf. left. reflexivity.
    + intros t names E. rewrite Hrun in E. injection E as <- <-.
      split; [discriminate|]. split; [symmetry; exact Ef|].
      intro c. apply Hf.
Qed.

End PlannerFacts.

(** ** The join of the planner *)

Section JoinFacts.
Import PyStr PyNum PyVal PyFrame Inventory.
Local Open Scope Q_scope.

Lemma Qeq_bool_sym (x y : Q) : Qeq_bool x y = Qeq_bool y x.
Proof.
  destruct (Qeq_bool x y) eqn:E; symmetry.
  - apply Qeq_bool_iff. symmetry. apply Qeq_bool_iff. exact E.
  - apply Qeq_bool_false_iff. intro H. apply Qeq_bool_false_iff in E.
    apply E. symmetry. exact H.
Qed.

Lemma veqb_sym (a b : value) : veqb a b = veqb b a.
Proof.
  destruct a, b; cbn; try reflexivity;
    try apply Qeq_bool_sym; apply String.eqb_sym.
Qed.

Lemma veqb_trans (a b c : value) :
  veqb a b = true -> veqb b c = true -> veqb a c = true.
Proof.
  destruct a, b, c; cbn; try discriminate; try reflexivity;
    try (intros H1 H2; apply Qeq_bool_iff in H1, H2; apply Qeq_bool_iff;
         rewrite H1; exact H2).
  intros H1 H2. apply String.eqb_eq in H1, H2. subst. apply String.eqb_refl.
Qed.

(** *** The duplicates *)

Lemma in_drop_duplicates (h : string) (l : list row) (seen : list value)
    (r : row) :
  In r (drop_duplicates_from h seen l) ->
  In r l /\ existsb (veqb (r h)) seen = false.
Proof.
  revert seen. induction l as [|x l IH]; intros seen; cbn; [tauto|].
  destruct (existsb (veqb (x h)) seen) eqn:E.
  - intro H. apply IH in H. tauto.
  - intros [<- | H].
    + auto.
    + apply IH in H. destruct H as [H1 H2]. cbn in H2.
      apply orb_false_iff in H2. tauto.
Qed.

Lemma filter_none {A} (p : A -> bool) (l : list A) :
  (forall x, In x l -> p x = false) -> filter p l = [].
Proof.
  induction l as [|x l IH]; intro H; cbn; [reflexivity|].
  rewrite (H x (or_introl eq_refl)). apply IH.
  intros y Hy. apply H. right. exact Hy.
Qed.

(** After [drop_duplicates] at most one row has a given key. *)
Lemma drop_duplicates_unique (h : string) (l : list row)
    (seen : list value) (k : value) :
  (length (filter (fun f => veqb k (f h)) (drop_duplicates_from h seen l))
   <= 1)%nat.
Proof.
  revert seen. induction l as [|x l IH]; intros seen; cbn; [lia|].
  destruct (existsb (veqb (x h)) seen); [apply IH|].
  cbn. destruct (veqb k (x h)) eqn:E; [|apply IH].
  rewrite filter_none; [cbn; lia|].
  intros f Hf. apply in_drop_duplicates in Hf. destruct Hf as [_ Hf].
  cbn in Hf. apply orb_false_iff in Hf. destruct Hf as [Hf _].
  destruct (veqb k (f h)) eqn:E'; [|reflexivity].
  rewrite <- Hf. symmetry. apply veqb_trans with k; [|exact E].
  rewrite veqb_sym. exact E'.
Qed.

(** Every row is kept or has its key among the kept rows. *)
Lemma drop_duplicates_covers (h : string) (l : list row)
    (seen : list value) (g : row) :
  In g l ->
  existsb (veqb (g h)) seen = true
  \/ exists f, In f (drop_duplicates_from h seen l)
               /\ (f = g \/ veqb (g h) (f h) = true).
Proof.
  revert seen. induction l as [|x l IH]; intros seen; cbn; [tauto|].
  intros [<- | Hg].
  - destruct (existsb (veqb (x h)) seen) eqn:E; [now left|].
    right. exists x. cbn. auto.
  - destruct (existsb (veqb (x h)) seen) eqn:E; [apply IH, Hg|].
    destruct (IH (x h :: seen) Hg) as [H | (f & Hf & Hfg)].
    + cbn in H. apply orb_true_iff in H. destruct H as [H | H].
      * right. exists x. cbn. auto.
      * now left.
    + right. exists f. cbn. auto.
Qed.

(** *** The sort *)

Section Sort.
Context {A : Type} (key : A -> Q).

Lemma in_insert_desc (x y : A) (l : list A) :
  In y (Demand.insert_desc key x l) <-> y = x \/ In y l.
Proof.
  induction l as [|z l IH]; cbn.
  - intuition auto.
  - destruct (Qle_bool (key z) (key x)); cbn.
    + intuition auto.
    + rewrite IH. intuition auto.
Qed.

Lemma in_sort_desc (y : A) (l : list A) :
  In y (Demand.sort_desc key l) <-> In y l.
Proof.
  induction l as [|x l IH]; cbn; [tauto|].
  unfold Demand.sort_desc in *. cbn. rewrite in_insert_desc, IH.
  intuition auto.
Qed.

Lemma insert_desc_sorted (x : A) (l : list A) :
  StronglySorted (Demand.desc key) l ->
  StronglySorted (Demand.desc key) (Demand.insert_desc key x l).
Proof.
  induction 1 as [|z l Hl IH Hz]; cbn.
  - constructor; constructor.
  - destruct (Qle_bool (key z) (key x)) eqn:E.
    + apply Qle_bool_iff in E. constructor.
      * constructor; assumption.
      * constructor; [exact E|].
        rewrite Forall_forall in *. intros y Hy. unfold Demand.desc in *.
        apply Qle_trans with (key z); auto.
    + apply Qle_bool_false_iff in E. constructor; [exact IH|].
      rewrite Forall_forall in *. intros y Hy.
      apply in_insert_desc in Hy. destruct Hy as [-> | Hy].
      * unfold Demand.desc. apply Qlt_le_weak, E.
      * auto.
Qed.

Lemma sort_desc_sorted (l : list A) :
  StronglySorted (Demand.desc key) (Demand.sort_desc key l).
Proof.
  induction l as [|x l IH]; [constructor|].
  apply insert_desc_sorted. exact IH.
Qed.
End Sort.

(** In a list sorted from the largest, the row kept for a key is one of
    the largest of that key. *)
Lemma drop_duplicates_largest (h : string) (key : row -> Q) (l : list row)
    (seen : list value) (f g : row) :
  StronglySorted (Demand.desc key) l ->
  In f (drop_duplicates_from h seen l) ->
  In g l -> veqb (g h) (f h) = true ->
  existsb (veqb (g h)) seen = false ->
  key g <= key f.
Proof.
  intro Hs. revert seen.
  induction Hs as [|x l Hl IH Hx]; intros seen; cbn; [tauto|].
  rewrite Forall_forall in Hx.
  destruct (existsb (veqb (x h)) seen) eqn:E.
  - intros Hf [<- | Hg] Hk Hseen; [congruence|].
    apply (IH seen); assumption.
  - intros [<- | Hf] [<- | Hg] Hk Hseen.
    + apply Qle_refl.
    + apply Hx. exact Hg.
    + apply in_drop_duplicates in Hf. destruct Hf as [_ Hf].
      cbn in Hf. apply orb_false_iff in Hf. destruct Hf as [Hf _].
      rewrite veqb_sym in Hk. congruence.
    + apply (IH (x h :: seen)); try assumption.
      cbn. apply orb_false_iff. split; [|exact Hseen].
      apply in_drop_duplicates in Hf. destruct Hf as [_ Hf].
      cbn in Hf. apply orb_false_iff in Hf. destruct Hf as [Hf _].
      destruct (veqb (g h) (x h)) eqn:E'; [|reflexivity].
      rewrite <- Hf. symmetry. apply veqb_trans with (g h); [|exact E'].
      rewrite veqb_sym. exact Hk.
Qed.

End JoinFacts.

Section PlannerRows.
Import PyStr PyNum PyVal PyFrame Inventory.
Local Open Scope Q_scope.
Variable float_repr : Q -> string.
Variable parse_float : string -> option Q.
Variable sqrtQ : Q -> Q.

Lemma Ok_inj {A} (a b : A) : Ok a = Ok b -> a = b.
Proof. intro E. injection E as E. exact E. Qed.

Lemma rows_assign_all (steps : list (string * (row -> value)))
    (df : DataFrame) :
  rows (assign_all steps df) = map (derive_row steps) (rows df).
Proof.
  unfold assign_all, derive_row. revert df.
  induction steps as [|[h f] steps IH]; intro df; cbn [fold_left fst snd].
  - symmetry. apply map_id.
  - rewrite IH. cbn [rows assign]. rewrite map_map. reflexivity.
Qed.

Lemma derive_rows (dpm : Z) (sl : Q) (mode : string) (rd : Z)
    (df out : DataFrame) :
  derive float_repr parse_float sqrtQ dpm sl mode rd df = Ok out ->
  rows out
  = map (derive_row
           (derived_columns float_repr parse_float sqrtQ dpm sl mode rd
              (has_col "abc_class" df)))
        (rows df).
Proof.
  unfold derive, bind, require.
  destruct (has_col "forecast_next_month" df); [|discriminate].
  destruct (has_col "demand_std" df); [|discriminate].
  intro E. apply Ok_inj in E. subst out.
  unfold select. cbn [rows]. apply rows_assign_all.
Qed.

Lemma derive_row_app (a b : list (string * (row -> value))) (r : row) :
  derive_row (a ++ b) r = derive_row b (derive_row a r).
Proof. apply fold_left_app. Qed.

(** A cell of the row after [steps] is the one its last assignment wrote,
    from the row before that assignment. *)
Lemma derive_row_lookup_from (steps pre : list (string * (row -> value)))
    (r : row) (h : string) :
  derive_row (pre ++ steps) r h
  = match last_assign h pre steps with
    | Some (p, f) => f (derive_row p r)
    | None => derive_row pre r h
    end.
Proof.
  revert pre. induction steps as [|s t IH]; intro pre.
  - rewrite app_nil_r. reflexivity.
  - change (s :: t) with ([s] ++ t)%list. rewrite app_assoc, IH.
    cbn [last_assign app].
    destruct (last_assign h (pre ++ [s]) t) as [[p f]|]; [reflexivity|].
    rewrite derive_row_app. cbn [derive_row fold_left]. unfold upd.
    destruct (String.eqb h (fst s)); reflexivity.
Qed.

Lemma derive_row_lookup (steps : list (string * (row -> value)))
    (r : row) (h : string) :
  derive_row steps r h
  = match last_assign h [] steps with
    | Some (p, f) => f (derive_row p r)
    | None => r h
    end.
Proof. exact (derive_row_lookup_from steps [] r h). Qed.

Lemma numeric_cell_float (h : string) (r : row) :
  numeric_cell parse_float h r
  = VFloat match to_numeric parse_float (r h) with
           | Some q => q
           | None => 0
           end.
Proof. reflexivity. Qed.

Ltac cells :=
  repeat first
    [ rewrite derive_row_lookup;
      cbv [last_assign derived_columns app fst snd
           String.eqb Ascii.eqb Bool.eqb]
    | rewrite numeric_cell_float ].

Lemma vmax_float (a b : Q) : vmax (VFloat a) (VFloat b) = VFloat (py_max a b).
Proof.
  unfold vmax, vlt, py_max, Qlt_bool. cbn [as_float].
  destruct (Qle_bool b a); reflexivity.
Qed.

Lemma z_is_float (q : Q) : exists z, _z_from_service_level (VFloat q) = VFloat z.
Proof.
  unfold _z_from_service_level.
  repeat match goal with
         | |- context [if ?c then _ else _] => destruct c
         end; eexists; reflexivity.
Qed.

Lemma service_level_is_float (b : bool) (sl : Q) (r : row) :
  exists q,
    (if b then _map_service_level float_repr true sl
     else fun _ : row => VFloat sl) r = VFloat q.
Proof.
  destruct b; [|eexists; reflexivity].
  unfold _map_service_level.
  repeat match goal with
         | |- context [if ?c then _ else _] => destruct c
         end; eexists; reflexivity.
Qed.

Lemma safety_stock_is_float (mode : string) (r : row) (fd ss lt sd sl : Q) :
  r "forecast_daily" = VFloat fd ->
  r "safety_stock_days" = VFloat ss ->
  r "lead_time_import_days" = VFloat lt ->
  r "demand_daily_std" = VFloat sd ->
  r "service_level_effective" = VFloat sl ->
  exists q, _calc_safety_stock sqrtQ mode r = VFloat q.
Proof.
  intros H1 H2 H3 H4 H5. unfold _calc_safety_stock.
  rewrite H1, H2, H3, H4, H5. destruct (z_is_float sl) as [z ->].
  unfold vsqrt. cbn [vle vlt vmul lift2 as_float].
  repeat match goal with
         | |- context [if ?c then _ else _] => destruct c
         end; eexists; reflexivity.
Qed.

(** The cells of a row of the plan that the decision and the quantity
    depend on, as numbers. *)
Lemma derived_cells (dpm : Z) (sl : Q) (mode : string) (rd : Z) (b : bool)
    (r0 : row) :
  let r := derive_row
             (derived_columns float_repr parse_float sqrtQ dpm sl mode rd b)
             r0 in
  exists fd avail lt ssd ssq : Q,
    let dlt := fd * lt in
    let rop := dlt + ssq in
    let buf := fd * inject_Z rd in
    let min_lt := if Qlt_bool (dlt - avail) 0 then 0 else dlt - avail in
    let target := fd * (lt + ssd) in
    let decision := decision_rule fd avail rop buf in
    r "forecast_daily" = VFloat fd
    /\ r "available_qty_total" = VFloat avail
    /\ r "reorder_point" = VFloat rop
    /\ r "review_buffer_qty" = VFloat buf
    /\ r "min_order_qty_lt" = VFloat min_lt
    /\ r "target_stock_level" = VFloat target
    /\ r "inventory_decision" = VStr decision
    /\ r "suggested_order_qty"
       = VInt (order_qty_code decision fd target avail min_lt).
Proof.
  intro r.
  set (S := derived_columns float_repr parse_float sqrtQ dpm sl mode rd b)
    in *.
  set (fm := match to_numeric parse_float (r0 "forecast_next_month") with
             | Some q => q | None => 0 end).
  set (oh := match to_numeric parse_float (r0 "on_hand_dc") with
             | Some q => q | None => 0 end).
  set (oo := match to_numeric parse_float (r0 "on_order_from_china") with
             | Some q => q | None => 0 end).
  set (lt := match to_numeric parse_float (r0 "lead_time_import_days") with
             | Some q => q | None => 0 end).
  set (ssd := match to_numeric parse_float (r0 "safety_stock_days") with
              | Some q => q | None => 0 end).
  set (fd := fm / inject_Z dpm).
  (* the safety stock is a number *)
  assert (Hss : exists ssq, r "safety_stock_qty" = VFloat ssq).
  { subst r S. cells.
    match goal with
    | |- exists q, _calc_safety_stock _ _ ?row = _ => set (r10 := row)
    end.
    destruct (service_level_is_float b sl
                (derive_row
                   (firstn 9 (derived_columns float_repr parse_float sqrtQ
                                dpm sl mode rd b)) r0)) as [sle Hsle].
    eapply (safety_stock_is_float mode r10 fd ssd lt).
    - subst r10. cells. reflexivity.
    - subst r10. cells. reflexivity.
    - subst r10. cells. reflexivity.
    - subst r10. cells. reflexivity.
    - subst r10. cells. exact Hsle. }
  destruct Hss as [ssq Hss].
  exists fd, (oh + oo), lt, ssd, ssq.
  cbv zeta.
  assert (Hss' := Hss). subst r S.
  rewrite derive_row_lookup in Hss'.
  cbv [last_assign derived_columns app fst snd
         String.eqb Ascii.eqb Bool.eqb] in Hss'.
  split; [cells; reflexivity|].
  split; [cells; reflexivity|].
  split; [cells; rewrite Hss'; reflexivity|].
  split; [cells; reflexivity|].
  split.
  { cells. unfold clip_lower0.
    cbn [vdiv vmul vsub vadd lift2 as_float vlt].
    fold fm oh oo lt fd. unfold Qlt_bool.
    destruct (Qle_bool 0 (fd * lt - (oh + oo))); reflexivity. }
  split; [cells; reflexivity|].
  split.
  { cells. unfold _decide_action. cells. rewrite Hss'.
    unfold decision_rule.
    cbn [vdiv vmul vsub vadd lift2 as_float vle].
    fold fm oh oo lt fd.
    repeat match goal with
           | |- context [if ?c then _ else _] => destruct c
           end; reflexivity. }
  cells. unfold _calc_order_qty. cells. unfold _decide_action. cells.
  rewrite Hss'.
  unfold decision_rule, clip_lower0, order_qty_code.
  cbn [vdiv vmul vsub vadd lift2 as_float vle vlt].
  fold fm oh oo lt ssd fd. unfold Qlt_bool.
  destruct (Qle_bool 0 (fd * lt - (oh + oo))); cbn [negb];
    rewrite !vmax_float; unfold vround; cbn [as_float];
    destruct (Qle_bool fd 0);
    destruct (Qle_bool (oh + oo) (fd * lt + ssq));
    destruct (Qle_bool (oh + oo) (fd * lt + ssq + fd * inject_Z rd));
    cbn [veqb String.eqb Ascii.eqb Bool.eqb negb]; try reflexivity;
    match goal with
    | |- context [Qle_bool ?x 0] => destruct (Qle_bool x 0)
    end; reflexivity.
Qed.

Lemma py_max_Qmax (a b : Q) : py_max a b == Qmax a b.
Proof.
  unfold py_max.
  destruct (Qlt_bool a b) eqn:E.
  - apply Qlt_bool_iff in E. symmetry. apply Q.max_r. apply Qlt_le_weak, E.
  - apply Qlt_bool_false_iff in E. symmetry. apply Q.max_l. exact E.
Qed.

Lemma Qmax3_nonneg (a m : Q) : 0 <= Qmax (Qmax a 0) m.
Proof.
  apply Qle_trans with (Qmax a 0); [apply Q.le_max_r | apply Q.le_max_l].
Qed.

(** On a decision that is "Order" only for a positive daily forecast, the
    quantity of the code is the quantity of the design document. *)
Lemma order_qty_code_rule (decision : string) (fd target avail min_lt : Q) :
  (decision = "Order" -> 0 < fd) ->
  order_qty_code decision fd target avail min_lt
  = order_qty_rule decision target avail min_lt.
Proof.
  intro Hfd. unfold order_qty_code, order_qty_rule.
  destruct (String.eqb decision "Order") eqn:E; [|reflexivity].
  apply String.eqb_eq in E. specialize (Hfd E). cbn [negb].
  assert (E1 : Qle_bool fd 0 = false) by (apply Qle_bool_false_iff; exact Hfd).
  rewrite E1. cbv zeta.
  set (oq := py_max (py_max (target - avail) 0) min_lt).
  assert (Hoq : oq == Qmax (Qmax (target - avail) 0) min_lt).
  { subst oq. rewrite py_max_Qmax.
    rewrite (py_max_Qmax (target - avail) 0). reflexivity. }
  destruct (Qlt_bool 0 oq) eqn:E2.
  - apply py_round_compat. exact Hoq.
  - apply Qlt_bool_false_iff in E2.
    assert (H0 : Qmax (Qmax (target - avail) 0) min_lt == 0).
    { apply Qle_antisym; [rewrite <- Hoq; exact E2 | apply Qmax3_nonneg]. }
    rewrite (py_round_compat _ _ H0). reflexivity.
Qed.

Lemma decision_rule_order (fd avail rop buf : Q) :
  decision_rule fd avail rop buf = "Order" -> 0 < fd.
Proof.
  unfold decision_rule.
  destruct (Qle_bool fd 0) eqn:E; [discriminate|].
  intros _. apply Qle_bool_false_iff. exact E.
Qed.

Local Abbreviation plan :=
  (plan_inventory_dc float_repr parse_float sqrtQ).

(** A plan is the derived columns on the join of the two checked
    tables. *)
Lemma plan_ok (dff dfi : DataFrame) (dpm : Z) (sl : Q) (mode : string)
    (rd : Z) (out : DataFrame) :
  plan dff dfi dpm sl mode rd = Ok out ->
  let df_f := rename_columns strip dff in
  let df_i := inventory_headers dfi in
  missing required_forecast_cols df_f = []
  /\ missing required_inv_cols df_i = []
  /\ derive float_repr parse_float sqrtQ dpm sl mode rd
       (merge_left (keyed float_repr df_i)
          (forecast_for_merge float_repr parse_float df_f)
          "item_code_key") = Ok out.
Proof.
  intros H df_f df_i. unfold plan_inventory_dc in H.
  fold df_f df_i in H.
  destruct (missing required_forecast_cols df_f); [|discriminate].
  destruct (missing required_inv_cols df_i); [|discriminate].
  auto.
Qed.

Lemma plan_row (dff dfi : DataFrame) (dpm : Z) (sl : Q) (mode : string)
    (rd : Z) (out : DataFrame) (r : row) :
  plan dff dfi dpm sl mode rd = Ok out ->
  In r (rows out) ->
  exists b r0,
    r = derive_row
          (derived_columns float_repr parse_float sqrtQ dpm sl mode rd b) r0.
Proof.
  intros H Hr. apply plan_ok in H. destruct H as (_ & _ & H).
  apply derive_rows in H. rewrite H in Hr.
  apply in_map_iff in Hr. destruct Hr as (r0 & <- & _).
  eauto.
Qed.

(** C2.  In every row of the plan, for a positive [days_per_month], the
    decision is that of the first rule that applies: "Hold" when the daily forecast is at most 0, the
    suggested quantity then being 0 whatever the stock; otherwise "Order"
    when the available stock is at most the reorder point; otherwise
    "Review" when it is at most the reorder point plus the review buffer;
    otherwise "Hold".  No stock, a positive forecast and a positive
    reorder point give "Order". *)
Theorem decision_first_rule (df_product_forecast df_inventory_dc : DataFrame)
    (days_per_month : Z) (service_level : Q) (safety_stock_mode : string)
    (review_days : Z) (out : DataFrame) (r : row) :
  (0 < days_per_month)%Z ->
  plan df_product_forecast df_inventory_dc days_per_month service_level
    safety_stock_mode review_days = Ok out ->
  In r (rows out) ->
  exists fd avail rop buf : Q,
    r "forecast_daily" = VFloat fd
    /\ r "available_qty_total" = VFloat avail
    /\ r "reorder_point" = VFloat rop
    /\ r "review_buffer_qty" = VFloat buf
    /\ r "inventory_decision" = VStr (decision_rule fd avail rop buf)
    /\ (fd <= 0 ->
          r "inventory_decision" = VStr "Hold"
          /\ r "suggested_order_qty" = VInt 0)
    /\ (0 < fd -> avail <= rop -> r "inventory_decision" = VStr "Order")
    /\ (0 < fd -> rop < avail -> avail <= rop + buf ->
          r "inventory_decision" = VStr "Review")
    /\ (0 < fd -> rop < avail -> rop + buf < avail ->
          r "inventory_decision" = VStr "Hold")
    /\ (0 < fd -> avail == 0 -> 0 < rop ->
          r "inventory_decision" = VStr "Order").
Proof.
  intros _ Hplan Hr.
  destruct (plan_row _ _ _ _ _ _ _ _ Hplan Hr) as (b & r0 & ->).
  destruct (derived_cells days_per_month service_level safety_stock_mode
              review_days b r0)
    as (fd & avail & lt & ssd & ssq & Hfd & Hav & Hrop & Hbuf & _ & _
        & Hdec & Hqty).
  cbv zeta in *.
  set (rop := fd * lt + ssq) in *.
  set (buf := fd * inject_Z review_days) in *.
  exists fd, avail, rop, buf.
  rewrite Hdec, Hqty.
  assert (Hord : 0 < fd -> avail <= rop ->
                 decision_rule fd avail rop buf = "Order").
  { intros H1 H2. unfold decision_rule.
    apply Qle_bool_false_iff in H1. apply Qle_bool_iff in H2.
    rewrite H1, H2. reflexivity. }
  repeat (split; [assumption || reflexivity|]).
  split; [|split; [|split; [|split]]].
  - intro H. apply Qle_bool_iff in H.
    unfold decision_rule, order_qty_code. rewrite H.
    split; reflexivity.
  - intros H1 H2. rewrite (Hord H1 H2). reflexivity.
  - intros H1 H2 H3. unfold decision_rule.
    apply Qle_bool_false_iff in H1, H2. apply Qle_bool_iff in H3.
    rewrite H1, H2, H3. reflexivity.
  - intros H1 H2 H3. unfold decision_rule.
    apply Qle_bool_false_iff in H1, H2, H3.
    rewrite H1, H2, H3. reflexivity.
  - intros H1 H2 H3. rewrite Hord; [reflexivity | exact H1 |].
    rewrite H2. apply Qlt_le_weak. exact H3.
Qed.
(** C3.  In every row of the plan, for a positive [days_per_month], the
    suggested quantity is 0 when the decision is not "Order", and otherwise the rounding of the largest of
    target stock minus available stock, 0, and the minimum quantity over
    the lead time; it is never negative. *)
Theorem suggested_order_quantity
    (df_product_forecast df_inventory_dc : DataFrame)
    (days_per_month : Z) (service_level : Q) (safety_stock_mode : string)
    (review_days : Z) (out : DataFrame) (r : row) :
  (0 < days_per_month)%Z ->
  plan df_product_forecast df_inventory_dc days_per_month service_level
    safety_stock_mode review_days = Ok out ->
  In r (rows out) ->
  exists (decision : string) (target avail min_lt : Q) (n : Z),
    r "inventory_decision" = VStr decision
    /\ r "target_stock_level" = VFloat target
    /\ r "available_qty_total" = VFloat avail
    /\ r "min_order_qty_lt" = VFloat min_lt
    /\ r "suggested_order_qty" = VInt n
    /\ n = order_qty_rule decision target avail min_lt
    /\ (decision <> "Order" -> n = 0%Z)
    /\ (decision = "Order" ->
          n = py_round (Qmax (Qmax (target - avail) 0) min_lt))
    /\ (0 <= n)%Z.
Proof.
  intros _ Hplan Hr.
  destruct (plan_row _ _ _ _ _ _ _ _ Hplan Hr) as (b & r0 & ->).
  destruct (derived_cells days_per_month service_level safety_stock_mode
              review_days b r0)
    as (fd & avail & lt & ssd & ssq & _ & Hav & _ & _ & Hmin & Htar
        & Hdec & Hqty).
  cbv zeta in *.
  set (rop := fd * lt + ssq) in *.
  set (buf := fd * inject_Z review_days) in *.
  set (min_lt := if Qlt_bool (fd * lt - avail) 0 then 0
                 else fd * lt - avail) in *.
  set (target := fd * (lt + ssd)) in *.
  set (decision := decision_rule fd avail rop buf) in *.
  rewrite (order_qty_code_rule decision fd target avail min_lt
             (decision_rule_order fd avail rop buf)) in Hqty.
  exists decision, target, avail, min_lt,
    (order_qty_rule decision target avail min_lt).
  repeat (split; [assumption || reflexivity|]).
  unfold order_qty_rule.
  split; [|split].
  - intro Hne. apply String.eqb_neq in Hne. rewrite Hne. reflexivity.
  - intro He. apply String.eqb_eq in He. rewrite He. reflexivity.
  - destruct (String.eqb decision "Order"); [|lia].
    apply py_round_nonneg, Qmax3_nonneg.
Qed.

(** *** One record for each row of the snapshot *)

Lemma flat_map_single {A B} (f : A -> list B) (g : A -> B) (l : list A) :
  (forall x, In x l -> f x = [g x]) -> flat_map f l = map g l.
Proof.
  induction l as [|x l IH]; intro H; [reflexivity|].
  cbn [flat_map map]. rewrite (H x (or_introl eq_refl)).
  rewrite IH by (intros; apply H; right; assumption). reflexivity.
Qed.

Lemma merge_left_rows (lhs rhs : DataFrame) (on : string) :
  (forall l, In l (rows lhs) ->
     (length (filter (fun r => veqb (l on) (r on)) (rows rhs)) <= 1)%nat) ->
  rows (merge_left lhs rhs on) = map (joined_row lhs rhs on) (rows lhs).
Proof.
  intro Hu. unfold merge_left. cbn [rows].
  apply flat_map_single. intros l Hl. specialize (Hu l Hl).
  unfold joined_row.
  destruct (filter (fun r => veqb (l on) (r on)) (rows rhs))
    as [|f [|f' ms]]; [reflexivity | reflexivity | cbn in Hu; lia].
Qed.

(** A header of [lhs] that the join does not rename still gives the cell
    of the [lhs] row. *)
Lemma row_of_left (name : string -> string) (l : row) (cols : list string)
    (rest : list (string * value)) (h : string) :
  In h cols -> name h = h ->
  (forall c, name c = h -> c = h) ->
  row_of (map (fun c => (name c, l c)) cols ++ rest) h = l h.
Proof.
  intros Hin Hh Hinj. unfold row_of.
  induction cols as [|c cols IH]; [destruct Hin|].
  cbn [map app find fst snd].
  destruct (String.eqb (name c) h) eqn:E.
  - apply String.eqb_eq in E. apply Hinj in E. subst c. reflexivity.
  - destruct Hin as [-> | Hin].
    + rewrite Hh, String.eqb_refl in E. discriminate.
    + apply IH. exact Hin.
Qed.

Lemma suffix_x_differs (c : string) : (c ++ "_x")%string <> "item code".
Proof.
  intro H.
  do 9 (destruct c as [|? c]; [discriminate H|];
        cbn in H; injection H as _ H).
  destruct c; discriminate H.
Qed.

Lemma rename_columns_rows (f : string -> string) (df : DataFrame) :
  length (rows (rename_columns f df)) = length (rows df).
Proof. unfold rename_columns. cbn [rows]. apply length_map. Qed.

Lemma inventory_headers_rows (df : DataFrame) :
  length (rows (inventory_headers df)) = length (rows df).
Proof.
  unfold inventory_headers.
  destruct (_ && _); rewrite ?rename_columns_rows; reflexivity.
Qed.

(** The plan of two tables: its rows are the snapshot's, each with the
    one forecast row of its key, the largest of that key. *)
Lemma plan_join
    (df_product_forecast df_inventory_dc : DataFrame)
    (days_per_month : Z) (service_level : Q) (safety_stock_mode : string)
    (review_days : Z) (out : DataFrame) :
  plan df_product_forecast df_inventory_dc days_per_month service_level
    safety_stock_mode review_days = Ok out ->
  let key := "item_code_key" in
  let total (f : row) := float_of (f "demand_total") in
  let snapshot := inventory_headers df_inventory_dc in
  let lhs := keyed float_repr snapshot in
  let forecast :=
    numeric parse_float "demand_total"
      (keyed float_repr (rename_columns strip df_product_forecast)) in
  let rhs :=
    forecast_for_merge float_repr parse_float
      (rename_columns strip df_product_forecast) in
  length (rows out) = length (rows df_inventory_dc)
  /\ map (fun r => r "item code") (rows out)
     = map (fun r => r "item code") (rows snapshot)
  /\ (exists b,
        rows out
        = map (fun l =>
                 derive_row
                   (derived_columns float_repr parse_float sqrtQ
                      days_per_month service_level safety_stock_mode
                      review_days b)
                   (joined_row lhs rhs key l))
              (rows lhs))
  /\ (forall l, In l (rows lhs) ->
        (length (filter (fun f => veqb (l key) (f key)) (rows rhs)) <= 1)%nat)
  /\ (forall f, In f (rows rhs) ->
        In f (rows forecast)
        /\ forall g, In g (rows forecast) ->
             veqb (g key) (f key) = true -> total g <= total f)
  /\ (forall g, In g (rows forecast) ->
        exists f, In f (rows rhs) /\ veqb (g key) (f key) = true).
Proof.
  intros Hplan key total snapshot lhs forecast rhs.
  apply plan_ok in Hplan. destruct Hplan as (_ & Hmi & Hd).
  fold snapshot in Hmi, Hd. fold lhs in Hd. fold rhs in Hd. fold key in Hd.
  assert (Hrhs : rows rhs
                 = drop_duplicates_from key []
                     (Demand.sort_desc total (rows forecast)))
    by reflexivity.
  assert (Huniq : forall l, In l (rows lhs) ->
            (length (filter (fun f => veqb (l key) (f key)) (rows rhs))
             <= 1)%nat).
  { intros l _. rewrite Hrhs. apply drop_duplicates_unique. }
  assert (Hrows := derive_rows _ _ _ _ _ _ Hd).
  rewrite (merge_left_rows lhs rhs key Huniq), map_map in Hrows.
  assert (Hlhs : rows lhs
                 = map (fun r => upd r key
                                   (VStr (normalize_item_code float_repr
                                            (r "item code"))))
                       (rows snapshot)) by reflexivity.
  split; [|split; [|split; [|split; [|split]]]].
  - rewrite Hrows, length_map, Hlhs, length_map.
    apply inventory_headers_rows.
  - rewrite Hrows, Hlhs, !map_map. apply map_ext. intro r.
    cells. unfold joined_row.
    rewrite row_of_left.
    + reflexivity.
    + assert (Hin : In "item code" (columns snapshot)).
      { destruct (in_dec string_dec "item code" (columns snapshot))
          as [Hin | Hout]; [exact Hin|].
        assert (In "item code" (missing required_inv_cols snapshot)).
        { apply in_missing. split; [left; reflexivity | exact Hout]. }
        rewrite Hmi in H. destruct H. }
      unfold lhs, keyed, assign. cbn [columns].
      destruct (has_col _ snapshot); [exact Hin|].
      apply in_or_app. left. exact Hin.
    + unfold rhs, forecast_for_merge, select. cbn [columns].
      match goal with
      | |- context [if has_col "abc_class" ?d then _ else []] =>
          destruct (has_col "abc_class" d)
      end; reflexivity.
    + intros c Hc.
      destruct (mem c _); [exfalso; exact (suffix_x_differs c Hc) | exact Hc].
  - eexists. exact Hrows.
  - exact Huniq.
  - intros f Hf. rewrite Hrhs in Hf. split.
    + apply in_drop_duplicates in Hf. destruct Hf as [Hf _].
      apply in_sort_desc in Hf. exact Hf.
    + intros g Hg Hk.
      apply (drop_duplicates_largest key total
               (Demand.sort_desc total (rows forecast)) [] f g);
        [apply sort_desc_sorted | exact Hf | | exact Hk | reflexivity].
      apply in_sort_desc. exact Hg.
  - intros g Hg.
    assert (Hkey : exists s, g key = VStr s).
    { unfold forecast, numeric, keyed in Hg. cbn [rows assign] in Hg.
      rewrite map_map in Hg. apply in_map_iff in Hg.
      destruct Hg as (g0 & <- & _). eexists. reflexivity. }
    destruct Hkey as [s Hs].
    destruct (drop_duplicates_covers key
                (Demand.sort_desc total (rows forecast)) [] g)
      as [H | (f & Hf & Hfg)].
    + apply in_sort_desc. exact Hg.
    + discriminate H.
    + exists f. rewrite Hrhs. split; [exact Hf|].
      destruct Hfg as [-> | H]; [|exact H].
      rewrite Hs. cbn. apply String.eqb_refl.
Qed.

Lemma missing_none (req : list string) (df : DataFrame) :
  forallb (fun c => has_col c df) req = true -> missing req df = [].
Proof.
  intro H. unfold missing. apply filter_none. intros c Hc.
  rewrite forallb_forall in H. rewrite (H c Hc). reflexivity.
Qed.




End PlannerRows.

(** ** The theorems at the sample inputs *)

(** The sample sheet leaves two rows: nothing of its total column, of its
    total row or of its blank cells, and one row for its zero. *)
Lemma sample_long_table :
  Samples.long_table
  = [ Demand.mkDemand "2025-01" "Branch A" "123" "Widget" 0;
      Demand.mkDemand "2025-01" "B2" "1000" "Gadget" 3 ].
Proof. vm_compute. reflexivity. Qed.

(** The sample plan: the two forecast rows of code 100 count as the one of
    total 70, and the snapshot's four rows are all there. *)
Lemma sample_plan_table :
  map (fun r => (r "item code", r "demand_total", r "inventory_decision",
                 r "suggested_order_qty"))
      (PyFrame.rows Samples.plan_table)
  = [ (PyVal.VInt 100, PyVal.VFloat 70, PyVal.VStr "Order", PyVal.VInt 800);
      (PyVal.VStr "200", PyVal.VFloat 10, PyVal.VStr "Hold", PyVal.VInt 0);
      (PyVal.VStr "300", PyVal.VNaN, PyVal.VStr "Hold", PyVal.VInt 0);
      (PyVal.VFloat 100, PyVal.VFloat 70, PyVal.VStr "Hold", PyVal.VInt 0) ].
Proof. vm_compute. reflexivity. Qed.

Lemma run_ok : Samples.run = Inventory.Ok Samples.plan_table.
Proof.
  unfold Samples.plan_table.
  destruct Samples.run eqn:E; [reflexivity|].
  vm_compute in E. discriminate E.
Defined.

Lemma first_row_in : In Samples.first_row (PyFrame.rows Samples.plan_table).
Proof.
  unfold Samples.first_row.
  destruct (PyFrame.rows Samples.plan_table) eqn:E.
  - apply (f_equal (@length _)) in E. vm_compute in E. discriminate E.
  - left. reflexivity.
Defined.

Lemma forecast_precedence_witness :
  Samples.series <> []
  /\ Demand.forecast_method
       (Demand._compute_demand_stats_and_forecast Samples.sqrtQ Samples.series)
     = "mean_all_few_months".
Proof.
  split; [discriminate|].
  destruct (forecast_precedence Samples.sqrtQ Samples.series)
    as (_ & _ & _ & H & _); [discriminate|].
  apply H.
  - intro E. vm_compute in E. discriminate E.
  - intros [E _]. vm_compute in E. apply E. reflexivity.
  - vm_compute. lia.
Defined.

Lemma first_sheet_row_in :
  In (hd (fun _ => PyVal.VNaN)
        (PyFrame.rows (Demand.prepared Samples.float_repr Samples.sheet)))
     (PyFrame.rows (Demand.prepared Samples.float_repr Samples.sheet)).
Proof.
  destruct (PyFrame.rows (Demand.prepared Samples.float_repr Samples.sheet))
    eqn:E.
  - apply (f_equal (@length _)) in E. vm_compute in E. discriminate E.
  - left. reflexivity.
Defined.

Lemma wide_to_long_rows_witness :
  Demand.build_long_from_wide_month Samples.float_repr Samples.parse_float
    Samples.sheet "01-2025" "iteam name" "item code"
  = Some Samples.long_table
  /\ (forall d, In d Samples.long_table ->
        PyStr.contains "total" (PyStr.lower (Demand.branch d)) = false
        /\ PyStr.contains "total" (PyStr.lower (Demand.d_iteam_name d))
           = false)
  /\ In (Demand.mkDemand "2025-01" "Branch A" "123" "Widget" (inject_Z 0))
        Samples.long_table
  /\ length Samples.long_table = 2%nat
  /\ length
       (Demand.melt "iteam name" "item code"
          (Demand.branch_columns "iteam name" "item code"
             (Demand.prepared Samples.float_repr Samples.sheet))
          (Demand.prepared Samples.float_repr Samples.sheet))
     = 6%nat.
Proof.
  assert (H : Demand.build_long_from_wide_month Samples.float_repr
                Samples.parse_float Samples.sheet "01-2025" "iteam name"
                "item code" = Some Samples.long_table)
    by (vm_compute; reflexivity).
  split; [exact H|].
  destruct (wide_to_long_rows _ _ _ _ _ _ _ H)
    as (Hrows & _ & _ & _ & _ & _ & _ & _ & _ & _ & _ & Hcells & _ & _
        & Hin & Hlen & _).
  split.
  { intros d Hd. destruct (Hrows d Hd) as (H1 & H2 & _). split; assumption. }
  split.
  { refine (eq_ind _ (fun d => In d Samples.long_table)
              (Hin _ "Branch A" (inject_Z 0) first_sheet_row_in _ _ _ _ _ _ _)
              _ _).
    - vm_compute. auto 10.
    - discriminate.
    - discriminate.
    - vm_compute. reflexivity.
    - vm_compute. reflexivity.
    - vm_compute. discriminate.
    - vm_compute. reflexivity.
    - vm_compute. reflexivity. }
  split.
  { rewrite Hlen. vm_compute. reflexivity. }
  rewrite Hcells. vm_compute. reflexivity.
Defined.

Lemma decision_first_rule_witness :
  (0 < 30)%Z
  /\ Samples.run = Inventory.Ok Samples.plan_table
  /\ In Samples.first_row (PyFrame.rows Samples.plan_table)
  /\ exists fd avail rop buf : Q,
       Samples.first_row "inventory_decision"
       = PyVal.VStr (Inventory.decision_rule fd avail rop buf).
Proof.
  split; [lia|]. split; [exact run_ok|]. split; [exact first_row_in|].
  destruct (decision_first_rule Samples.float_repr Samples.parse_float
              Samples.sqrtQ Samples.forecast Samples.snapshot 30 (95 # 100)
              "stat" 7 Samples.plan_table Samples.first_row)
    as (fd & avail & rop & buf & _ & _ & _ & _ & H & _);
    [lia | exact run_ok | exact first_row_in |].
  exists fd, avail, rop, buf. exact H.
Defined.

Lemma suggested_order_quantity_witness :
  (0 < 30)%Z
  /\ Samples.run = Inventory.Ok Samples.plan_table
  /\ In Samples.first_row (PyFrame.rows Samples.plan_table)
  /\ exists n : Z,
       Samples.first_row "suggested_order_qty" = PyVal.VInt n /\ (0 <= n)%Z.
Proof.
  split; [lia|]. split; [exact run_ok|]. split; [exact first_row_in|].
  destruct (suggested_order_quantity Samples.float_repr Samples.parse_float
              Samples.sqrtQ Samples.forecast Samples.snapshot 30 (95 # 100)
              "stat" 7 Samples.plan_table Samples.first_row)
    as (dec & target & avail & min_lt & n & _ & _ & _ & _ & H & _ & _ & _ & Hn);
    [lia | exact run_ok | exact first_row_in |].
  exists n. split; assumption.
Defined.



(* ================================================================== *)
(** * Further properties *)

(** ** Sums, means and rounding *)

Section RangeFacts.
Import PyNum.
Local Open Scope Q_scope.

Lemma sumQ_bounds (lo hi : Q) (l : list Q) :
  (forall x, In x l -> lo <= x <= hi) ->
  inject_Z (Z.of_nat (length l)) * lo <= sumQ l
  <= inject_Z (Z.of_nat (length l)) * hi.
Proof.
  induction l as [|x l IH]; intro H.
  - change (0 * lo <= 0 <= 0 * hi). lra.
  - cbn [length sumQ fold_right]. fold (sumQ l).
    rewrite Nat2Z.inj_succ. unfold Z.succ. rewrite inject_Z_plus.
    change (inject_Z 1) with 1.
    destruct (H x (or_introl eq_refl)) as [H1 H2].
    destruct IH as [H3 H4]; [intros y Hy; apply H; right; exact Hy|].
    lra.
Qed.

Lemma length_pos_Q {A} (l : list A) :
  l <> [] -> 0 < inject_Z (Z.of_nat (length l)).
Proof.
  intro H. destruct l; [congruence|].
  change 0 with (inject_Z 0). rewrite <- Zlt_Qlt. cbn [length]. lia.
Qed.

Lemma meanQ_bounds (lo hi : Q) (l : list Q) :
  l <> [] -> (forall x, In x l -> lo <= x <= hi) -> lo <= meanQ l <= hi.
Proof.
  intros Hne H. unfold meanQ.
  assert (Hn := length_pos_Q l Hne).
  destruct (sumQ_bounds lo hi l H) as [H1 H2].
  split.
  - apply Qle_shift_div_l; [exact Hn | lra].
  - apply Qle_shift_div_r; [exact Hn | lra].
Qed.

Lemma in_tail {A} (k : nat) (l : list A) (x : A) : In x (tail k l) -> In x l.
Proof.
  unfold tail. intro H. rewrite <- (firstn_skipn (length l - k) l).
  apply in_or_app. right. exact H.
Qed.

Lemma in_firstn {A} (k : nat) (l : list A) (x : A) :
  In x (firstn k l) -> In x l.
Proof.
  intro H. rewrite <- (firstn_skipn k l). apply in_or_app. left. exact H.
Qed.

Lemma in_skipn {A} (k : nat) (l : list A) (x : A) :
  In x (skipn k l) -> In x l.
Proof.
  intro H. rewrite <- (firstn_skipn k l). apply in_or_app. right. exact H.
Qed.

(** The weighted mean of a window lies where its points lie. *)
Lemma weighted_bounds (lo hi : Q) (w : list Q) :
  (3 <= length w)%nat ->
  (forall x, In x w -> lo <= x <= hi) ->
  lo <= Demand.weighted_old1_new2 w <= hi.
Proof.
  intros Hlen H. unfold Demand.weighted_old1_new2.
  set (k := (length w - 3)%nat).
  assert (Hold : length (firstn k w) = k)
    by (rewrite length_firstn; subst k; lia).
  assert (Hnew : length (skipn k w) = 3%nat)
    by (rewrite length_skipn; subst k; lia).
  destruct (sumQ_bounds lo hi (firstn k w)) as [A1 A2];
    [intros x Hx; apply H, (in_firstn k); exact Hx|].
  destruct (sumQ_bounds lo hi (skipn k w)) as [B1 B2];
    [intros x Hx; apply H, (in_skipn k); exact Hx|].
  rewrite Hold in A1, A2. rewrite Hnew in B1, B2.
  change (inject_Z (Z.of_nat 3)) with 3 in B1, B2.
  rewrite inject_Z_plus. change (inject_Z (2 * 3)) with 6.
  assert (Hk : 0 <= inject_Z (Z.of_nat k)).
  { change 0 with (inject_Z 0). rewrite <- Zle_Qle. lia. }
  split.
  - apply Qle_shift_div_l; lra.
  - apply Qle_shift_div_r; lra.
Qed.

Lemma py_round_floor (x : Q) :
  (Qfloor x <= py_round x <= Qfloor x + 1)%Z.
Proof.
  unfold py_round.
  destruct (Qcompare _ _); [destruct (Z.even _)| |]; lia.
Qed.

(** Rounding keeps the order. *)
Lemma py_round_le (x y : Q) : x <= y -> (py_round x <= py_round y)%Z.
Proof.
  intro Hxy.
  assert (Hf := Qfloor_resp_le x y Hxy).
  destruct (Z.eq_dec (Qfloor x) (Qfloor y)) as [E | NE].
  - unfold py_round. rewrite <- E.
    assert (Hr : x - inject_Z (Qfloor x) <= y - inject_Z (Qfloor x)) by lra.
    destruct (Qcompare (x - inject_Z (Qfloor x)) (1 # 2)) eqn:Cx;
      destruct (Qcompare (y - inject_Z (Qfloor x)) (1 # 2)) eqn:Cy;
      try (destruct (Z.even (Qfloor x)); lia); try lia;
      exfalso;
      repeat match goal with
             | H : Qcompare _ _ = Lt |- _ => apply Qlt_alt in H
             | H : Qcompare _ _ = Eq |- _ => apply Qeq_alt in H
             | H : Qcompare _ _ = Gt |- _ => apply Qgt_alt in H
             end; lra.
  - assert (H1 := py_round_floor x). assert (H2 := py_round_floor y). lia.
Qed.

End RangeFacts.

(** ** The forecast stays in the range of the series *)

Section ForecastRange.
Import PyStr PyNum Demand.
Local Open Scope Q_scope.
Variable sqrtQ : Q -> Q.

Lemma in_positive (d : list Q) (x : Q) : In x (positive d) -> In x d.
Proof. unfold positive. intro H. apply filter_In in H. tauto. Qed.

Lemma forecast_of_bounds (lo hi : Q) (d : list Q) :
  d <> [] -> (forall x, In x d -> lo <= x <= hi) ->
  lo <= fst (forecast_of d) <= hi.
Proof.
  intros Hne H. unfold forecast_of.
  assert (Hn := length_pos_Q d Hne).
  destruct (Qeq_bool (total_of d) 0) eqn:Et.
  - apply Qeq_bool_iff in Et. unfold total_of in Et.
    destruct (sumQ_bounds lo hi d H) as [H1 H2]. rewrite Et in H1, H2.
    cbn [fst]. split.
    + destruct (Qlt_le_dec 0 lo) as [Hlo|Hlo]; [|exact Hlo].
      exfalso. assert (0 < inject_Z (Z.of_nat (length d)) * lo)
        by (apply Qmult_lt_0_compat; assumption). lra.
    + destruct (Qlt_le_dec hi 0) as [Hhi|Hhi]; [|exact Hhi].
      exfalso.
      assert (0 < inject_Z (Z.of_nat (length d)) * (- hi))
        by (apply Qmult_lt_0_compat; lra). lra.
  - destruct (_ && _) eqn:Ei.
    + cbn [fst]. apply andb_true_iff in Ei. destruct Ei as [_ Ep].
      unfold avg_nonzero_of in *.
      destruct (0 <? length (positive d))%nat eqn:Epos;
        [|apply Qlt_bool_iff in Ep; lra].
      apply meanQ_bounds.
      * apply Nat.ltb_lt in Epos. destruct (positive d); cbn in *; [lia|congruence].
      * intros x Hx. apply H, in_positive, Hx.
    + destruct (4 <=? length d)%nat eqn:E4.
      * apply Nat.leb_le in E4.
        assert (Hw : length (tail (Nat.min 9 (length d)) d)
                     = Nat.min 9 (length d)) by (apply length_tail; lia).
        destruct (length (tail (Nat.min 9 (length d)) d) <=? 3)%nat eqn:E3;
          [apply Nat.leb_le in E3; lia|].
        cbn [fst]. rewrite weighted_window by lia.
        apply weighted_bounds; [lia|].
        intros x Hx. apply H, (in_tail _ _ _ Hx).
      * cbn [fst]. destruct (0 <? length d)%nat eqn:E0.
        -- apply meanQ_bounds; assumption.
        -- apply Nat.ltb_ge in E0. destruct d; cbn in *; [congruence|lia].
Qed.

(** X2.  For a series without negative values the clamp at 0 does
    nothing: the rounded forecast is the rounding of the forecast, and it
    lies between the roundings of any two bounds of the values. *)
Theorem rounded_forecast_within_range (demand : list (option Q)) (lo hi : Q) :
  demand <> [] ->
  0 <= lo ->
  (forall x, In x (fillna0 demand) -> lo <= x <= hi) ->
  let st := _compute_demand_stats_and_forecast sqrtQ demand in
  forecast_next_month_rounded st = py_round (forecast_next_month st)
  /\ (py_round lo <= forecast_next_month_rounded st <= py_round hi)%Z.
Proof.
  intros Hne Hlo H st.
  assert (Hd : fillna0 demand <> [])
    by (destruct demand; [congruence | discriminate]).
  destruct (forecast_of_bounds lo hi (fillna0 demand) Hd H) as [H1 H2].
  change (fst (forecast_of (fillna0 demand)))
    with (forecast_next_month st) in H1, H2.
  assert (E : forecast_next_month_rounded st
              = py_round (forecast_next_month st)).
  { subst st. cbn. apply Z.max_l. apply py_round_nonneg.
    cbn in H1. lra. }
  split; [exact E|]. rewrite E.
  split; apply py_round_le; assumption.
Qed.

Lemma sumQ_zero (d : list Q) : (forall x, In x d -> x == 0) -> sumQ d == 0.
Proof.
  induction d as [|x d IH]; intro H; [reflexivity|].
  cbn [sumQ fold_right]. fold (sumQ d).
  rewrite (H x (or_introl eq_refl)), IH; [reflexivity|].
  intros y Hy. apply H. right. exact Hy.
Qed.

(** X3.  A series with no value other than 0 and NaN, the empty series
    among them, is forecast as 0 by "zero_demand"; its rounded forecast is
    0 and its coefficient of variation is undefined. *)
Theorem zero_series_forecast (demand : list (option Q)) :
  (forall x, In x (fillna0 demand) -> x == 0) ->
  let st := _compute_demand_stats_and_forecast sqrtQ demand in
  forecast_method st = "zero_demand"
  /\ forecast_next_month st = 0
  /\ forecast_next_month_rounded st = 0%Z
  /\ demand_total st == 0
  /\ demand_cv st = None.
Proof.
  intros H st. subst st. cbn.
  assert (Ht : total_of (fillna0 demand) == 0) by (apply sumQ_zero, H).
  unfold forecast_of. apply Qeq_bool_iff in Ht. rewrite Ht.
  apply Qeq_bool_iff in Ht. cbn.
  repeat (split; [reflexivity || exact Ht|]).
  unfold cv_of, avg_all_of.
  destruct (0 <? length (fillna0 demand))%nat; [|reflexivity].
  unfold meanQ. unfold total_of in Ht.
  assert (E : Qlt_bool 0 (sumQ (fillna0 demand)
                          / inject_Z (Z.of_nat (length (fillna0 demand))))
              = false).
  { apply Qlt_bool_false_iff. rewrite Ht. unfold Qdiv. lra. }
  rewrite E. reflexivity.
Qed.

Lemma filter_length_le {A} (p : A -> bool) (l : list A) :
  (length (filter p l) <= length l)%nat.
Proof.
  induction l as [|x l IH]; cbn; [lia|]. destruct (p x); cbn; lia.
Qed.

(** X4.  The counts of a series agree: the zeros are at most the months,
    the zero ratio lies between 0 and 1 and is 1 for the empty series, and
    the mean of the positive values is never negative. *)
Theorem stats_counts (demand : list (option Q)) :
  let st := _compute_demand_stats_and_forecast sqrtQ demand in
  months_count st = length demand
  /\ (zeros_count st <= months_count st)%nat
  /\ 0 <= zero_ratio st <= 1
  /\ (demand = [] -> zero_ratio st = 1)
  /\ 0 <= demand_avg_nonzero st.
Proof.
  cbn. set (d := fillna0 demand).
  assert (Hlen : length d = length demand) by (apply length_map).
  assert (Hz : (zeros_of d <= length d)%nat) by apply filter_length_le.
  split; [exact Hlen|]. split; [exact Hz|].
  split; [|split].
  - unfold zero_ratio_of.
    destruct (0 <? length d)%nat eqn:E; [|lra].
    apply Nat.ltb_lt in E.
    assert (Hn : 0 < inject_Z (Z.of_nat (length d))).
    { change 0 with (inject_Z 0). rewrite <- Zlt_Qlt. lia. }
    assert (H0 : 0 <= inject_Z (Z.of_nat (zeros_of d))).
    { change 0 with (inject_Z 0). rewrite <- Zle_Qle. lia. }
    assert (H1 : inject_Z (Z.of_nat (zeros_of d))
                 <= inject_Z (Z.of_nat (length d))).
    { rewrite <- Zle_Qle. lia. }
    split.
    + apply Qle_shift_div_l; [exact Hn | lra].
    + apply Qle_shift_div_r; [exact Hn | lra].
  - intros ->. reflexivity.
  - unfold avg_nonzero_of.
    destruct (0 <? length (positive d))%nat eqn:E; [|lra].
    apply Nat.ltb_lt in E.
    assert (Hs : 0 <= sumQ (positive d)).
    { assert (forall l, (forall x, In x l -> 0 <= x) -> 0 <= sumQ l) as Hnn.
      { induction l as [|x l IH]; intro Hl; [apply Qle_refl|].
        cbn [sumQ fold_right]. fold (sumQ l).
        assert (0 <= x) by (apply Hl; left; reflexivity).
        assert (0 <= sumQ l) by (apply IH; intros y Hy; apply Hl; right; exact Hy).
        lra. }
      apply Hnn. intros x Hx. apply filter_In in Hx. destruct Hx as [_ Hx].
      apply Qlt_bool_iff in Hx. lra. }
    unfold meanQ. apply Qle_shift_div_l; [|lra].
    change 0 with (inject_Z 0). rewrite <- Zlt_Qlt. lia.
Qed.

End ForecastRange.

(** ** ABC classes of a whole table *)

Section AbcTable.
Import PyStr PyNum Demand.
Local Open Scope Q_scope.

Lemma insert_desc_perm {A} (key : A -> Q) (x : A) (l : list A) :
  Permutation (insert_desc key x l) (x :: l).
Proof.
  induction l as [|y l IH]; cbn; [reflexivity|].
  destruct (Qle_bool (key y) (key x)); [reflexivity|].
  rewrite IH. apply perm_swap.
Qed.

Lemma sort_desc_perm {A} (key : A -> Q) (l : list A) :
  Permutation (sort_desc key l) l.
Proof.
  induction l as [|x l IH]; [reflexivity|].
  unfold sort_desc in *. cbn. rewrite insert_desc_perm, IH. reflexivity.
Qed.

Lemma sumQ_perm (l l' : list Q) : Permutation l l' -> sumQ l == sumQ l'.
Proof.
  induction 1 as [|x l l' H IH | x y l | l l' l'' H1 IH1 H2 IH2].
  - reflexivity.
  - cbn [sumQ fold_right]. fold (sumQ l) (sumQ l'). rewrite IH. reflexivity.
  - cbn [sumQ fold_right]. fold (sumQ l). lra.
  - rewrite IH1. exact IH2.
Qed.

(** The classified rows of a sorted table, the running share being [acc]
    before them. *)
Lemma classified_from (T acc : Q) (sorted : list SummaryRow) :
  let shares := map (fun r => row_total r / T) sorted in
  map summary
    (map (fun '(r, (sh, cum)) => mkProduct r sh cum (_abc cum))
       (combine sorted (combine shares (cumsum_from acc shares))))
  = sorted.
Proof.
  revert acc. induction sorted as [|r rs IH]; intro acc; [reflexivity|].
  cbn. f_equal. apply IH.
Qed.

(** X5.  The classifier keeps the table: its rows are the rows it was
    given, each once, and when some demand is positive they stand from the
    largest total to the smallest. *)
Theorem abc_keeps_rows (rows : list SummaryRow) :
  let out := abc_classify rows in
  Permutation (map summary out) rows
  /\ length out = length rows
  /\ (0 < sumQ (map row_total rows) ->
        StronglySorted (desc row_total) (map summary out))
  /\ (sumQ (map row_total rows) <= 0 -> map summary out = rows).
Proof.
  cbv zeta. unfold abc_classify.
  destruct (Qlt_bool 0 (sumQ (map row_total rows))) eqn:E.
  - unfold cumsum. rewrite classified_from.
    split; [apply sort_desc_perm|]. split.
    + rewrite <- (length_map summary), classified_from.
      apply Permutation_length, sort_desc_perm.
    + split; [intros _; apply sort_desc_sorted|].
      intro H. apply Qlt_bool_iff in E. lra.
  - assert (Hid : map summary (map (fun r => mkProduct r 0 0 "C") rows) = rows).
    { rewrite map_map. cbn. apply map_id. }
    rewrite Hid. split; [reflexivity|]. split; [now rewrite length_map|].
    split; [|reflexivity].
    intro H. apply Qlt_bool_false_iff in E. lra.
Qed.

Lemma last_classified (T acc : Q) (sorted : list SummaryRow)
    (d : ProductForecast) :
  sorted <> [] ->
  let shares := map (fun r => row_total r / T) sorted in
  let out :=
    map (fun '(r, (sh, cum)) => mkProduct r sh cum (_abc cum))
      (combine sorted (combine shares (cumsum_from acc shares))) in
  cum_demand_share (last out d) == acc + sumQ shares
  /\ abc_class (last out d) = _abc (cum_demand_share (last out d)).
Proof.
  revert acc d. induction sorted as [|r rs IH]; intros acc d Hne;
    [congruence|].
  destruct rs as [|r' rs'].
  - cbn. split; [lra | reflexivity].
  - specialize (IH (acc + row_total r / T) d).
    destruct IH as [IH1 IH2]; [discriminate|].
    cbv zeta in *.
    change (last _ d) with
      (last (map (fun '(r, (sh, cum)) => mkProduct r sh cum (_abc cum))
               (combine (r' :: rs')
                  (combine (map (fun r => row_total r / T) (r' :: rs'))
                     (cumsum_from (acc + row_total r / T)
                        (map (fun r => row_total r / T) (r' :: rs'))))))
            d).
    split; [|exact IH2].
    rewrite IH1. cbn [map sumQ fold_right]. lra.
Qed.

Lemma sumQ_shares (T : Q) (l : list SummaryRow) :
  sumQ (map (fun r => row_total r / T) l) == sumQ (map row_total l) / T.
Proof.
  induction l as [|r l IH].
  - cbn. unfold Qdiv. lra.
  - cbn [map sumQ fold_right].
    fold (sumQ (map (fun r => row_total r / T) l)).
    fold (sumQ (map row_total l)). rewrite IH. unfold Qdiv. lra.
Qed.

(** X6.  In a table without negative totals and with some positive
    one, the last row of the classified table, the one of the least
    demand, has a cumulative share above 0.95 and so the class "C",
    whatever the table. *)
Theorem abc_last_row_is_C (rows : list SummaryRow) (d : ProductForecast) :
  (forall r, In r rows -> 0 <= row_total r) ->
  0 < sumQ (map row_total rows) ->
  let out := abc_classify rows in
  out <> []
  /\ 95 # 100 < cum_demand_share (last out d)
  /\ abc_class (last out d) = _abc (cum_demand_share (last out d))
  /\ abc_class (last out d) = "C".
Proof.
  intros _ Hpos out. subst out. unfold abc_classify.
  assert (E : Qlt_bool 0 (sumQ (map row_total rows)) = true)
    by (apply Qlt_bool_iff; exact Hpos).
  rewrite E.
  set (T := sumQ (map row_total rows)) in *.
  set (sorted := sort_desc row_total rows).
  assert (Hperm : Permutation sorted rows) by apply sort_desc_perm.
  assert (Hne : sorted <> []).
  { intro H0. rewrite H0 in Hperm. apply Permutation_nil in Hperm.
    subst T. rewrite Hperm in Hpos. cbn in Hpos. lra. }
  assert (Hsum : sumQ (map (fun r => row_total r / T) sorted) == 1).
  { rewrite sumQ_shares.
    rewrite (sumQ_perm (map row_total sorted) (map row_total rows))
      by (apply Permutation_map; exact Hperm).
    fold T. field. lra. }
  destruct (last_classified T 0 sorted d Hne) as [H1 H2].
  cbv zeta in H1, H2. unfold cumsum.
  assert (Hcum : cum_demand_share
                   (last (map (fun '(r, (sh, cum)) =>
                                 mkProduct r sh cum (_abc cum))
                            (combine sorted
                               (combine (map (fun r => row_total r / T) sorted)
                                  (cumsum_from 0
                                     (map (fun r => row_total r / T) sorted)))))
                         d) == 1)
    by (rewrite H1, Hsum; reflexivity).
  split.
  { destruct sorted as [|r rs]; [congruence | discriminate]. }
  split; [rewrite Hcum; reflexivity|].
  split; [exact H2|].
  rewrite H2. apply _abc_of_one. exact Hcum.
Qed.

Lemma _abc_ordered (x y : Q) :
  x <= y ->
  (_abc y = "A" -> _abc x = "A") /\ (_abc x = "C" -> _abc y = "C").
Proof.
  intro H. unfold _abc.
  destruct (Qle_bool x (8 # 10)) eqn:X1; destruct (Qle_bool x (95 # 100)) eqn:X2;
    destruct (Qle_bool y (8 # 10)) eqn:Y1; destruct (Qle_bool y (95 # 100)) eqn:Y2;
    split; intro E; try reflexivity; try discriminate E; exfalso;
    repeat match goal with
           | H : Qle_bool _ _ = true |- _ => apply Qle_bool_iff in H
           | H : Qle_bool _ _ = false |- _ => apply Qle_bool_false_iff in H
           end; lra.
Qed.

Lemma classified_ordered (T acc : Q) (sorted : list SummaryRow) :
  0 < T ->
  (forall r, In r sorted -> 0 <= row_total r) ->
  let shares := map (fun r => row_total r / T) sorted in
  let out :=
    map (fun '(r, (sh, cum)) => mkProduct r sh cum (_abc cum))
      (combine sorted (combine shares (cumsum_from acc shares))) in
  StronglySorted classes_in_order out
  /\ Forall (fun p => acc <= cum_demand_share p <= acc + sumQ shares
                      /\ 0 <= demand_share p
                      /\ abc_class p = _abc (cum_demand_share p)) out.
Proof.
  intros HT. revert acc.
  induction sorted as [|r rs IH]; intros acc Hnn; cbv zeta.
  - split; constructor.
  - assert (Hr : 0 <= row_total r / T).
    { apply Qle_shift_div_l; [exact HT|].
      assert (0 <= row_total r) by (apply Hnn; left; reflexivity). lra. }
    destruct (IH (acc + row_total r / T)) as [IH1 IH2];
      [intros x Hx; apply Hnn; right; exact Hx|].
    cbv zeta in IH1, IH2.
    cbn [map combine cumsum_from].
    set (rest := map (fun '(r, (sh, cum)) => mkProduct r sh cum (_abc cum))
                   (combine rs
                      (combine (map (fun r => row_total r / T) rs)
                         (cumsum_from (acc + row_total r / T)
                            (map (fun r => row_total r / T) rs))))) in *.
    assert (Hs : 0 <= sumQ (map (fun r => row_total r / T) rs)).
    { clear - HT Hnn. induction rs as [|x rs IH]; [apply Qle_refl|].
      cbn [map sumQ fold_right].
      assert (0 <= row_total x / T).
      { apply Qle_shift_div_l; [exact HT|].
        assert (0 <= row_total x) by (apply Hnn; right; left; reflexivity).
        lra. }
      assert (0 <= sumQ (map (fun r => row_total r / T) rs)).
      { apply IH. intros y [-> | Hy]; apply Hnn; [left | right; right];
          auto. }
      fold (sumQ (map (fun r => row_total r / T) rs)). lra. }
    split.
    + constructor; [exact IH1|].
      rewrite Forall_forall in *. intros q Hq.
      destruct (IH2 q Hq) as ((Hq1 & _) & _ & Hq3).
      unfold classes_in_order. cbn [cum_demand_share abc_class].
      split; [exact Hq1|]. rewrite Hq3.
      apply _abc_ordered. exact Hq1.
    + constructor.
      * cbn [cum_demand_share demand_share abc_class sumQ fold_right].
        fold (sumQ (map (fun r => row_total r / T) rs)).
        repeat split; try lra.
      * rewrite Forall_forall in *. intros q Hq.
        destruct (IH2 q Hq) as ((Hq1 & Hq2) & Hq3 & Hq4).
        cbn [sumQ fold_right].
        fold (sumQ (map (fun r => row_total r / T) rs)).
        repeat split; try assumption; lra.
Qed.

(** X7.  In a table without negative totals and with some positive one,
    no share is negative, the cumulative shares do not fall down the
    table, and the classes follow them: no "A" row stands after a "B" or
    a "C" row, and no "B" row after a "C" row. *)
Theorem abc_classes_in_order (rows : list SummaryRow) :
  (forall r, In r rows -> 0 <= row_total r) ->
  0 < sumQ (map row_total rows) ->
  let out := abc_classify rows in
  StronglySorted classes_in_order out
  /\ Forall (fun p => 0 <= cum_demand_share p
                      /\ 0 <= demand_share p
                      /\ abc_class p = _abc (cum_demand_share p)) out.
Proof.
  intros Hnn Hpos out. subst out. unfold abc_classify.
  assert (E : Qlt_bool 0 (sumQ (map row_total rows)) = true)
    by (apply Qlt_bool_iff; exact Hpos).
  rewrite E.
  set (T := sumQ (map row_total rows)) in *.
  set (sorted := sort_desc row_total rows).
  assert (Hperm : Permutation sorted rows) by apply sort_desc_perm.
  destruct (classified_ordered T 0 sorted Hpos) as [H1 H2].
  { intros r Hr. apply Hnn. apply (Permutation_in _ Hperm). exact Hr. }
  cbv zeta in H1, H2. unfold cumsum. split; [exact H1|].
  rewrite Forall_forall in *. intros p Hp.
  destruct (H2 p Hp) as ((A1 & A2) & A3 & A4).
  repeat split; assumption.
Qed.

End AbcTable.

(** ** Service levels and safety stock *)

Section ServiceLevels.
Import PyStr PyNum PyVal PyFrame Inventory.
Local Open Scope Q_scope.
Variable float_repr : Q -> string.

Lemma Qle_bool_true (a b : Q) : a <= b -> Qle_bool a b = true.
Proof. apply Qle_bool_iff. Qed.

Lemma Qle_bool_false (a b : Q) : b < a -> Qle_bool a b = false.
Proof. apply Qle_bool_false_iff. Qed.

Ltac decide_levels :=
  repeat match goal with
         | H : Qle_bool _ _ = true |- _ => apply Qle_bool_iff in H
         | H : Qle_bool _ _ = false |- _ => apply Qle_bool_false_iff in H
         | H : Qlt_bool _ _ = true |- _ => apply Qlt_bool_iff in H
         | H : Qlt_bool _ _ = false |- _ => apply Qlt_bool_false_iff in H
         end.

(** The factor of a level given as a float, by the ladder of the code. *)
Lemma z_ladder (sl : Q) :
  exists z,
    _z_from_service_level (VFloat sl) = VFloat z
    /\ 0 <= z <= 309 # 100
    /\ (sl < 85 # 100 -> z = 0)
    /\ (85 # 100 <= sl -> 104 # 100 <= z)
    /\ (90 # 100 <= sl -> 128 # 100 <= z)
    /\ (sl < 95 # 100 -> z <= 128 # 100)
    /\ (98 # 100 <= sl -> 205 # 100 <= z).
Proof.
  unfold _z_from_service_level. cbn [vle as_float].
  destruct (Qle_bool (999 # 1000) sl) eqn:E1;
    [|destruct (Qle_bool (99 # 100) sl) eqn:E2;
      [|destruct (Qle_bool (98 # 100) sl) eqn:E3;
        [|destruct (Qle_bool (95 # 100) sl) eqn:E4;
          [|destruct (Qle_bool (90 # 100) sl) eqn:E5;
            [|destruct (Qle_bool (85 # 100) sl) eqn:E6]]]]];
    decide_levels; eexists; (split; [reflexivity|]);
    repeat split; intros; try reflexivity; try lra.
Qed.

(** X8.  The safety factor grows with the service level: a level at
    least as high never gets a smaller factor.  The factor lies between 0
    and 3.09, is 0 exactly below the level 0.85, and a missing level
    counts as factor 0. *)
Theorem z_grows_with_service_level (a b : Q) :
  a <= b ->
  exists za zb,
    _z_from_service_level (VFloat a) = VFloat za
    /\ _z_from_service_level (VFloat b) = VFloat zb
    /\ 0 <= za /\ za <= zb /\ zb <= 309 # 100
    /\ (za == 0 <-> a < 85 # 100)
    /\ _z_from_service_level VNone = VFloat 0.
Proof.
  intro Hab. unfold _z_from_service_level. cbn [vle as_float].
  destruct (Qle_bool (999 # 1000) a) eqn:A1;
    [|destruct (Qle_bool (99 # 100) a) eqn:A2;
      [|destruct (Qle_bool (98 # 100) a) eqn:A3;
        [|destruct (Qle_bool (95 # 100) a) eqn:A4;
          [|destruct (Qle_bool (90 # 100) a) eqn:A5;
            [|destruct (Qle_bool (85 # 100) a) eqn:A6]]]]];
    (destruct (Qle_bool (999 # 1000) b) eqn:B1;
     [|destruct (Qle_bool (99 # 100) b) eqn:B2;
       [|destruct (Qle_bool (98 # 100) b) eqn:B3;
         [|destruct (Qle_bool (95 # 100) b) eqn:B4;
           [|destruct (Qle_bool (90 # 100) b) eqn:B5;
             [|destruct (Qle_bool (85 # 100) b) eqn:B6]]]]]);
    decide_levels; try (exfalso; lra);
    eexists; eexists; (split; [reflexivity|]); (split; [reflexivity|]);
    (split; [lra|]); (split; [lra|]); (split; [lra|]);
    (split; [split; intro; lra | reflexivity]).
Qed.

Lemma py_max_ge (a b : Q) : a <= py_max a b /\ b <= py_max a b.
Proof.
  unfold py_max. destruct (Qlt_bool a b) eqn:E; decide_levels; lra.
Qed.

Lemma py_min_le (a b : Q) : py_min a b <= a /\ py_min a b <= b.
Proof.
  unfold py_min. destruct (Qlt_bool b a) eqn:E; decide_levels; lra.
Qed.

Lemma map_service_level_class (sl : Q) (r : row) (c : string) :
  upper (strip (str float_repr (r "abc_class"))) = c ->
  _map_service_level float_repr true sl r
  = if (c =? "A")%string then VFloat (py_max sl (98 # 100))
    else if (c =? "B")%string then VFloat sl
    else if (c =? "C")%string then VFloat (py_min sl (90 # 100))
    else VFloat sl.
Proof. intros <-. reflexivity. Qed.

(** X9.  The effective service level follows the class, read without
    regard to case or blanks around it: an "A" item is served at 0.98 at
    least and so with a factor of 2.05 or more, a "C" item at 0.90 at most
    and so with a factor of 1.28 or less, and any other class at the
    level that was asked for.  For one level asked, A is served no worse
    than B, and B no worse than C. *)
Theorem service_level_by_class (service_level : Q) (rA rB rC rO : row)
    (other : string) :
  upper (strip (str float_repr (rA "abc_class"))) = "A" ->
  upper (strip (str float_repr (rB "abc_class"))) = "B" ->
  upper (strip (str float_repr (rC "abc_class"))) = "C" ->
  upper (strip (str float_repr (rO "abc_class"))) = other ->
  other <> "A" -> other <> "C" ->
  exists sa sc za zc : Q,
    _map_service_level float_repr true service_level rA = VFloat sa
    /\ _map_service_level float_repr true service_level rB
       = VFloat service_level
    /\ _map_service_level float_repr true service_level rC = VFloat sc
    /\ _map_service_level float_repr true service_level rO
       = VFloat service_level
    /\ sc <= service_level <= sa
    /\ 98 # 100 <= sa /\ sc <= 90 # 100
    /\ _z_from_service_level (VFloat sa) = VFloat za
    /\ _z_from_service_level (VFloat sc) = VFloat zc
    /\ 205 # 100 <= za /\ zc <= 128 # 100 /\ zc <= za.
Proof.
  intros HA HB HC HO HnA HnC.
  rewrite (map_service_level_class service_level rA "A" HA).
  rewrite (map_service_level_class service_level rB "B" HB).
  rewrite (map_service_level_class service_level rC "C" HC).
  rewrite (map_service_level_class service_level rO other HO).
  apply String.eqb_neq in HnA, HnC. rewrite HnA, HnC.
  cbn [String.eqb Ascii.eqb Bool.eqb].
  set (sa := py_max service_level (98 # 100)).
  set (sc := py_min service_level (90 # 100)).
  destruct (py_max_ge service_level (98 # 100)) as [A1 A2].
  destruct (py_min_le service_level (90 # 100)) as [C1 C2].
  fold sa in A1, A2. fold sc in C1, C2.
  destruct (z_ladder sa) as (za & Hza & _ & _ & _ & _ & _ & Za).
  destruct (z_ladder sc) as (zc & Hzc & _ & _ & _ & _ & Zc & _).
  exists sa, sc, za, zc.
  assert (205 # 100 <= za) by (apply Za; exact A2).
  assert (zc <= 128 # 100) by (apply Zc; lra).
  repeat (split; [reflexivity || assumption || lra|]).
  destruct (String.eqb other "B"); repeat (split; [reflexivity || assumption || lra|]); lra.
Qed.

End ServiceLevels.

(** ** More of the rows of a plan *)

Section PlannerMore.
Import PyStr PyNum PyVal PyFrame Inventory.
Local Open Scope Q_scope.
Variable float_repr : Q -> string.
Variable parse_float : string -> option Q.
Variable sqrtQ : Q -> Q.

Local Abbreviation plan :=
  (plan_inventory_dc float_repr parse_float sqrtQ).
Local Abbreviation steps :=
  (derived_columns float_repr parse_float sqrtQ).
Local Abbreviation number v :=
  (match to_numeric parse_float v with Some q => q | None => 0 end).

Ltac read_cells :=
  repeat first
    [ rewrite derive_row_lookup;
      cbv [last_assign derived_columns app fst snd
           String.eqb Ascii.eqb Bool.eqb]
    | rewrite numeric_cell_float ].

Lemma safety_stock_value (mode : string) (r : row) (fd ss lt sd sl z : Q) :
  r "forecast_daily" = VFloat fd ->
  r "safety_stock_days" = VFloat ss ->
  r "lead_time_import_days" = VFloat lt ->
  r "demand_daily_std" = VFloat sd ->
  r "service_level_effective" = VFloat sl ->
  _z_from_service_level (VFloat sl) = VFloat z ->
  _calc_safety_stock sqrtQ mode r
  = VFloat (safety_stock_code sqrtQ mode fd ss lt sd z).
Proof.
  intros H1 H2 H3 H4 H5 Hz. unfold _calc_safety_stock, safety_stock_code.
  rewrite H1, H2, H3, H4, H5, Hz.
  unfold vsqrt, Qlt_bool. cbn [vle vlt vmul lift2 as_float].
  destruct (Qle_bool fd 0); [reflexivity|].
  destruct (String.eqb mode "days"); [reflexivity|].
  destruct (Qle_bool z 0); [reflexivity|].
  destruct (Qle_bool sd 0); [reflexivity|].
  destruct (Qle_bool lt 0); reflexivity.
Qed.

Lemma map_service_level_row (sl : Q) (r r' : row) :
  r "abc_class" = r' "abc_class" ->
  _map_service_level float_repr true sl r
  = _map_service_level float_repr true sl r'.
Proof. unfold _map_service_level. intros ->. reflexivity. Qed.

(** The cells of a row of the plan, each as the code computes it from
    the row of the join. *)
Lemma planned_cells (dpm : Z) (sl : Q) (mode : string) (rd : Z) (b : bool)
    (r0 : row) :
  let r := derive_row (steps dpm sl mode rd b) r0 in
  let fm := number (r0 "forecast_next_month") in
  let fd := fm / inject_Z dpm in
  let avail := number (r0 "on_hand_dc") + number (r0 "on_order_from_china") in
  let lt := number (r0 "lead_time_import_days") in
  let ssd := number (r0 "safety_stock_days") in
  let sigma := number (r0 "demand_std") / sqrtQ (inject_Z dpm) in
  exists sle z : Q,
    let ssq := safety_stock_code sqrtQ mode fd ssd lt sigma z in
    let rop := fd * lt + ssq in
    let buf := fd * inject_Z rd in
    let min_lt := if Qlt_bool (fd * lt - avail) 0 then 0 else fd * lt - avail in
    let target := fd * (lt + ssd) in
    let decision := decision_rule fd avail rop buf in
    (if b then _map_service_level float_repr true sl r0 else VFloat sl)
    = VFloat sle
    /\ _z_from_service_level (VFloat sle) = VFloat z
    /\ r "forecast_next_month" = VFloat fm
    /\ r "forecast_daily" = VFloat fd
    /\ r "available_qty_total" = VFloat avail
    /\ r "lead_time_import_days" = VFloat lt
    /\ r "safety_stock_days" = VFloat ssd
    /\ r "demand_daily_std" = VFloat sigma
    /\ r "service_level_effective" = VFloat sle
    /\ r "safety_stock_qty" = VFloat ssq
    /\ r "days_of_supply"
       = (if Qle_bool fd 0 then VNaN else VFloat (avail / fd))
    /\ r "reorder_point" = VFloat rop
    /\ r "demand_during_lead_time" = VFloat (fd * lt)
    /\ r "min_order_qty_lt" = VFloat min_lt
    /\ r "target_stock_level" = VFloat target
    /\ r "inventory_decision" = VStr decision
    /\ r "suggested_order_qty"
       = VInt (order_qty_code decision fd target avail min_lt).
Proof.
  intros r fm fd avail lt ssd sigma.
  destruct (service_level_is_float float_repr b sl r0) as [sle Hsle].
  destruct (z_is_float sle) as [z Hz].
  exists sle, z. cbv zeta.
  set (ssq := safety_stock_code sqrtQ mode fd ssd lt sigma z).
  assert (Hss : r "safety_stock_qty" = VFloat ssq).
  { subst r. read_cells.
    match goal with
    | |- _calc_safety_stock _ _ ?row = _ => set (r10 := row)
    end.
    apply (safety_stock_value mode r10 fd ssd lt sigma sle z).
    - subst r10. read_cells. reflexivity.
    - subst r10. read_cells. reflexivity.
    - subst r10. read_cells. reflexivity.
    - subst r10. read_cells. reflexivity.
    - subst r10. read_cells. rewrite <- Hsle.
      destruct b; [|reflexivity].
      apply map_service_level_row. read_cells. reflexivity.
    - exact Hz. }
  assert (Hss' := Hss). subst r.
  rewrite derive_row_lookup in Hss'.
  cbv [last_assign derived_columns app fst snd
         String.eqb Ascii.eqb Bool.eqb] in Hss'.
  split; [destruct b; exact Hsle|]. split; [exact Hz|].
  split; [read_cells; reflexivity|].
  split; [read_cells; reflexivity|].
  split; [read_cells; reflexivity|].
  split; [read_cells; reflexivity|].
  split; [read_cells; reflexivity|].
  split; [read_cells; reflexivity|].
  split.
  { read_cells. rewrite <- Hsle. destruct b; [|reflexivity].
    apply map_service_level_row. read_cells. reflexivity. }
  split; [exact Hss|].
  split.
  { read_cells. unfold _calc_dos. read_cells.
    cbn [vdiv vadd lift2 as_float vle].
    fold fm. fold fd. destruct (Qle_bool fd 0); reflexivity. }
  split; [read_cells; rewrite Hss'; reflexivity|].
  split; [read_cells; reflexivity|].
  split.
  { read_cells. unfold clip_lower0.
    cbn [vdiv vmul vsub vadd lift2 as_float vlt].
    fold fm. fold fd. fold lt. fold avail. unfold Qlt_bool.
    destruct (Qle_bool 0 (fd * lt - avail)); reflexivity. }
  split; [read_cells; reflexivity|].
  split.
  { read_cells. unfold _decide_action. read_cells. rewrite Hss'.
    unfold decision_rule.
    cbn [vdiv vmul vsub vadd lift2 as_float vle].
    fold fm. fold fd. fold lt. fold avail.
    repeat match goal with
           | |- context [if ?c then _ else _] => destruct c
           end; reflexivity. }
  read_cells. unfold _calc_order_qty. read_cells. unfold _decide_action.
  read_cells. rewrite Hss'.
  unfold decision_rule, clip_lower0, order_qty_code.
  cbn [vdiv vmul vsub vadd lift2 as_float vle vlt].
  fold fm. fold fd. fold lt. fold ssd. fold avail. unfold Qlt_bool.
  destruct (Qle_bool 0 (fd * lt - avail)); cbn [negb];
    rewrite !vmax_float; unfold vround; cbn [as_float];
    destruct (Qle_bool fd 0);
    destruct (Qle_bool avail (fd * lt + ssq));
    destruct (Qle_bool avail (fd * lt + ssq + fd * inject_Z rd));
    cbn [veqb String.eqb Ascii.eqb Bool.eqb negb]; try reflexivity;
    match goal with
    | |- context [Qle_bool ?x 0] => destruct (Qle_bool x 0)
    end; reflexivity.
Qed.

Lemma safety_stock_code_nonneg (mode : string) (fd ssd lt sigma z : Q) :
  (forall x, 0 <= sqrtQ x) -> 0 <= ssd ->
  0 <= safety_stock_code sqrtQ mode fd ssd lt sigma z.
Proof.
  intros Hsqrt Hssd. unfold safety_stock_code.
  destruct (Qle_bool fd 0) eqn:Efd; [lra|].
  apply Qle_bool_false_iff in Efd.
  assert (Hdays : 0 <= fd * ssd) by (apply Qmult_le_0_compat; lra).
  destruct (String.eqb mode "days"); [exact Hdays|].
  destruct (Qlt_bool 0 z && Qlt_bool 0 sigma && Qlt_bool 0 lt) eqn:E;
    [|exact Hdays].
  apply andb_true_iff in E. destruct E as [E _].
  apply andb_true_iff in E. destruct E as [Ez Es].
  apply Qlt_bool_iff in Ez, Es.
  apply Qmult_le_0_compat; [apply Qmult_le_0_compat; lra | apply Hsqrt].
Qed.

(** X10.  The safety stock of every row of a plan: nothing when the
    daily forecast is not positive; in the mode "days" the daily forecast
    times the safety days; otherwise the factor of the effective service
    level times the daily deviation times the root of the lead time when
    all three are positive, and the days rule when one of them is not.
    The reorder point is the demand over the lead time plus this stock.
    With safety days that are not negative, and a root that is not, the
    safety stock is never negative. *)
Theorem safety_stock_of_row (df_product_forecast df_inventory_dc : DataFrame)
    (days_per_month : Z) (service_level : Q) (safety_stock_mode : string)
    (review_days : Z) (out : DataFrame) (r : row) :
  (0 < days_per_month)%Z ->
  plan df_product_forecast df_inventory_dc days_per_month service_level
    safety_stock_mode review_days = Ok out ->
  In r (rows out) ->
  exists fd lt ssd sigma sle z ssq : Q,
    r "forecast_daily" = VFloat fd
    /\ r "lead_time_import_days" = VFloat lt
    /\ r "safety_stock_days" = VFloat ssd
    /\ r "demand_daily_std" = VFloat sigma
    /\ r "service_level_effective" = VFloat sle
    /\ _z_from_service_level (VFloat sle) = VFloat z
    /\ r "safety_stock_qty" = VFloat ssq
    /\ r "reorder_point" = VFloat (fd * lt + ssq)
    /\ (fd <= 0 -> ssq = 0)
    /\ (0 < fd -> safety_stock_mode = "days" -> ssq = fd * ssd)
    /\ (0 < fd -> safety_stock_mode <> "days" ->
        0 < z -> 0 < sigma -> 0 < lt -> ssq = z * sigma * sqrtQ lt)
    /\ (0 < fd -> safety_stock_mode <> "days" ->
        z <= 0 \/ sigma <= 0 \/ lt <= 0 -> ssq = fd * ssd)
    /\ ((forall x, 0 <= sqrtQ x) -> 0 <= ssd -> 0 <= ssq).
Proof.
  intros _ Hplan Hr.
  destruct (plan_row float_repr parse_float sqrtQ _ _ _ _ _ _ _ _ Hplan Hr)
    as (b & r0 & ->).
  destruct (planned_cells days_per_month service_level safety_stock_mode
              review_days b r0)
    as (sle & z & _ & Hz & _ & Hfd & _ & Hlt & Hssd & Hsig & Hsle & Hss
        & _ & Hrop & _).
  cbv zeta in *.
  set (fd := number (r0 "forecast_next_month") / inject_Z days_per_month) in *.
  set (lt := number (r0 "lead_time_import_days")) in *.
  set (ssd := number (r0 "safety_stock_days")) in *.
  set (sigma := number (r0 "demand_std") / sqrtQ (inject_Z days_per_month))
    in *.
  exists fd, lt, ssd, sigma, sle, z,
    (safety_stock_code sqrtQ safety_stock_mode fd ssd lt sigma z).
  repeat (split; [assumption|]).
  unfold safety_stock_code.
  split; [|split; [|split; [|split]]].
  - intro H. apply Qle_bool_iff in H. rewrite H. reflexivity.
  - intros H ->. apply Qle_bool_false_iff in H. rewrite H. reflexivity.
  - intros H Hm Pz Ps Pl. apply Qle_bool_false_iff in H. rewrite H.
    apply String.eqb_neq in Hm. rewrite Hm.
    apply Qlt_bool_iff in Pz, Ps, Pl. rewrite Pz, Ps, Pl. reflexivity.
  - intros H Hm Hn. apply Qle_bool_false_iff in H. rewrite H.
    apply String.eqb_neq in Hm. rewrite Hm.
    destruct (Qlt_bool 0 z && Qlt_bool 0 sigma && Qlt_bool 0 lt) eqn:E;
      [|reflexivity].
    exfalso. apply andb_true_iff in E. destruct E as [E El].
    apply andb_true_iff in E. destruct E as [Ez Es].
    apply Qlt_bool_iff in Ez, Es, El. destruct Hn as [Hn | [Hn | Hn]]; lra.
  - intros Hsqrt Hnn.
    apply (safety_stock_code_nonneg safety_stock_mode fd ssd lt sigma z
             Hsqrt Hnn).
Qed.

(** X11.  The days of supply of a row of a plan are undefined exactly
    when its monthly forecast, read as a number, is not positive; the
    daily forecast then is not positive either.  Otherwise they are the
    available stock over the daily forecast, and not negative when the
    stock is not. *)
Theorem days_of_supply_of_row (df_product_forecast df_inventory_dc : DataFrame)
    (days_per_month : Z) (service_level : Q) (safety_stock_mode : string)
    (review_days : Z) (out : DataFrame) (r : row) :
  (0 < days_per_month)%Z ->
  plan df_product_forecast df_inventory_dc days_per_month service_level
    safety_stock_mode review_days = Ok out ->
  In r (rows out) ->
  exists fm fd avail : Q,
    r "forecast_next_month" = VFloat fm
    /\ r "forecast_daily" = VFloat fd
    /\ r "available_qty_total" = VFloat avail
    /\ fd == fm / inject_Z days_per_month
    /\ (fm <= 0 <-> fd <= 0)
    /\ (r "days_of_supply" = VNaN <-> fm <= 0)
    /\ (0 < fm ->
        exists dos, r "days_of_supply" = VFloat dos
                    /\ dos == avail / fd
                    /\ (0 <= avail -> 0 <= dos)).
Proof.
  intros Hdpm Hplan Hr.
  destruct (plan_row float_repr parse_float sqrtQ _ _ _ _ _ _ _ _ Hplan Hr)
    as (b & r0 & ->).
  destruct (planned_cells days_per_month service_level safety_stock_mode
              review_days b r0)
    as (sle & z & _ & _ & Hfm & Hfd & Hav & _ & _ & _ & _ & _ & Hdos & _).
  cbv zeta in *.
  set (fm := number (r0 "forecast_next_month")) in *.
  set (fd := fm / inject_Z days_per_month) in *.
  set (avail := number (r0 "on_hand_dc") + number (r0 "on_order_from_china"))
    in *.
  assert (Hd : 0 < inject_Z days_per_month).
  { change 0 with (inject_Z 0). rewrite <- Zlt_Qlt. exact Hdpm. }
  assert (Hsign : fm <= 0 <-> fd <= 0).
  { subst fd. split; intro H.
    - apply Qle_shift_div_r; [exact Hd | lra].
    - destruct (Qlt_le_dec 0 fm) as [Hp | Hn]; [|exact Hn].
      exfalso.
      assert (0 < fm / inject_Z days_per_month)
        by (apply Qlt_shift_div_l; [exact Hd | lra]).
      lra. }
  exists fm, fd, avail.
  split; [exact Hfm|]. split; [exact Hfd|]. split; [exact Hav|].
  split; [reflexivity|]. split; [exact Hsign|].
  rewrite Hdos. split.
  - destruct (Qle_bool fd 0) eqn:E.
    + apply Qle_bool_iff in E. split; [intros _; apply Hsign; exact E|].
      reflexivity.
    + apply Qle_bool_false_iff in E. split; [discriminate|].
      intro H. apply Hsign in H. lra.
  - intro Hpos.
    assert (Hfdpos : 0 < fd).
    { destruct (Qlt_le_dec 0 fd) as [Hp | Hn]; [exact Hp|].
      apply Hsign in Hn. lra. }
    assert (E : Qle_bool fd 0 = false) by (apply Qle_bool_false_iff; exact Hfdpos).
    rewrite E. exists (avail / fd).
    split; [reflexivity|]. split; [reflexivity|].
    intro Ha. apply Qle_shift_div_l; [exact Hfdpos | lra].
Qed.

End PlannerMore.

(** ** The join of the snapshot with the forecast *)

Section PlannerJoin.
Import PyStr PyNum PyVal PyFrame Inventory.
Local Open Scope Q_scope.
Variable float_repr : Q -> string.
Variable parse_float : string -> option Q.
Variable sqrtQ : Q -> Q.

Local Abbreviation plan :=
  (plan_inventory_dc float_repr parse_float sqrtQ).
Local Abbreviation steps :=
  (derived_columns float_repr parse_float sqrtQ).
Local Abbreviation number v :=
  (match to_numeric parse_float v with Some q => q | None => 0 end).
Local Abbreviation code_key v := (normalize_item_code float_repr v).

(** *** Headers with a suffix *)

Lemma length_append (a b : string) :
  String.length (a ++ b) = (String.length a + String.length b)%nat.
Proof. induction a as [|c a IH]; cbn; [reflexivity | now rewrite IH]. Qed.

Lemma substring_all (s : string) : substring 0 (String.length s) s = s.
Proof. induction s as [|c s IH]; cbn; [reflexivity | now rewrite IH]. Qed.

Lemma substring_append (a b : string) :
  substring (String.length a) (String.length b) (a ++ b) = b.
Proof. induction a as [|c a IH]; cbn; [apply substring_all | exact IH]. Qed.

(** A text that ends with [s] shows [s] at its end. *)
Lemma suffix_shown (c s h : string) :
  (c ++ s)%string = h ->
  substring (String.length h - String.length s) (String.length s) h = s.
Proof.
  intros <-. rewrite length_append, Nat.add_sub. apply substring_append.
Qed.

Ltac show_plain :=
  let c := fresh "c" in
  let H := fresh "H" in
  intro c; split; intro H; apply suffix_shown in H; vm_compute in H;
  discriminate H.

Lemma plain_forecast_next_month : plain "forecast_next_month".
Proof. show_plain. Qed.

Lemma plain_demand_std : plain "demand_std".
Proof. show_plain. Qed.

Lemma plain_abc_class : plain "abc_class".
Proof. show_plain. Qed.

Lemma plain_cols_order : forall h, In h cols_order -> plain h.
Proof.
  intros h Hin. cbv [cols_order] in Hin.
  repeat (destruct Hin as [<- | Hin]; [show_plain|]).
  destruct Hin.
Qed.

(** *** The headers of the join *)

Lemma mem_app (h : string) (a b : list string) :
  mem h (a ++ b)%list = mem h a || mem h b.
Proof. unfold mem. apply existsb_app. Qed.

Lemma mem_false (h : string) (l : list string) :
  mem h l = false <-> ~ In h l.
Proof.
  rewrite <- mem_In. destruct (mem h l); split; congruence.
Qed.

(** A plain header is in the join when exactly one side has it. *)
Lemma merged_has_col (lhs rhs : DataFrame) (on h : string) :
  plain h ->
  let rcols := filter (fun c => negb (c =? on)%string) (columns rhs) in
  has_col h (merge_left lhs rhs on)
  = xorb (mem h (columns lhs)) (mem h rcols).
Proof.
  intros Hplain rcols. unfold has_col, merge_left. cbn [columns].
  fold rcols. rewrite mem_app.
  destruct (mem h (columns lhs)) eqn:El; destruct (mem h rcols) eqn:Er;
    cbn [xorb].
  - (* both sides have it: both are renamed *)
    apply orb_false_iff. split; apply mem_false; intro Hin;
      apply in_map_iff in Hin; destruct Hin as (c & Hc & _).
    + destruct (mem c rcols) eqn:E; [exact (proj1 (Hplain c) Hc)|].
      subst c. congruence.
    + destruct (mem c (columns lhs)) eqn:E; [exact (proj2 (Hplain c) Hc)|].
      subst c. congruence.
  - apply orb_true_iff. left. apply mem_In, in_map_iff. exists h.
    rewrite Er. split; [reflexivity | apply mem_In; exact El].
  - apply orb_true_iff. right. apply mem_In, in_map_iff. exists h.
    rewrite El. split; [reflexivity | apply mem_In; exact Er].
  - apply orb_false_iff. split; apply mem_false; intro Hin;
      apply in_map_iff in Hin; destruct Hin as (c & Hc & Hin).
    + destruct (mem c rcols) eqn:E; [exact (proj1 (Hplain c) Hc)|].
      subst c. apply mem_In in Hin. congruence.
    + destruct (mem c (columns lhs)) eqn:E; [exact (proj2 (Hplain c) Hc)|].
      subst c. apply mem_In in Hin. congruence.
Qed.

Lemma columns_keyed (df : DataFrame) (h : string) :
  h <> "item_code_key" ->
  mem h (columns (keyed float_repr df)) = has_col h df.
Proof.
  intro Hne. unfold keyed, assign. cbn [columns].
  destruct (has_col "item_code_key" df); [reflexivity|].
  rewrite mem_app. cbn. apply String.eqb_neq in Hne. rewrite Hne.
  unfold has_col. now rewrite !orb_false_r.
Qed.

(** The headers that the forecast side brings to the join. *)
Lemma forecast_side_columns (df_f : DataFrame) (h : string) :
  let rhs := forecast_for_merge float_repr parse_float df_f in
  mem h (filter (fun c => negb (c =? "item_code_key")%string) (columns rhs))
  = mem h (filter (fun c => negb (c =? "item code")%string)
             required_forecast_cols)
    || ((h =? "abc_class")%string && has_col "abc_class" df_f).
Proof.
  cbv zeta. unfold forecast_for_merge, select. cbn [columns].
  assert (Habc : has_col "abc_class"
                   (drop_duplicates "item_code_key"
                      (sort_values_desc "demand_total"
                         (numeric parse_float "demand_total"
                            (keyed float_repr df_f))))
                 = has_col "abc_class" df_f).
  { unfold has_col, drop_duplicates, sort_values_desc, numeric, assign.
    cbn [columns].
    match goal with
    | |- mem _ (if ?c then _ else _) = _ => destruct c
    end; rewrite ?mem_app, ?columns_keyed by discriminate;
      cbn; rewrite ?orb_false_r; reflexivity. }
  rewrite Habc.
  cbn [filter required_forecast_cols String.eqb Ascii.eqb Bool.eqb negb app].
  destruct (has_col "abc_class" df_f);
    cbn [filter app String.eqb Ascii.eqb Bool.eqb negb mem existsb];
    rewrite ?andb_true_r, ?andb_false_r, ?orb_false_r, <- ?orb_assoc;
    reflexivity.
Qed.

(** *** The cells of the join *)

Lemma row_of_nan (name : string -> string) (cols : list string) (h : string) :
  row_of (map (fun c => (name c, VNaN)) cols) h = VNaN.
Proof.
  unfold row_of. induction cols as [|c cols IH]; [reflexivity|].
  cbn [map find fst snd]. destruct (String.eqb (name c) h); [reflexivity|].
  exact IH.
Qed.

Lemma row_of_skip (name : string -> string) (l : row) (cols : list string)
    (rest : list (string * value)) (h : string) :
  (forall c, In c cols -> name c <> h) ->
  row_of (map (fun c => (name c, l c)) cols ++ rest) h = row_of rest h.
Proof.
  intro H. unfold row_of. induction cols as [|c cols IH]; [reflexivity|].
  cbn [map app find fst snd].
  assert (E : String.eqb (name c) h = false)
    by (apply String.eqb_neq, H; left; reflexivity).
  rewrite E. apply IH. intros c' Hc'. apply H. right. exact Hc'.
Qed.

Lemma row_of_found (name : string -> string) (f : row) (cols : list string)
    (h : string) :
  In h cols -> name h = h -> (forall c, name c = h -> c = h) ->
  row_of (map (fun c => (name c, f c)) cols) h = f h.
Proof.
  intros Hin Hh Hinj.
  rewrite <- (app_nil_r (map _ cols)). apply row_of_left; assumption.
Qed.

(** A plain header of the forecast side, in a row of the join: the cell
    of the matching forecast row, NaN without one, when the snapshot has
    no column of this name. *)
Lemma joined_forecast_cell (lhs rhs : DataFrame) (on h : string) (l : row) :
  plain h ->
  mem h (filter (fun c => negb (c =? on)%string) (columns rhs)) = true ->
  mem h (columns lhs) = false ->
  joined_row lhs rhs on l h
  = match filter (fun r => veqb (l on) (r on)) (rows rhs) with
    | [] => VNaN
    | f :: _ => f h
    end.
Proof.
  intros Hplain Hr Hl. unfold joined_row.
  set (rcols := filter (fun c => negb (c =? on)%string) (columns rhs)) in *.
  rewrite row_of_skip.
  - destruct (filter (fun r => veqb (l on) (r on)) (rows rhs)) as [|f ms].
    + apply row_of_nan.
    + apply row_of_found.
      * apply mem_In. exact Hr.
      * rewrite Hl. reflexivity.
      * intros c Hc. destruct (mem c (columns lhs));
          [exfalso; exact (proj2 (Hplain c) Hc) | exact Hc].
  - intros c Hc Hname. destruct (mem c rcols) eqn:E.
    + exact (proj1 (Hplain c) Hname).
    + subst c. congruence.
Qed.

(** Without a matching forecast row, NaN whatever the snapshot has. *)
Lemma joined_unmatched_cell (lhs rhs : DataFrame) (on h : string) (l : row) :
  plain h ->
  mem h (filter (fun c => negb (c =? on)%string) (columns rhs)) = true ->
  filter (fun r => veqb (l on) (r on)) (rows rhs) = [] ->
  joined_row lhs rhs on l h = VNaN.
Proof.
  intros Hplain Hr Hnone. unfold joined_row. rewrite Hnone.
  set (rcols := filter (fun c => negb (c =? on)%string) (columns rhs)) in *.
  rewrite row_of_skip; [apply row_of_nan|].
  intros c Hc Hname. destruct (mem c rcols) eqn:E.
  - exact (proj1 (Hplain c) Hname).
  - subst c. congruence.
Qed.

(** *** What the call returns *)

Lemma missing_nil (req : list string) (df : DataFrame) :
  missing req df = [] -> forallb (fun c => has_col c df) req = true.
Proof.
  unfold missing. induction req as [|c req IH]; [reflexivity|].
  cbn [filter forallb]. destruct (has_col c df); cbn [negb andb].
  - exact IH.
  - discriminate.
Qed.

Lemma derive_outcome (dpm : Z) (sl : Q) (mode : string) (rd : Z)
    (df : DataFrame) :
  match derive float_repr parse_float sqrtQ dpm sl mode rd df with
  | Ok _ => has_col "forecast_next_month" df = true
            /\ has_col "demand_std" df = true
  | Raise e =>
      (e = KeyError "forecast_next_month"
       /\ has_col "forecast_next_month" df = false)
      \/ (e = KeyError "demand_std"
          /\ has_col "forecast_next_month" df = true
          /\ has_col "demand_std" df = false)
  end.
Proof.
  unfold derive, bind, require.
  destruct (has_col "forecast_next_month" df); [|left; auto].
  destruct (has_col "demand_std" df); [auto | right; auto].
Qed.

(** A column of the forecast that is read after the join is there
    exactly when the snapshot has no column of its name. *)
Lemma merged_forecast_col (df_f df_i : DataFrame) (h : string) :
  plain h ->
  In h required_forecast_cols -> h <> "item code" ->
  has_col h (merge_left (keyed float_repr df_i)
               (forecast_for_merge float_repr parse_float df_f)
               "item_code_key")
  = negb (has_col h df_i).
Proof.
  intros Hplain Hreq Hcode.
  assert (Hkey : h <> "item_code_key").
  { intros ->. cbn in Hreq. intuition discriminate. }
  rewrite merged_has_col by exact Hplain.
  rewrite forecast_side_columns, columns_keyed by exact Hkey.
  assert (E : mem h (filter (fun c => negb (c =? "item code")%string)
                       required_forecast_cols) = true).
  { apply mem_In, filter_In. split; [exact Hreq|].
    apply negb_true_iff, String.eqb_neq. exact Hcode. }
  rewrite E. cbn [orb]. destruct (has_col h df_i); reflexivity.
Qed.

(** X14.  For a month of a positive number of days, the call returns a
    plan exactly when both tables have their required columns and the
    inventory table has no column "forecast_next_month" or "demand_std".
    Otherwise it raises, in this order: the missing columns of the
    forecast table, those of the inventory table, and then the key error
    of the column "forecast_next_month" or "demand_std" that the
    inventory table also has, the join having renamed it on both
    sides. *)
Theorem plan_outcome (df_product_forecast df_inventory_dc : DataFrame)
    (days_per_month : Z) (service_level : Q) (safety_stock_mode : string)
    (review_days : Z) :
  (0 < days_per_month)%Z ->
  let df_f := rename_columns strip df_product_forecast in
  let df_i := inventory_headers df_inventory_dc in
  let missing_f := missing required_forecast_cols df_f in
  let missing_i := missing required_inv_cols df_i in
  match plan df_product_forecast df_inventory_dc days_per_month
          service_level safety_stock_mode review_days with
  | Ok _ =>
      schema_valid df_product_forecast df_inventory_dc = true
      /\ forecast_clash df_inventory_dc = false
  | Raise e =>
      (schema_valid df_product_forecast df_inventory_dc = false
       \/ forecast_clash df_inventory_dc = true)
      /\ ((e = MissingColumns Forecast missing_f /\ missing_f <> [])
          \/ (e = MissingColumns InventorySnapshot missing_i
              /\ missing_f = [] /\ missing_i <> [])
          \/ (e = KeyError "forecast_next_month"
              /\ missing_f = [] /\ missing_i = []
              /\ has_col "forecast_next_month" df_i = true)
          \/ (e = KeyError "demand_std"
              /\ missing_f = [] /\ missing_i = []
              /\ has_col "forecast_next_month" df_i = false
              /\ has_col "demand_std" df_i = true))
  end.
Proof.
  intros _ df_f df_i missing_f missing_i.
  unfold plan_inventory_dc, schema_valid, forecast_clash.
  fold df_f. fold df_i. fold missing_f. fold missing_i.
  destruct missing_f as [|c cs] eqn:Ef.
  - assert (Hf : forallb (fun c => has_col c df_f) required_forecast_cols
                 = true) by (apply missing_nil; exact Ef).
    rewrite Hf. cbn [andb].
    destruct missing_i as [|d ds] eqn:Ei.
    + assert (Hi : forallb (fun c => has_col c df_i) required_inv_cols
                   = true) by (apply missing_nil; exact Ei).
      rewrite Hi.
      set (merged := merge_left (keyed float_repr df_i)
                       (forecast_for_merge float_repr parse_float df_f)
                       "item_code_key").
      assert (H1 : has_col "forecast_next_month" merged
                   = negb (has_col "forecast_next_month" df_i)).
      { apply merged_forecast_col;
          [exact plain_forecast_next_month | cbn; tauto | discriminate]. }
      assert (H2 : has_col "demand_std" merged
                   = negb (has_col "demand_std" df_i)).
      { apply merged_forecast_col;
          [exact plain_demand_std | cbn; tauto | discriminate]. }
      assert (H3 := derive_outcome days_per_month service_level
                      safety_stock_mode review_days merged).
      destruct (derive _ _ _ _ _ _ _ merged) as [out | e].
      * destruct H3 as [A B]. rewrite H1 in A. rewrite H2 in B.
        apply negb_true_iff in A, B. rewrite A, B.
        split; reflexivity.
      * destruct H3 as [(-> & A) | (-> & A & B)].
        -- rewrite H1 in A. apply negb_false_iff in A. rewrite A.
           split; [right; reflexivity|].
           right. right. left. auto.
        -- rewrite H1 in A. rewrite H2 in B.
           apply negb_true_iff in A. apply negb_false_iff in B.
           rewrite A, B. split; [right; reflexivity|].
           right. right. right. auto.
    + split.
      * left.
        destruct (forallb (fun c => has_col c df_i) required_inv_cols) eqn:Hi;
          [|reflexivity].
        exfalso. apply missing_none in Hi. fold missing_i in Hi. congruence.
      * right. left. split; [reflexivity|]. split; [reflexivity|discriminate].
  - split.
    + left.
      destruct (forallb (fun c => has_col c df_f) required_forecast_cols)
        eqn:Hf; [|reflexivity].
      exfalso. apply missing_none in Hf. fold missing_f in Hf. congruence.
    + left. split; [reflexivity | discriminate].
Qed.

(** *** The rows of the join *)

Lemma plan_snapshot_lacks (dff dfi : DataFrame) (dpm : Z) (sl : Q)
    (mode : string) (rd : Z) (out : DataFrame) :
  plan dff dfi dpm sl mode rd = Ok out ->
  has_col "forecast_next_month" (inventory_headers dfi) = false
  /\ has_col "demand_std" (inventory_headers dfi) = false.
Proof.
  intro Hplan.
  apply (plan_ok float_repr parse_float sqrtQ) in Hplan.
  destruct Hplan as (_ & _ & Hd).
  assert (H3 := derive_outcome dpm sl mode rd
                  (merge_left (keyed float_repr (inventory_headers dfi))
                     (forecast_for_merge float_repr parse_float
                        (rename_columns strip dff))
                     "item_code_key")).
  rewrite Hd in H3. destruct H3 as [A B].
  rewrite merged_forecast_col in A, B;
    try (cbn; tauto); try discriminate;
    try exact plain_forecast_next_month; try exact plain_demand_std.
  apply negb_true_iff in A, B. auto.
Qed.

(** The key of a row of the snapshot and of a row of the forecast, as
    they enter the join. *)
Lemma forecast_row_shape (df_f : DataFrame) (f : row) :
  In f (rows (numeric parse_float "demand_total" (keyed float_repr df_f))) ->
  exists g, In g (rows df_f)
    /\ f "item_code_key" = VStr (code_key (g "item code"))
    /\ f "demand_total" = VFloat (number (g "demand_total"))
    /\ f "forecast_next_month" = g "forecast_next_month"
    /\ f "demand_std" = g "demand_std".
Proof.
  unfold numeric, keyed. cbn [rows assign]. rewrite map_map.
  intro Hin. apply in_map_iff in Hin. destruct Hin as (g & <- & Hg).
  exists g. split; [exact Hg|]. repeat split.
Qed.

Lemma forecast_row_image (df_f : DataFrame) (g : row) :
  In g (rows df_f) ->
  exists f,
    In f (rows (numeric parse_float "demand_total" (keyed float_repr df_f)))
    /\ f "item_code_key" = VStr (code_key (g "item code"))
    /\ f "demand_total" = VFloat (number (g "demand_total")).
Proof.
  intro Hg. unfold numeric, keyed. cbn [rows assign]. rewrite map_map.
  eexists. split; [apply in_map; exact Hg|]. split; reflexivity.
Qed.

Lemma veqb_str (a b : string) : veqb (VStr a) (VStr b) = String.eqb a b.
Proof. reflexivity. Qed.

(** X15.  A row of the snapshot whose code, once normalised, is the
    code of no forecast row is planned without demand: its monthly and
    daily forecast are 0, it has no safety stock and no days of supply,
    it is held and nothing is ordered for it. *)
Theorem unmatched_row_is_held
    (df_product_forecast df_inventory_dc : DataFrame)
    (days_per_month : Z) (service_level : Q) (safety_stock_mode : string)
    (review_days : Z) (out : DataFrame) (i : nat) (l : row) :
  (0 < days_per_month)%Z ->
  plan df_product_forecast df_inventory_dc days_per_month service_level
    safety_stock_mode review_days = Ok out ->
  nth_error (rows (inventory_headers df_inventory_dc)) i = Some l ->
  (forall f, In f (rows (rename_columns strip df_product_forecast)) ->
     code_key (f "item code") <> code_key (l "item code")) ->
  exists (r : row) (fd : Q),
    nth_error (rows out) i = Some r
    /\ r "item code" = l "item code"
    /\ r "forecast_next_month" = VFloat 0
    /\ r "forecast_daily" = VFloat fd /\ fd == 0
    /\ r "safety_stock_qty" = VFloat 0
    /\ r "days_of_supply" = VNaN
    /\ r "inventory_decision" = VStr "Hold"
    /\ r "suggested_order_qty" = VInt 0.
Proof.
  intros _ Hplan Hl Hno.
  destruct (plan_join float_repr parse_float sqrtQ _ _ _ _ _ _ _ Hplan)
    as (_ & Hcodes & (b & Hrows) & _ & Hsub & _).
  cbv zeta in Hcodes, Hrows, Hsub.
  set (snapshot := inventory_headers df_inventory_dc) in *.
  set (lhs := keyed float_repr snapshot) in *.
  set (rhs := forecast_for_merge float_repr parse_float
                (rename_columns strip df_product_forecast)) in *.
  set (l' := upd l "item_code_key" (VStr (code_key (l "item code")))).
  assert (Hl' : nth_error (rows lhs) i = Some l').
  { change (rows lhs)
      with (map (fun r => upd r "item_code_key"
                            (VStr (code_key (r "item code"))))
              (rows snapshot)).
    rewrite nth_error_map, Hl. reflexivity. }
  set (r0 := joined_row lhs rhs "item_code_key" l').
  set (r := derive_row
              (steps days_per_month service_level safety_stock_mode
                 review_days b) r0).
  assert (Hr : nth_error (rows out) i = Some r).
  { rewrite Hrows, nth_error_map, Hl'. reflexivity. }
  assert (Hcode : r "item code" = l "item code").
  { apply (f_equal (fun m => nth_error m i)) in Hcodes.
    cbv beta in Hcodes. rewrite !nth_error_map in Hcodes.
    pose proof Hr as Hr'. pose proof Hl as Hl2. unfold row in Hr', Hl2.
    rewrite Hr', Hl2 in Hcodes. cbn [option_map] in Hcodes.
    injection Hcodes as Hcodes. exact Hcodes. }
  assert (Hnone : filter (fun f => veqb (l' "item_code_key")
                                     (f "item_code_key")) (rows rhs) = []).
  { apply filter_none. intros f Hf. destruct (Hsub f Hf) as (Hin & _).
    destruct (forecast_row_shape _ f Hin) as (g & Hg & Hkey & _).
    rewrite Hkey. change (l' "item_code_key")
      with (VStr (code_key (l "item code"))).
    rewrite veqb_str. apply String.eqb_neq. intro E.
    apply (Hno g Hg). symmetry. exact E. }
  assert (Hnan : r0 "forecast_next_month" = VNaN).
  { apply joined_unmatched_cell;
      [exact plain_forecast_next_month | | exact Hnone].
    unfold rhs. rewrite forecast_side_columns. reflexivity. }
  destruct (planned_cells float_repr parse_float sqrtQ days_per_month
              service_level safety_stock_mode review_days b r0)
    as (sle & z & _ & _ & Hfm & Hfd & _ & _ & _ & _ & _ & Hss & Hdos
        & _ & _ & _ & _ & Hdec & Hqty).
  cbv zeta in *. fold r in Hfm, Hfd, Hss, Hdos, Hdec, Hqty.
  rewrite Hnan in *. cbn [to_numeric] in *.
  set (fd := 0 / inject_Z days_per_month) in *.
  assert (E0 : fd == 0) by (subst fd; unfold Qdiv; ring).
  assert (E1 : Qle_bool fd 0 = true)
    by (apply Qle_bool_iff; rewrite E0; apply Qle_refl).
  exists r, fd.
  split; [exact Hr|]. split; [exact Hcode|]. split; [exact Hfm|].
  split; [exact Hfd|]. split; [exact E0|].
  unfold safety_stock_code in Hss. unfold decision_rule in Hdec, Hqty.
  rewrite E1 in *. auto.
Qed.

(** X16.  A row of the snapshot whose normalised code some forecast row
    has takes its forecast from one forecast row of that code, one of the
    largest total demand among them: the monthly forecast is that row's,
    read as a number, the daily forecast is it over the days of a month,
    and the daily deviation is that row's deviation over the root of the
    days. *)
Theorem matched_row_takes_largest_forecast
    (df_product_forecast df_inventory_dc : DataFrame)
    (days_per_month : Z) (service_level : Q) (safety_stock_mode : string)
    (review_days : Z) (out : DataFrame) (i : nat) (l f0 : row) :
  (0 < days_per_month)%Z ->
  plan df_product_forecast df_inventory_dc days_per_month service_level
    safety_stock_mode review_days = Ok out ->
  let forecast := rename_columns strip df_product_forecast in
  nth_error (rows (inventory_headers df_inventory_dc)) i = Some l ->
  In f0 (rows forecast) ->
  code_key (f0 "item code") = code_key (l "item code") ->
  exists r g : row,
    nth_error (rows out) i = Some r
    /\ In g (rows forecast)
    /\ code_key (g "item code") = code_key (l "item code")
    /\ (forall g', In g' (rows forecast) ->
          code_key (g' "item code") = code_key (l "item code") ->
          number (g' "demand_total") <= number (g "demand_total"))
    /\ r "forecast_next_month" = VFloat (number (g "forecast_next_month"))
    /\ r "forecast_daily"
       = VFloat (number (g "forecast_next_month") / inject_Z days_per_month)
    /\ r "demand_daily_std"
       = VFloat (number (g "demand_std") / sqrtQ (inject_Z days_per_month)).
Proof.
  intros _ Hplan forecast Hl Hf0 Hsame.
  destruct (plan_snapshot_lacks _ _ _ _ _ _ _ Hplan) as [Lfm Lstd].
  destruct (plan_join float_repr parse_float sqrtQ _ _ _ _ _ _ _ Hplan)
    as (_ & _ & (b & Hrows) & Huniq & Hsub & Hcover).
  cbv zeta in Hrows, Huniq, Hsub, Hcover.
  set (snapshot := inventory_headers df_inventory_dc) in *.
  set (lhs := keyed float_repr snapshot) in *.
  fold forecast in Hsub, Hcover, Huniq, Hrows.
  set (rhs := forecast_for_merge float_repr parse_float forecast) in *.
  set (l' := upd l "item_code_key" (VStr (code_key (l "item code")))).
  assert (Hl' : nth_error (rows lhs) i = Some l').
  { change (rows lhs)
      with (map (fun r => upd r "item_code_key"
                            (VStr (code_key (r "item code"))))
              (rows snapshot)).
    rewrite nth_error_map, Hl. reflexivity. }
  set (r0 := joined_row lhs rhs "item_code_key" l').
  set (r := derive_row
              (steps days_per_month service_level safety_stock_mode
                 review_days b) r0).
  assert (Hr : nth_error (rows out) i = Some r).
  { rewrite Hrows, nth_error_map, Hl'. reflexivity. }
  (* the forecast row that the join finds *)
  destruct (forecast_row_image forecast f0 Hf0) as (f1 & Hf1 & Kf1 & _).
  destruct (Hcover f1 Hf1) as (f & Hf & Hkey).
  destruct (Hsub f Hf) as (Hfin & Hmax).
  destruct (forecast_row_shape forecast f Hfin)
    as (g & Hg & Kf & Tf & Ffm & Fstd).
  rewrite Kf1, Kf, veqb_str in Hkey. apply String.eqb_eq in Hkey.
  assert (Hgkey : code_key (g "item code") = code_key (l "item code"))
    by congruence.
  assert (Hmatch : filter (fun x => veqb (l' "item_code_key")
                                      (x "item_code_key")) (rows rhs) = [f]).
  { specialize (Huniq l' (nth_error_In _ _ Hl')).
    assert (Hin : In f (filter (fun x => veqb (l' "item_code_key")
                                           (x "item_code_key")) (rows rhs))).
    { apply filter_In. split; [exact Hf|].
      change (l' "item_code_key") with (VStr (code_key (l "item code"))).
      rewrite Kf, veqb_str, Hgkey. apply String.eqb_refl. }
    set (found := filter (fun x => veqb (l' "item_code_key")
                                     (x "item_code_key")) (rows rhs)) in *.
    destruct found as [|x [|y t]].
    - destruct Hin.
    - destruct Hin as [-> | []]. reflexivity.
    - cbn in Huniq. lia. }
  assert (Hcell : forall h, plain h -> In h required_forecast_cols ->
            h <> "item code" -> has_col h snapshot = false ->
            r0 h = f h).
  { intros h Hp Hreq Hne Hlack. unfold r0.
    rewrite joined_forecast_cell; [rewrite Hmatch; reflexivity | exact Hp | |].
    - unfold rhs. rewrite forecast_side_columns.
      apply orb_true_iff. left. apply mem_In, filter_In.
      split; [exact Hreq | apply negb_true_iff, String.eqb_neq; exact Hne].
    - unfold lhs. rewrite columns_keyed; [exact Hlack|].
      intros ->. cbn in Hreq. intuition discriminate. }
  assert (Cfm : r0 "forecast_next_month" = g "forecast_next_month").
  { rewrite Hcell; [exact Ffm | exact plain_forecast_next_month
                    | cbn; tauto | discriminate | exact Lfm]. }
  assert (Cstd : r0 "demand_std" = g "demand_std").
  { rewrite Hcell; [exact Fstd | exact plain_demand_std
                    | cbn; tauto | discriminate | exact Lstd]. }
  destruct (planned_cells float_repr parse_float sqrtQ days_per_month
              service_level safety_stock_mode review_days b r0)
    as (sle & z & _ & _ & Hfm & Hfd & _ & _ & _ & Hsig & _).
  cbv zeta in *. fold r in Hfm, Hfd, Hsig.
  rewrite Cfm in Hfm, Hfd. rewrite Cstd in Hsig.
  exists r, g.
  split; [exact Hr|]. split; [exact Hg|]. split; [exact Hgkey|].
  split; [|auto].
  intros g' Hg' Hk'.
  destruct (forecast_row_image forecast g' Hg') as (f' & Hf' & Kf' & Tf').
  assert (Hle := Hmax f' Hf').
  rewrite Kf', Kf, veqb_str, Hk', <- Hgkey, String.eqb_refl in Hle.
  specialize (Hle eq_refl). rewrite Tf', Tf in Hle. exact Hle.
Qed.

(** *** The columns of a plan *)

Lemma has_col_assign (h c : string) (f : row -> value) (df : DataFrame) :
  has_col c (assign h f df) = has_col c df || (c =? h)%string.
Proof.
  unfold has_col at 1, assign. cbn [columns].
  destruct (has_col h df) eqn:E.
  - fold (has_col c df). destruct (c =? h)%string eqn:Ec.
    + apply String.eqb_eq in Ec. subst c. rewrite E. reflexivity.
    + now rewrite orb_false_r.
  - rewrite mem_app. cbn. now rewrite orb_false_r.
Qed.

Lemma has_col_assign_all (c : string) (l : list (string * (row -> value)))
    (df : DataFrame) :
  has_col c (assign_all l df) = has_col c df || mem c (map fst l).
Proof.
  unfold assign_all. revert df.
  induction l as [|[h f] l IH]; intro df; cbn [fold_left map fst snd].
  - cbn. now rewrite orb_false_r.
  - rewrite IH, has_col_assign. cbn [mem existsb].
    fold (mem c (map fst l)). now rewrite orb_assoc.
Qed.

Lemma derived_headers (dpm : Z) (sl : Q) (mode : string) (rd : Z) (b : bool) :
  map fst (steps dpm sl mode rd b)
  = ["forecast_next_month"; "forecast_daily"; "on_hand_dc";
     "on_order_from_china"; "available_qty_total"; "lead_time_import_days";
     "safety_stock_days"; "demand_std"; "demand_daily_std";
     "service_level_effective"; "safety_stock_qty"; "days_of_supply";
     "reorder_point"; "demand_during_lead_time"; "min_order_qty_lt";
     "review_buffer_qty"; "inventory_decision"; "target_coverage_days";
     "target_stock_level"; "suggested_order_qty"; "service_level";
     "safety_stock_mode"; "review_days"].
Proof. cbv [map fst derived_columns]. reflexivity. Qed.

(** The headers of a plan, from those of the join. *)
Lemma derive_columns (dpm : Z) (sl : Q) (mode : string) (rd : Z)
    (merged out : DataFrame) :
  derive float_repr parse_float sqrtQ dpm sl mode rd merged = Ok out ->
  let present c :=
    has_col c merged || mem c (map fst (steps dpm sl mode rd true)) in
  columns out
  = filter present
      (if present "abc_class" then (cols_order ++ ["abc_class"])%list
       else cols_order).
Proof.
  intros Hd present. unfold derive, bind, require in Hd.
  destruct (has_col "forecast_next_month" merged); [|discriminate].
  destruct (has_col "demand_std" merged); [|discriminate].
  apply Ok_inj in Hd. rewrite <- Hd. unfold select. cbn [columns].
  assert (E : forall c,
            has_col c (assign_all (steps dpm sl mode rd
                                     (has_col "abc_class" merged)) merged)
            = present c).
  { intro c. rewrite has_col_assign_all. subst present. cbv beta.
    rewrite !derived_headers. reflexivity. }
  rewrite E. apply filter_ext. exact E.
Qed.

(** A header of the planner is in the join or is computed after it,
    unless both tables have it. *)
Lemma planned_column (df_f df_i : DataFrame) (dpm : Z) (sl : Q)
    (mode : string) (rd : Z) (c : string) :
  has_col "forecast_next_month" df_i = false ->
  has_col "demand_std" df_i = false ->
  has_col "item code" df_i = true ->
  has_col "iteam name" df_i = true ->
  In c cols_order ->
  has_col c (merge_left (keyed float_repr df_i)
               (forecast_for_merge float_repr parse_float df_f)
               "item_code_key")
  || mem c (map fst (steps dpm sl mode rd true))
  = negb (mem c required_forecast_cols && negb (c =? "item code")%string
          && has_col c df_i).
Proof.
  intros Lfm Lstd Hic Hin' Hin.
  assert (Hp := plain_cols_order c Hin).
  rewrite derived_headers.
  rewrite merged_has_col by exact Hp. rewrite forecast_side_columns.
  cbv [cols_order] in Hin.
  repeat (destruct Hin as [<- | Hin];
    [rewrite columns_keyed by discriminate;
     rewrite ?Lfm, ?Lstd, ?Hic, ?Hin';
     repeat match goal with
            | |- context [has_col ?h ?d] => generalize (has_col h d); intro
            end;
     repeat match goal with
            | x : bool |- _ => destruct x
            end; vm_compute; reflexivity|]).
  destruct Hin.
Qed.

Lemma class_column_present (df_f df_i : DataFrame) (dpm : Z) (sl : Q)
    (mode : string) (rd : Z) :
  has_col "abc_class" (merge_left (keyed float_repr df_i)
                         (forecast_for_merge float_repr parse_float df_f)
                         "item_code_key")
  || mem "abc_class" (map fst (steps dpm sl mode rd true))
  = xorb (has_col "abc_class" df_i) (has_col "abc_class" df_f).
Proof.
  rewrite derived_headers.
  rewrite merged_has_col by exact plain_abc_class.
  rewrite forecast_side_columns, columns_keyed by discriminate.
  generalize (has_col "abc_class" df_i) (has_col "abc_class" df_f).
  intros [|] [|]; vm_compute; reflexivity.
Qed.

Lemma filter_all {A} (p : A -> bool) (l : list A) :
  (forall x, In x l -> p x = true) -> filter p l = l.
Proof.
  induction l as [|x l IH]; intro H; [reflexivity|].
  cbn [filter]. rewrite (H x (or_introl eq_refl)). f_equal.
  apply IH. intros y Hy. apply H. right. exact Hy.
Qed.

(** X17.  The columns of a plan are the fixed list of the planner, in
    its order, without the forecast columns that the inventory table has
    under the same name: the join renames those on both sides and the plan
    leaves them out.  The class column closes the plan when exactly one of
    the two tables has it.  When no forecast column other than the item
    code is also a column of the inventory table, the plan has the whole
    list. *)
Theorem plan_columns (df_product_forecast df_inventory_dc : DataFrame)
    (days_per_month : Z) (service_level : Q) (safety_stock_mode : string)
    (review_days : Z) (out : DataFrame) :
  plan df_product_forecast df_inventory_dc days_per_month service_level
    safety_stock_mode review_days = Ok out ->
  let df_f := rename_columns strip df_product_forecast in
  let df_i := inventory_headers df_inventory_dc in
  let shared c :=
    mem c required_forecast_cols && negb (c =? "item code")%string
    && has_col c df_i in
  let class_column :=
    if xorb (has_col "abc_class" df_i) (has_col "abc_class" df_f)
    then ["abc_class"] else [] in
  columns out
  = (filter (fun c => negb (shared c)) cols_order ++ class_column)%list
  /\ ((forall c, In c required_forecast_cols -> c <> "item code" ->
         has_col c df_i = false) ->
      columns out = (cols_order ++ class_column)%list).
Proof.
  intros Hplan df_f df_i shared class_column.
  destruct (plan_snapshot_lacks _ _ _ _ _ _ _ Hplan) as [Lfm Lstd].
  apply (plan_ok float_repr parse_float sqrtQ) in Hplan.
  destruct Hplan as (_ & Hmi & Hd). fold df_f df_i in Hmi, Hd, Lfm, Lstd.
  apply missing_nil in Hmi. rewrite forallb_forall in Hmi.
  assert (Hic : has_col "item code" df_i = true)
    by (apply Hmi; cbn; tauto).
  assert (Hin' : has_col "iteam name" df_i = true)
    by (apply Hmi; cbn; tauto).
  apply derive_columns in Hd. cbv beta zeta in Hd.
  assert (Hcol := fun c => planned_column df_f df_i days_per_month
                    service_level safety_stock_mode review_days c
                    Lfm Lstd Hic Hin').
  assert (Habc := class_column_present df_f df_i days_per_month
                    service_level safety_stock_mode review_days).
  assert (Hfirst : columns out
                   = (filter (fun c => negb (shared c)) cols_order
                      ++ class_column)%list).
  { rewrite Hd, Habc. subst class_column.
    destruct (xorb _ _) eqn:E.
    - rewrite filter_app. cbn [filter]. rewrite Habc.
      f_equal. apply filter_ext_in. exact Hcol.
    - rewrite app_nil_r. apply filter_ext_in. exact Hcol. }
  split; [exact Hfirst|].
  intro Hnone. rewrite Hfirst. f_equal. apply filter_all.
  intros c _. subst shared. cbv beta.
  destruct (mem c required_forecast_cols) eqn:E1; [|reflexivity].
  destruct (c =? "item code")%string eqn:E2; [reflexivity|].
  apply mem_In in E1. apply String.eqb_neq in E2.
  rewrite (Hnone c E1 E2). reflexivity.
Qed.

End PlannerJoin.

(** ** The reports of the application *)

Section AppReports.
Import PyStr PyNum PyVal PyFrame Inventory App.
Local Open Scope Q_scope.
Variable float_repr : Q -> string.
Variable parse_float : string -> option Q.
Variable sqrtQ : Q -> Q.

Local Abbreviation plan :=
  (plan_inventory_dc float_repr parse_float sqrtQ).
Local Abbreviation number v :=
  (match to_numeric parse_float v with Some q => q | None => 0 end).

Lemma decision_rule_cases (fd avail rop buf : Q) :
  decision_rule fd avail rop buf = "Order"
  \/ decision_rule fd avail rop buf = "Review"
  \/ decision_rule fd avail rop buf = "Hold".
Proof.
  unfold decision_rule.
  destruct (Qle_bool fd 0); [auto|].
  destruct (Qle_bool avail rop); [auto|].
  destruct (Qle_bool avail (rop + buf)); auto.
Qed.

(** Three tests of which exactly one holds on every element share the
    list among them. *)
Lemma filter_three {A} (p q s : A -> bool) (l : list A) :
  (forall x, In x l ->
     (p x = true /\ q x = false /\ s x = false)
     \/ (p x = false /\ q x = true /\ s x = false)
     \/ (p x = false /\ q x = false /\ s x = true)) ->
  (length (filter p l) + length (filter q l) + length (filter s l)
   = length l)%nat.
Proof.
  induction l as [|x l IH]; intro H; [reflexivity|].
  assert (IH' := IH (fun y Hy => H y (or_intror Hy))).
  cbn [filter length].
  destruct (H x (or_introl eq_refl))
    as [(-> & -> & ->) | [(-> & -> & ->) | (-> & -> & ->)]];
    cbn [length]; lia.
Qed.

(** X18.  The three reports by decision share the plan among them: every
    row of the plan is in exactly one of the reports of the rows to order,
    to review and to hold, so that their sizes add up to the size of the
    plan, and a report holds only rows of its decision, in the order of
    the plan. *)
Theorem reports_partition_plan
    (df_product_forecast df_inventory_dc : DataFrame)
    (days_per_month : Z) (service_level : Q) (safety_stock_mode : string)
    (review_days : Z) (out : DataFrame) :
  (0 < days_per_month)%Z ->
  plan df_product_forecast df_inventory_dc days_per_month service_level
    safety_stock_mode review_days = Ok out ->
  (length (rows (df_order out)) + length (rows (df_review out))
   + length (rows (df_hold out)) = length (rows out))%nat
  /\ (forall r, In r (rows out) ->
        (In r (rows (df_order out)) /\ ~ In r (rows (df_review out))
         /\ ~ In r (rows (df_hold out)))
        \/ (~ In r (rows (df_order out)) /\ In r (rows (df_review out))
            /\ ~ In r (rows (df_hold out)))
        \/ (~ In r (rows (df_order out)) /\ ~ In r (rows (df_review out))
            /\ In r (rows (df_hold out))))
  /\ (forall r, In r (rows (df_order out)) ->
        r "inventory_decision" = VStr "Order")
  /\ (forall r, In r (rows (df_review out)) ->
        r "inventory_decision" = VStr "Review")
  /\ (forall r, In r (rows (df_hold out)) ->
        r "inventory_decision" = VStr "Hold"
        /\ r "suggested_order_qty" = VInt 0).
Proof.
  intros _ Hplan.
  assert (Hdec : forall r, In r (rows out) ->
            (r "inventory_decision" = VStr "Order"
             \/ r "inventory_decision" = VStr "Review"
             \/ r "inventory_decision" = VStr "Hold")
            /\ (r "inventory_decision" = VStr "Hold" ->
                r "suggested_order_qty" = VInt 0)).
  { intros r Hr.
    destruct (plan_row float_repr parse_float sqrtQ _ _ _ _ _ _ _ _ Hplan Hr)
      as (b & r0 & ->).
    destruct (derived_cells float_repr parse_float sqrtQ days_per_month
                service_level safety_stock_mode review_days b r0)
      as (fd & avail & lt & ssd & ssq & _ & _ & _ & _ & _ & _ & Hd & Hq).
    cbv zeta in Hd, Hq. rewrite Hd, Hq. split.
    - destruct (decision_rule_cases fd avail (fd * lt + ssq)
                  (fd * inject_Z review_days)) as [E | [E | E]];
        rewrite E; auto.
    - intro E. injection E as E. rewrite E. reflexivity. }
  assert (Hone : forall r, In r (rows out) ->
            (decision_is "Order" r = true /\ decision_is "Review" r = false
             /\ decision_is "Hold" r = false)
            \/ (decision_is "Order" r = false /\ decision_is "Review" r = true
                /\ decision_is "Hold" r = false)
            \/ (decision_is "Order" r = false
                /\ decision_is "Review" r = false
                /\ decision_is "Hold" r = true)).
  { intros r Hr. unfold decision_is.
    destruct (Hdec r Hr) as [[E | [E | E]] _]; rewrite E; cbn; auto. }
  assert (Hin : forall d r, In r (rows (select_rows (decision_is d) out))
                            <-> In r (rows out) /\ decision_is d r = true).
  { intros d r. unfold select_rows. cbn [rows]. apply filter_In. }
  split; [apply filter_three; exact Hone|].
  unfold df_order, df_review, df_hold.
  split.
  { intros r Hr. rewrite !Hin.
    destruct (Hone r Hr) as [(A & B & C) | [(A & B & C) | (A & B & C)]];
      rewrite A, B, C; [left | right; left | right; right];
      repeat split; auto; intros [_ F]; discriminate F. }
  assert (Hsel : forall d r, In r (rows (select_rows (decision_is d) out)) ->
            In r (rows out) /\ r "inventory_decision" = VStr d).
  { intros d r Hr. apply Hin in Hr. destruct Hr as [Hr Hd]. split; [exact Hr|].
    unfold decision_is in Hd.
    destruct (Hdec r Hr) as [[E | [E | E]] _]; rewrite E in Hd |- *;
      rewrite veqb_str in Hd; apply String.eqb_eq in Hd; congruence. }
  split; [intros r Hr; apply (Hsel "Order"), Hr|].
  split; [intros r Hr; apply (Hsel "Review"), Hr|].
  intros r Hr. destruct (Hsel "Hold" r Hr) as [Hr' E].
  split; [exact E|]. apply (Hdec r Hr'). exact E.
Qed.


End AppReports.

(** ** Texts of digits *)

Section DigitFacts.
Import PyStr PyDecimal.

Lemma append_nil_r (s : string) : (s ++ "")%string = s.
Proof. induction s as [|c s IH]; cbn; [reflexivity | now rewrite IH]. Qed.

Lemma append_assoc (a b c : string) :
  ((a ++ b) ++ c)%string = (a ++ (b ++ c))%string.
Proof. induction a as [|x a IH]; cbn; [reflexivity | now rewrite IH]. Qed.

Lemma all_chars_app (p : ascii -> bool) (a b : string) :
  all_chars p (a ++ b) = all_chars p a && all_chars p b.
Proof.
  induction a as [|c a IH]; cbn; [reflexivity|].
  rewrite IH. now rewrite andb_assoc.
Qed.

Lemma all_chars_impl (p q : ascii -> bool) (s : string) :
  (forall c, p c = true -> q c = true) ->
  all_chars p s = true -> all_chars q s = true.
Proof.
  intro H. induction s as [|c s IH]; cbn; [reflexivity|].
  intro E. apply andb_true_iff in E. destruct E as [E1 E2].
  rewrite (H c E1), (IH E2). reflexivity.
Qed.

(** *** Blanks *)

Lemma lstrip_no_space (c : ascii) (s : string) :
  is_space c = false -> lstrip (String c s) = String c s.
Proof. intro H. cbn. rewrite H. reflexivity. Qed.

Lemma rstrip_no_space (s : string) :
  all_chars (fun c => negb (is_space c)) s = true -> rstrip s = s.
Proof.
  induction s as [|c s IH]; cbn; [reflexivity|].
  intro E. apply andb_true_iff in E. destruct E as [E1 E2].
  rewrite (IH E2). apply negb_true_iff in E1. rewrite E1.
  destruct s; reflexivity.
Qed.

Lemma strip_no_space (s : string) :
  all_chars (fun c => negb (is_space c)) s = true -> strip s = s.
Proof.
  intro E. unfold strip. destruct s as [|c s]; [reflexivity|].
  assert (E' := E). cbn in E'. apply andb_true_iff in E'.
  destruct E' as [E1 _]. apply negb_true_iff in E1.
  rewrite lstrip_no_space by exact E1. apply rstrip_no_space. exact E.
Qed.

Lemma remove_char_none (x : ascii) (s : string) :
  all_chars (fun c => negb (Ascii.eqb x c)) s = true -> remove_char x s = s.
Proof.
  induction s as [|c s IH]; cbn; [reflexivity|].
  intro E. apply andb_true_iff in E. destruct E as [E1 E2].
  apply negb_true_iff in E1. rewrite E1, (IH E2). reflexivity.
Qed.

(** *** Numerals *)

Lemma digits_of_uint (d : Decimal.uint) :
  all_chars is_digit (NilEmpty.string_of_uint d) = true.
Proof. induction d; cbn; try reflexivity; exact IHd. Qed.

Lemma digits_of_N (n : N) : all_chars is_digit (str_N n) = true.
Proof.
  unfold str_N, NilZero.string_of_uint.
  destruct (N.to_uint n); try apply digits_of_uint. reflexivity.
Qed.

Lemma str_N_not_empty (n : N) : str_N n <> "".
Proof.
  unfold str_N, NilZero.string_of_uint.
  destruct (N.to_uint n); cbn; discriminate.
Qed.

Lemma int_of_digits_uint (d d' : Decimal.uint) :
  int_of_digits_from (DecimalPos.Unsigned.of_lu d')
    (NilEmpty.string_of_uint d)
  = DecimalPos.Unsigned.of_lu (Decimal.revapp d d').
Proof.
  revert d'. induction d; intro d'; cbn [NilEmpty.string_of_uint
    int_of_digits_from Decimal.revapp]; [reflexivity|..];
    rewrite <- IHd; f_equal; cbn [DecimalPos.Unsigned.of_lu];
    match goal with
    | |- (_ + N.of_nat ?k = _)%N =>
        let v := eval vm_compute in (N.of_nat k) in
        change (N.of_nat k) with v
    end; lia.
Qed.

(** Reading the decimal numeral of a number gives the number back. *)
Lemma int_of_digits_str_N (n : N) : int_of_digits (str_N n) = n.
Proof.
  unfold str_N, int_of_digits.
  assert (H : int_of_digits_from 0 (NilEmpty.string_of_uint (N.to_uint n))
              = n).
  { change 0%N with (DecimalPos.Unsigned.of_lu Decimal.Nil).
    rewrite int_of_digits_uint.
    change (Decimal.revapp (N.to_uint n) Decimal.Nil)
      with (Decimal.rev (N.to_uint n)).
    rewrite <- DecimalPos.Unsigned.of_uint_alt.
    apply DecimalN.Unsigned.of_to. }
  unfold NilZero.string_of_uint.
  destruct (N.to_uint n); exact H.
Qed.

Lemma int_of_digits_from_app (acc : N) (a b : string) :
  int_of_digits_from acc (a ++ b)
  = int_of_digits_from (int_of_digits_from acc a) b.
Proof.
  revert acc. induction a as [|c a IH]; intro acc; cbn; [reflexivity|].
  apply IH.
Qed.

Lemma int_of_digits_from_zeros (acc : N) (k : nat) :
  int_of_digits_from acc (zeros k) = (acc * 10 ^ N.of_nat k)%N.
Proof.
  revert acc. induction k as [|k IH]; intro acc.
  - cbn. lia.
  - cbn [zeros int_of_digits_from]. rewrite IH.
    change (N.of_nat (nat_of_ascii "0" - 48)) with 0%N.
    replace (N.of_nat (S k)) with (N.succ (N.of_nat k)) by lia.
    rewrite N.pow_succ_r'. lia.
Qed.

Lemma length_zeros (k : nat) : String.length (zeros k) = k.
Proof. induction k; cbn; [reflexivity | now rewrite IHk]. Qed.

Lemma digits_zeros (k : nat) : all_chars is_digit (zeros k) = true.
Proof. induction k; [reflexivity | exact IHk]. Qed.

Lemma span_digits_all (ds rest : string) :
  all_chars is_digit ds = true ->
  match rest with
  | EmptyString => True
  | String c _ => is_digit c = false
  end ->
  span_digits (ds ++ rest) = (ds, rest).
Proof.
  intros Hd Hr. induction ds as [|c ds IH].
  - cbn. destruct rest as [|c r]; [reflexivity|]. cbn. rewrite Hr.
    reflexivity.
  - cbn in Hd. apply andb_true_iff in Hd. destruct Hd as [H1 H2].
    cbn. rewrite H1, (IH H2). reflexivity.
Qed.

End DigitFacts.

(** ** Whole numbers as item codes *)

Section WholeCodes.
Import PyStr PyVal PyDecimal Numerals.
Variable float_repr : Q -> string.

Ltac by_cases_on c :=
  destruct c as [[|] [|] [|] [|] [|] [|] [|] [|]];
  try reflexivity; try discriminate.

Lemma numeral_no_space (c : ascii) :
  numeral_char c = true -> negb (is_space c) = true.
Proof. by_cases_on c. Qed.

Lemma numeral_no_comma (c : ascii) :
  numeral_char c = true -> negb (Ascii.eqb "," c) = true.
Proof. by_cases_on c. Qed.

Lemma numeral_no_underscore (c : ascii) :
  numeral_char c = true -> negb (Ascii.eqb "_" c) = true.
Proof. by_cases_on c. Qed.

Lemma digit_is_numeral (c : ascii) :
  is_digit c = true -> numeral_char c = true.
Proof. unfold numeral_char. intros ->. reflexivity. Qed.

Lemma numeral_not_nan (c : ascii) (r : string) :
  numeral_char c = true -> (lower (String c r) =? "nan")%string = false.
Proof.
  intro H. cbn.
  assert (E : Ascii.eqb (lower_char c) "n" = false)
    by (revert H; by_cases_on c).
  rewrite E. reflexivity.
Qed.

Lemma parse_sign_digit (c : ascii) (r : string) :
  is_digit c = true -> parse_sign (String c r) = (false, String c r).
Proof. by_cases_on c. Qed.

(** The sign and the digits of the numeral of an integer. *)
Lemma str_Z_sign (z : Z) :
  str_Z z = ((if (z <? 0)%Z then "-" else "") ++ str_N (Z.abs_N z))%string.
Proof. destruct z; reflexivity. Qed.

Lemma str_N_first (n : N) :
  exists c r, str_N n = String c r /\ is_digit c = true.
Proof.
  assert (H := digits_of_N n). assert (H' := str_N_not_empty n).
  destruct (str_N n) as [|c r]; [congruence|].
  cbn in H. apply andb_true_iff in H. exists c, r. tauto.
Qed.

Lemma numerals_of_str_Z (z : Z) : all_chars numeral_char (str_Z z) = true.
Proof.
  rewrite str_Z_sign, all_chars_app.
  rewrite (all_chars_impl is_digit numeral_char _ digit_is_numeral
             (digits_of_N _)).
  destruct (z <? 0)%Z; reflexivity.
Qed.

Lemma numerals_of_zeros (k : nat) : all_chars numeral_char (zeros k) = true.
Proof.
  apply (all_chars_impl is_digit); [exact digit_is_numeral|].
  apply digits_zeros.
Qed.

Lemma numerals_of_whole_text (z : Z) (k : nat) :
  all_chars numeral_char (whole_text z k) = true.
Proof.
  destruct k as [|k]; [apply numerals_of_str_Z|].
  unfold whole_text. rewrite !all_chars_app.
  rewrite numerals_of_str_Z, numerals_of_zeros. reflexivity.
Qed.

Lemma whole_text_first (z : Z) (k : nat) :
  exists c r, whole_text z k = String c r /\ numeral_char c = true.
Proof.
  assert (H := numerals_of_whole_text z k).
  assert (H' : whole_text z k <> "").
  { destruct (str_N_first (Z.abs_N z)) as (c & r & E & _).
    unfold whole_text. rewrite str_Z_sign, E.
    destruct k; destruct (z <? 0)%Z; discriminate. }
  destruct (whole_text z k) as [|c r]; [congruence|].
  cbn in H. apply andb_true_iff in H. exists c, r. tauto.
Qed.

(** A numeral is its own cleaned text. *)
Lemma whole_text_clean (z : Z) (k : nat) :
  let t := whole_text z k in
  strip t = t /\ remove_char "," t = t /\ remove_char "_" t = t
  /\ (t =? "")%string = false /\ (lower t =? "nan")%string = false.
Proof.
  intro t. assert (H := numerals_of_whole_text z k). fold t in H.
  destruct (whole_text_first z k) as (c & r & E & Hc). fold t in E.
  split; [|split; [|split; [|split]]].
  - apply strip_no_space.
    apply (all_chars_impl numeral_char); [exact numeral_no_space | exact H].
  - apply remove_char_none.
    apply (all_chars_impl numeral_char); [exact numeral_no_comma | exact H].
  - apply remove_char_none.
    apply (all_chars_impl numeral_char);
      [exact numeral_no_underscore | exact H].
  - rewrite E. reflexivity.
  - rewrite E. apply numeral_not_nan. exact Hc.
Qed.

(** What [Decimal] makes of the numeral. *)
Lemma decimal_of_whole_text (z : Z) (k : nat) :
  of_string (whole_text z k)
  = Some (Finite (z <? 0)%Z (Z.abs_N z * 10 ^ N.of_nat k) (- Z.of_nat k)).
Proof.
  destruct (whole_text_clean z k) as (Hs & _ & Hu & _).
  unfold of_string. cbv zeta in Hs, Hu. rewrite Hs, Hu.
  set (n := Z.abs_N z).
  destruct (str_N_first n) as (c & r & E & Hc).
  assert (Hsign : parse_sign (whole_text z k)
                  = ((z <? 0)%Z,
                     match k with
                     | O => str_N n
                     | S _ => (str_N n ++ "." ++ zeros k)%string
                     end)).
  { unfold whole_text. rewrite str_Z_sign. fold n.
    destruct (z <? 0)%Z.
    - destruct k; reflexivity.
    - cbn [append]. rewrite E.
      destruct k; cbn [append]; apply parse_sign_digit; exact Hc. }
  rewrite Hsign. unfold parse_number.
  assert (Hne : (str_N n =? "")%string = false) by (rewrite E; reflexivity).
  destruct k as [|k].
  - rewrite <- (append_nil_r (str_N n)) at 1.
    rewrite span_digits_all by (exact (digits_of_N n) || exact I).
    rewrite Hne. cbn [andb parse_exponent String.length].
    rewrite append_nil_r, int_of_digits_str_N.
    f_equal. f_equal. cbn. lia.
  - rewrite span_digits_all by (exact (digits_of_N n) || reflexivity).
    cbn [append].
    rewrite <- (append_nil_r (zeros (S k))) at 1.
    rewrite span_digits_all by (exact (digits_zeros (S k)) || exact I).
    rewrite Hne. cbn [andb parse_exponent].
    unfold int_of_digits.
    rewrite int_of_digits_from_app, int_of_digits_from_zeros.
    fold (int_of_digits (str_N n)). rewrite int_of_digits_str_N.
    rewrite length_zeros. reflexivity.
Qed.

Lemma div_half_even_exact (n p : N) :
  (0 < p)%N -> div_half_even (n * p) p = n.
Proof.
  intro Hp. unfold div_half_even.
  rewrite N.Div0.mod_mul, N.div_mul by lia.
  change (2 * 0)%N with 0%N.
  destruct (N.compare_spec 0 p); [lia | reflexivity | lia].
Qed.

(** The plain text of a whole decimal of exponent 0. *)
Lemma to_str_whole (neg : bool) (n : N) :
  to_str (Finite neg n 0)
  = ((if neg then "-" else "") ++ str_N n)%string.
Proof.
  unfold to_str.
  set (len := Z.of_nat (String.length (str_N n))).
  assert (Hlen : (1 <= len)%Z).
  { subst len. destruct (str_N_first n) as (c & r & E & _). rewrite E.
    cbn [String.length]. lia. }
  change (0 <=? 0)%Z with true. cbn [andb]. rewrite Z.add_0_l.
  assert (E1 : (-6 <? len)%Z = true) by (apply Z.ltb_lt; lia).
  rewrite E1.
  assert (E2 : (len <=? 0)%Z = false) by (apply Z.leb_gt; lia).
  rewrite E2. rewrite Z.leb_refl, Z.eqb_refl, Z.sub_diag.
  cbn [Z.to_nat zeros]. now rewrite !append_nil_r.
Qed.

Lemma whole_decimal_is_integral (neg : bool) (n : N) (k : nat) :
  let d := Finite neg (n * 10 ^ N.of_nat k) (- Z.of_nat k) in
  exists i, to_integral_value d = Some i
            /\ PyDecimal.eqb d i = Some true
            /\ to_str i = ((if neg then "-" else "") ++ str_N n)%string.
Proof.
  intro d. subst d. unfold to_integral_value.
  destruct k as [|k].
  - change (- Z.of_nat 0)%Z with 0%Z. cbn [Z.leb Z.compare].
    change (10 ^ N.of_nat 0)%N with 1%N. rewrite N.mul_1_r.
    eexists. split; [reflexivity|]. split; [|apply to_str_whole].
    cbn [PyDecimal.eqb]. destruct (n =? 0)%N eqn:E; [reflexivity|].
    cbn [andb]. rewrite eqb_reflx, Z.min_id, Z.sub_diag, Z.eqb_refl.
    reflexivity.
  - assert (Hneg : (0 <=? - Z.of_nat (S k))%Z = false)
      by (apply Z.leb_gt; lia).
    rewrite Hneg. rewrite Z.opp_involutive.
    assert (Hp : Z.to_N (10 ^ Z.of_nat (S k)) = (10 ^ N.of_nat (S k))%N).
    { rewrite <- (N2Z.id (10 ^ N.of_nat (S k))). f_equal.
      rewrite N2Z.inj_pow. f_equal; lia. }
    rewrite Hp.
    assert (Hpos : (0 < 10 ^ N.of_nat (S k))%N).
    { apply N.neq_0_lt_0, N.pow_nonzero. discriminate. }
    rewrite div_half_even_exact by exact Hpos.
    eexists. split; [reflexivity|]. split; [|apply to_str_whole].
    cbn [PyDecimal.eqb].
    destruct ((n * 10 ^ N.of_nat (S k) =? 0)%N && (n =? 0)%N);
      [reflexivity|].
    rewrite eqb_reflx. cbn [andb].
    rewrite Z.min_l by lia. rewrite Z.sub_diag, Z.sub_0_l, Z.opp_involutive.
    change (10 ^ 0)%Z with 1%Z. rewrite Z.mul_1_r.
    rewrite N2Z.inj_mul, N2Z.inj_pow.
    replace (Z.of_N (N.of_nat (S k))) with (Z.of_nat (S k)) by lia.
    rewrite Z.eqb_refl. reflexivity.
Qed.

Lemma normalize_whole_text (z : Z) (k : nat) :
  Demand.normalize_item_code float_repr (VStr (whole_text z k)) = str_Z z.
Proof.
  destruct (whole_text_clean z k) as (Hs & Hc & _ & He & Hn).
  cbv zeta in *.
  unfold Demand.normalize_item_code. cbn [isna str].
  rewrite Hs, He, Hn, Hc, Hs. cbn [orb].
  rewrite decimal_of_whole_text.
  destruct (whole_decimal_is_integral (z <? 0)%Z (Z.abs_N z) k)
    as (i & Hi & Heq & Hstr).
  cbv zeta in Hi, Heq. rewrite Hi, Heq, Hstr.
  symmetry. apply str_Z_sign.
Qed.

(** X20.  A whole number is one item code for the demand tables however
    the sheet holds it: as an integer, as its text, as its text with a
    point and zeros after it, or as a float that prints so, the code is
    the plain numeral of the number, sign included. *)
Theorem demand_code_of_whole_number (z : Z) (k : nat) (q : Q) :
  Demand.normalize_item_code float_repr (VInt z) = str_Z z
  /\ Demand.normalize_item_code float_repr (VStr (whole_text z k)) = str_Z z
  /\ (float_repr q = whole_text z 1 ->
      Demand.normalize_item_code float_repr (VFloat q) = str_Z z).
Proof.
  split; [exact (normalize_whole_text z 0)|].
  split; [exact (normalize_whole_text z k)|].
  intro Hq. rewrite <- (normalize_whole_text z 1), <- Hq. reflexivity.
Qed.

(** *** The planner's normaliser *)

Lemma split_once_none (x : ascii) (s : string) :
  all_chars (fun c => negb (Ascii.eqb x c)) s = true ->
  split_once x s = None.
Proof.
  induction s as [|c s IH]; cbn; [reflexivity|].
  intro E. apply andb_true_iff in E. destruct E as [E1 E2].
  apply negb_true_iff in E1. rewrite E1, (IH E2). reflexivity.
Qed.

Lemma split_once_first (x : ascii) (a b : string) :
  all_chars (fun c => negb (Ascii.eqb x c)) a = true ->
  split_once x (a ++ String x b) = Some (a, b).
Proof.
  induction a as [|c a IH]; cbn.
  - intros _. rewrite Ascii.eqb_refl. reflexivity.
  - intro E. apply andb_true_iff in E. destruct E as [E1 E2].
    apply negb_true_iff in E1. rewrite E1, (IH E2). reflexivity.
Qed.

Lemma digit_not_point (c : ascii) :
  is_digit c = true -> negb (Ascii.eqb "." c) = true.
Proof. by_cases_on c. Qed.

Lemma str_Z_no_point (z : Z) :
  all_chars (fun c => negb (Ascii.eqb "." c)) (str_Z z) = true.
Proof.
  rewrite str_Z_sign, all_chars_app.
  rewrite (all_chars_impl is_digit _ _ digit_not_point (digits_of_N _)).
  destruct (z <? 0)%Z; reflexivity.
Qed.

Lemma zeros_all_zero (k : nat) : all_chars (Ascii.eqb "0") (zeros k) = true.
Proof. induction k; [reflexivity | exact IHk]. Qed.

Lemma plan_key_of_whole_text (z : Z) (k : nat) :
  Inventory.normalize_item_code float_repr (VStr (whole_text z k)) = str_Z z.
Proof.
  destruct (whole_text_clean z k) as (Hs & _ & _ & He & Hn).
  destruct (whole_text_clean z 0) as (Hs0 & _).
  cbv zeta in *. change (whole_text z 0) with (str_Z z) in Hs0.
  unfold Inventory.normalize_item_code. cbn [str].
  rewrite Hs, He, Hn. cbn [orb].
  destruct k as [|k].
  - change (whole_text z 0) with (str_Z z).
    rewrite (split_once_none _ _ (str_Z_no_point z)). exact Hs0.
  - unfold whole_text. cbn [append].
    rewrite (split_once_first _ _ _ (str_Z_no_point z)).
    rewrite zeros_all_zero. exact Hs0.
Qed.

(** X21.  The planner's own normaliser agrees: an integer, its text, its
    text with a point and any number of zeros, or a float that prints so,
    all get the plain numeral of the number as their key, the key that the
    demand tables give to the same number. *)
Theorem plan_key_of_whole_number (z : Z) (k : nat) (q : Q) :
  Inventory.normalize_item_code float_repr (VInt z) = str_Z z
  /\ Inventory.normalize_item_code float_repr (VStr (whole_text z k))
     = str_Z z
  /\ (float_repr q = whole_text z 1 ->
      Inventory.normalize_item_code float_repr (VFloat q) = str_Z z)
  /\ Inventory.normalize_item_code float_repr
       (VStr (Demand.normalize_item_code float_repr
                (VStr (whole_text z k))))
     = Demand.normalize_item_code float_repr (VStr (whole_text z k)).
Proof.
  split; [exact (plan_key_of_whole_text z 0)|].
  split; [exact (plan_key_of_whole_text z k)|].
  split.
  - intro Hq. rewrite <- (plan_key_of_whole_text z 1), <- Hq. reflexivity.
  - rewrite normalize_whole_text. exact (plan_key_of_whole_text z 0).
Qed.

End WholeCodes.

(** ** Month labels *)

Section MonthLabels.
Import PyStr PyDecimal Demand.

Lemma rstrip_idempotent (s : string) : rstrip (rstrip s) = rstrip s.
Proof.
  induction s as [|c s IH]; [reflexivity|].
  cbn [rstrip]. destruct (rstrip s) as [|d r] eqn:E.
  - destruct (is_space c) eqn:Ec; [reflexivity|].
    cbn [rstrip]. rewrite Ec. reflexivity.
  - cbn [rstrip]. cbn [rstrip] in IH. rewrite IH. reflexivity.
Qed.

Lemma lstrip_head (s : string) :
  lstrip s = "" \/ exists c r, lstrip s = String c r /\ is_space c = false.
Proof.
  induction s as [|c s IH]; [left; reflexivity|].
  cbn [lstrip]. destruct (is_space c) eqn:E; [exact IH|].
  right. exists c, s. auto.
Qed.

Lemma rstrip_head (c : ascii) (r : string) :
  is_space c = false -> exists r', rstrip (String c r) = String c r'.
Proof.
  intro E. cbn [rstrip]. destruct (rstrip r).
  - rewrite E. eexists. reflexivity.
  - eexists. reflexivity.
Qed.

(** Trimming a trimmed text changes nothing. *)
Lemma strip_idempotent (s : string) : strip (strip s) = strip s.
Proof.
  unfold strip.
  destruct (lstrip_head s) as [E | (c & r & E & Hc)]; rewrite E.
  - reflexivity.
  - destruct (rstrip_head c r Hc) as [r' E'].
    rewrite E'. rewrite lstrip_no_space by exact Hc.
    rewrite <- E'. apply rstrip_idempotent.
Qed.

Ltac by_cases_on c :=
  destruct c as [[|] [|] [|] [|] [|] [|] [|] [|]];
  try reflexivity; try discriminate.

Lemma digit_not_space (c : ascii) :
  is_digit c = true -> negb (is_space c) = true.
Proof. by_cases_on c. Qed.

(** A label of two groups of digits around one separator. *)
Lemma split_label_digits (a b : string) (sep : ascii) :
  all_chars is_digit a = true -> all_chars is_digit b = true ->
  sep = "-"%char \/ sep = "/"%char ->
  let s := (a ++ String sep b)%string in
  strip s = s /\ split_label s = Some (a, b).
Proof.
  intros Ha Hb Hsep s.
  assert (Hd : is_digit sep = false) by (destruct Hsep; subst; reflexivity).
  assert (Hs : negb (is_space sep) = true)
    by (destruct Hsep; subst; reflexivity).
  split.
  - apply strip_no_space. subst s. rewrite all_chars_app. cbn [all_chars].
    rewrite Hs.
    rewrite (all_chars_impl is_digit _ a digit_not_space Ha).
    rewrite (all_chars_impl is_digit _ b digit_not_space Hb). reflexivity.
  - unfold split_label. subst s.
    rewrite span_digits_all by (exact Ha || exact Hd).
    assert (E : Ascii.eqb sep "-" || Ascii.eqb sep "/" = true)
      by (destruct Hsep; subst; reflexivity).
    rewrite E. rewrite <- (append_nil_r b) at 1.
    rewrite span_digits_all by (exact Hb || exact I). reflexivity.
Qed.

Lemma span_digits_fst (s : string) :
  all_chars is_digit (fst (span_digits s)) = true.
Proof.
  induction s as [|c s IH]; [reflexivity|].
  cbn [span_digits]. destruct (is_digit c) eqn:E; [|reflexivity].
  destruct (span_digits s) as [d rest]. cbn [fst all_chars] in *.
  rewrite E, IH. reflexivity.
Qed.

Lemma split_label_parts (s a b : string) :
  split_label s = Some (a, b) ->
  all_chars is_digit a = true /\ all_chars is_digit b = true.
Proof.
  unfold split_label. intro H.
  assert (Ha := span_digits_fst s).
  destruct (span_digits s) as [a' r]. cbn [fst] in Ha.
  destruct r as [|c r']; [discriminate|].
  destruct (Ascii.eqb c "-" || Ascii.eqb c "/"); [|discriminate].
  assert (Hb := span_digits_fst r').
  destruct (span_digits r') as [b' rest]. cbn [fst] in Hb.
  destruct rest; [|discriminate].
  injection H as <- <-. auto.
Qed.

Lemma digit_value (c : ascii) :
  is_digit c = true -> (N.of_nat (nat_of_ascii c - 48) <= 9)%N.
Proof.
  unfold is_digit. intro H. apply andb_true_iff in H. destruct H as [_ H].
  apply Nat.leb_le in H. lia.
Qed.

Lemma int_of_digits_from_bound (acc : N) (s : string) :
  all_chars is_digit s = true ->
  (int_of_digits_from acc s < (acc + 1) * 10 ^ N.of_nat (String.length s))%N.
Proof.
  revert acc. induction s as [|c s IH]; intros acc H.
  - cbn. lia.
  - cbn [all_chars] in H. apply andb_true_iff in H. destruct H as [H1 H2].
    cbn [int_of_digits_from String.length].
    specialize (IH (acc * 10 + N.of_nat (nat_of_ascii c - 48))%N H2).
    assert (Hd := digit_value c H1).
    replace (N.of_nat (S (String.length s)))
      with (N.succ (N.of_nat (String.length s))) by lia.
    rewrite N.pow_succ_r'.
    set (p := (10 ^ N.of_nat (String.length s))%N) in *.
    nia.
Qed.

Lemma padded_years (y : N) : (y < 10000)%N -> padded_ok 4 y = true.
Proof.
  intro H.
  assert (A : forallb (fun k => padded_ok 4 (N.of_nat k)) (seq 0 (N.to_nat 10000))
              = true) by (vm_compute; reflexivity).
  rewrite forallb_forall in A. specialize (A (N.to_nat y)).
  replace (N.of_nat (N.to_nat y)) with y in A by lia.
  apply A, in_seq. lia.
Qed.

Lemma padded_months (m : N) : (m < 100)%N -> padded_ok 2 m = true.
Proof.
  intro H.
  assert (A : forallb (fun k => padded_ok 2 (N.of_nat k)) (seq 0 100) = true)
    by (vm_compute; reflexivity).
  rewrite forallb_forall in A. specialize (A (N.to_nat m)).
  replace (N.of_nat (N.to_nat m)) with m in A by lia.
  apply A, in_seq. lia.
Qed.

Lemma padded_ok_parts (w : nat) (n : N) :
  padded_ok w n = true ->
  all_chars is_digit (pad0 w (str_N n)) = true
  /\ String.length (pad0 w (str_N n)) = w
  /\ int_of_digits (pad0 w (str_N n)) = n.
Proof.
  unfold padded_ok. intro H.
  apply andb_true_iff in H. destruct H as [H H3].
  apply andb_true_iff in H. destruct H as [H1 H2].
  apply Nat.eqb_eq in H2. apply N.eqb_eq in H3. auto.
Qed.

(** The label of two groups of digits, by their lengths. *)
Lemma standardize_digits (a b : string) (sep : ascii) :
  all_chars is_digit a = true -> all_chars is_digit b = true ->
  sep = "-"%char \/ sep = "/"%char ->
  standardize_month_label (a ++ String sep b)
  = let la := String.length a in
    let lb := String.length b in
    if ((la =? 4) && (1 <=? lb) && (lb <=? 2))%nat
    then fmt_month (int_of_digits a) (int_of_digits b)
    else if ((1 <=? la) && (la <=? 2) && (lb =? 4))%nat
         then fmt_month (int_of_digits b) (int_of_digits a)
         else (a ++ String sep b)%string.
Proof.
  intros Ha Hb Hsep.
  destruct (split_label_digits a b sep Ha Hb Hsep) as [Hs Hl].
  cbv zeta in Hs, Hl.
  unfold standardize_month_label. rewrite Hs, Hl. reflexivity.
Qed.

Lemma year_bound (a : string) :
  all_chars is_digit a = true -> String.length a = 4%nat ->
  (int_of_digits a < 10000)%N.
Proof.
  intros Ha Hl. assert (H := int_of_digits_from_bound 0 a Ha).
  rewrite Hl in H. exact H.
Qed.

Lemma month_bound (b : string) :
  all_chars is_digit b = true -> (String.length b <= 2)%nat ->
  (int_of_digits b < 100)%N.
Proof.
  intros Hb Hl. assert (H := int_of_digits_from_bound 0 b Hb).
  unfold int_of_digits.
  assert (10 ^ N.of_nat (String.length b) <= 10 ^ 2)%N
    by (apply N.pow_le_mono_r; lia).
  change (10 ^ 2)%N with 100%N in *. lia.
Qed.

(** A standard label is its own standard label. *)
Lemma standardize_standard (y m : N) :
  (y < 10000)%N -> (m < 100)%N ->
  standardize_month_label (fmt_month y m) = fmt_month y m.
Proof.
  intros Hy Hm.
  destruct (padded_ok_parts 4 y (padded_years y Hy)) as (A1 & A2 & A3).
  destruct (padded_ok_parts 2 m (padded_months m Hm)) as (B1 & B2 & B3).
  unfold fmt_month. cbn [append].
  rewrite (standardize_digits _ _ "-" A1 B1) by (left; reflexivity).
  cbv zeta. rewrite A2, B2, A3, B3. reflexivity.
Qed.

(** X22.  A month given as a year of four digits and a month of one or
    two digits, in either order and with either separator, gets the one
    label "YYYY-MM" of that year and month, of seven characters. *)
Theorem month_label_of_year_and_month (a b : string) (sep1 sep2 : ascii) :
  all_chars is_digit a = true -> String.length a = 4%nat ->
  all_chars is_digit b = true ->
  (1 <= String.length b <= 2)%nat ->
  sep1 = "-"%char \/ sep1 = "/"%char ->
  sep2 = "-"%char \/ sep2 = "/"%char ->
  let label := fmt_month (int_of_digits a) (int_of_digits b) in
  standardize_month_label (a ++ String sep1 b) = label
  /\ standardize_month_label (b ++ String sep2 a) = label
  /\ String.length label = 7%nat
  /\ standardize_month_label label = label.
Proof.
  intros Ha La Hb Lb H1 H2 label.
  assert (Hy := year_bound a Ha La).
  assert (Hm := month_bound b Hb (proj2 Lb)).
  rewrite (standardize_digits a b sep1 Ha Hb H1).
  rewrite (standardize_digits b a sep2 Hb Ha H2).
  cbv zeta. rewrite La.
  assert (E1 : ((1 <=? String.length b) && (String.length b <=? 2))%nat
               = true).
  { apply andb_true_iff. split; apply Nat.leb_le; lia. }
  cbn [Nat.eqb andb]. rewrite E1.
  assert (E2 : ((String.length b =? 4) && (1 <=? 4) && (4 <=? 2))%nat
               = false).
  { now rewrite andb_false_r. }
  rewrite E2.
  split; [reflexivity|]. split; [reflexivity|].
  split; [|apply standardize_standard; assumption].
  subst label. unfold fmt_month.
  destruct (padded_ok_parts 4 _ (padded_years _ Hy)) as (_ & A2 & _).
  destruct (padded_ok_parts 2 _ (padded_months _ Hm)) as (_ & B2 & _).
  rewrite !length_append, A2, B2. reflexivity.
Qed.

(** X23.  Standardising a label twice is standardising it once: the
    labels that come out are no longer changed. *)
Theorem month_label_idempotent (label : string) :
  standardize_month_label (standardize_month_label label)
  = standardize_month_label label.
Proof.
  set (s := strip label).
  assert (Hs : strip s = s) by apply strip_idempotent.
  assert (Hfirst : standardize_month_label label
                   = match split_label s with
                     | Some (a, b) =>
                         let la := String.length a in
                         let lb := String.length b in
                         if ((la =? 4) && (1 <=? lb) && (lb <=? 2))%nat
                         then fmt_month (int_of_digits a) (int_of_digits b)
                         else if ((1 <=? la) && (la <=? 2) && (lb =? 4))%nat
                              then fmt_month (int_of_digits b)
                                     (int_of_digits a)
                              else s
                     | None => s
                     end) by reflexivity.
  rewrite Hfirst. clear Hfirst.
  assert (Hkeep : standardize_month_label s
                  = match split_label s with
                    | Some (a, b) =>
                        let la := String.length a in
                        let lb := String.length b in
                        if ((la =? 4) && (1 <=? lb) && (lb <=? 2))%nat
                        then fmt_month (int_of_digits a) (int_of_digits b)
                        else if ((1 <=? la) && (la <=? 2) && (lb =? 4))%nat
                             then fmt_month (int_of_digits b)
                                    (int_of_digits a)
                             else s
                    | None => s
                    end).
  { unfold standardize_month_label. rewrite Hs. reflexivity. }
  destruct (split_label s) as [[a b]|] eqn:E; [|exact Hkeep].
  destruct (split_label_parts s a b E) as [Ha Hb]. cbv zeta in *.
  destruct ((String.length a =? 4) && (1 <=? String.length b)
            && (String.length b <=? 2))%nat eqn:C1.
  - apply andb_true_iff in C1. destruct C1 as [C1 C3].
    apply andb_true_iff in C1. destruct C1 as [C1 C2].
    apply Nat.eqb_eq in C1. apply Nat.leb_le in C3.
    apply standardize_standard;
      [apply year_bound | apply month_bound]; assumption.
  - destruct ((1 <=? String.length a) && (String.length a <=? 2)
              && (String.length b =? 4))%nat eqn:C2; [|exact Hkeep].
    apply andb_true_iff in C2. destruct C2 as [C2 C4].
    apply andb_true_iff in C2. destruct C2 as [_ C3].
    apply Nat.eqb_eq in C4. apply Nat.leb_le in C3.
    apply standardize_standard;
      [apply year_bound | apply month_bound]; assumption.
Qed.

End MonthLabels.

(** ** Normalising a key twice *)

Section KeyTwice.
Import PyStr PyVal Inventory.
Variable float_repr : Q -> string.

Lemma all_chars_lstrip (p : ascii -> bool) (s : string) :
  all_chars p s = true -> all_chars p (lstrip s) = true.
Proof.
  induction s as [|c s IH]; [reflexivity|].
  intro H. cbn [lstrip]. destruct (is_space c); [|exact H].
  cbn in H. apply andb_true_iff in H. apply IH, H.
Qed.

Lemma all_chars_rstrip (p : ascii -> bool) (s : string) :
  all_chars p s = true -> all_chars p (rstrip s) = true.
Proof.
  induction s as [|c s IH]; [reflexivity|].
  intro H. cbn in H. apply andb_true_iff in H. destruct H as [H1 H2].
  specialize (IH H2). cbn [rstrip].
  destruct (rstrip s) as [|d r].
  - destruct (is_space c); [reflexivity|]. cbn. now rewrite H1.
  - cbn [all_chars] in *. now rewrite H1, IH.
Qed.

Lemma all_chars_strip (p : ascii -> bool) (s : string) :
  all_chars p s = true -> all_chars p (strip s) = true.
Proof. intro H. apply all_chars_rstrip, all_chars_lstrip, H. Qed.

(** The text before the first separator has no separator. *)
Lemma split_once_before (x : ascii) (s a b : string) :
  split_once x s = Some (a, b) ->
  all_chars (fun c => negb (Ascii.eqb x c)) a = true.
Proof.
  revert a b. induction s as [|c s IH]; intros a b H; [discriminate|].
  cbn [split_once] in H. destruct (Ascii.eqb x c) eqn:E.
  - injection H as <- _. reflexivity.
  - destruct (split_once x s) as [[l r]|]; [|discriminate].
    injection H as <- _. cbn [all_chars]. rewrite E. cbn [negb andb].
    apply (IH l r). reflexivity.
Qed.

(** X24.  The key of a key is the key itself, with one exception that
    the hypothesis names: a code such as "nan.0" has the key "nan", and
    the key of "nan" is empty. *)
Theorem plan_key_idempotent (x : value) :
  lower (normalize_item_code float_repr x) <> "nan" ->
  normalize_item_code float_repr (VStr (normalize_item_code float_repr x))
  = normalize_item_code float_repr x.
Proof.
  intro Hnan.
  assert (Hstep : forall r : string,
            strip r = r -> lower r <> "nan" ->
            (forall a b, split_once "." r = Some (a, b) ->
                         all_chars (Ascii.eqb "0") b = false) ->
            normalize_item_code float_repr (VStr r) = r).
  { intros r Hs Hn Hsplit. unfold normalize_item_code. cbn [str].
    rewrite Hs. destruct (r =? "")%string eqn:E;
      [apply String.eqb_eq in E; subst r; reflexivity|].
    apply String.eqb_neq in Hn. rewrite Hn. cbn [orb].
    destruct (split_once "." r) as [[a b]|] eqn:Ep; [|exact Hs].
    rewrite (Hsplit a b eq_refl). exact Hs. }
  unfold normalize_item_code in Hnan |- * at 2 3.
  set (s := strip (str float_repr x)) in *.
  assert (Hs : strip s = s) by apply strip_idempotent.
  destruct ((s =? "")%string || (lower s =? "nan")%string) eqn:Eb;
    [reflexivity|].
  apply orb_false_iff in Eb. destruct Eb as [_ Elow].
  apply String.eqb_neq in Elow.
  destruct (split_once "." s) as [[before after]|] eqn:Ep.
  - destruct (all_chars (Ascii.eqb "0") after) eqn:Ez.
    + apply Hstep; [apply strip_idempotent | exact Hnan |].
      intros a b Hab. exfalso.
      assert (Hnone := split_once_none "."
                         (strip before)
                         (all_chars_strip _ _
                            (split_once_before _ _ _ _ Ep))).
      congruence.
    + rewrite Hs in Hnan |- *. apply Hstep; [exact Hs | exact Elow |].
      intros a b Hab. congruence.
  - rewrite Hs in Hnan |- *. apply Hstep; [exact Hs | exact Elow |].
    intros a b Hab. congruence.
Qed.

End KeyTwice.

(** ** The months of the uploaded files *)

Section UploadedMonths.
Import PyStr PyFrame App.
Context {A : Type}.

Local Abbreviation label_of f := (strip (fst f)).

(** What the loop keeps, from any state in which the labels used are
    the keys of the dictionary. *)
Lemma keep_files_from (files : list (string * A)) (used : list string)
    (months : list (string * A)) :
  (forall l, In l used <-> In l (map fst months)) ->
  NoDup (map fst months) ->
  let out := fold_left keep_file files (used, months) in
  (forall l, In l (fst out) <-> In l (map fst (snd out)))
  /\ NoDup (map fst (snd out))
  /\ (exists added, snd out = (months ++ added)%list)
  /\ (forall l df, In (l, df) (snd out) ->
        In (l, df) months
        \/ (l <> "" /\ ~ In l used
            /\ exists pre f post,
                 files = (pre ++ f :: post)%list
                 /\ label_of f = l /\ snd f = df
                 /\ forall g, In g pre -> label_of g <> l))
  /\ (forall f, In f files -> label_of f <> "" ->
        In (label_of f) (map fst (snd out))).
Proof.
  revert used months.
  induction files as [|f files IH]; intros used months Hkeys Hnd out.
  - subst out. cbn. split; [exact Hkeys|]. split; [exact Hnd|].
    split; [exists []; now rewrite app_nil_r|].
    split; [auto | intros f []].
  - subst out. cbn [fold_left].
    assert (Hk : keep_file (used, months) f
                 = if (label_of f =? "")%string then (used, months)
                   else if mem (label_of f) used then (used, months)
                        else (label_of f :: used,
                              (months ++ [(label_of f, snd f)])%list))
      by reflexivity.
    rewrite Hk. clear Hk.
    destruct (label_of f =? "")%string eqn:Eb.
    + apply String.eqb_eq in Eb.
      destruct (IH used months Hkeys Hnd) as (I1 & I2 & I3 & I4 & I5).
      split; [exact I1|]. split; [exact I2|]. split; [exact I3|].
      split.
      * intros l df Hin. destruct (I4 l df Hin)
          as [H | (Hl & Hu & pre & g & post & -> & Hg & Hd & Hpre)];
          [left; exact H|].
        right. split; [exact Hl|]. split; [exact Hu|].
        exists (f :: pre), g, post. repeat split; auto.
        intros h [<- | Hh]; [congruence | apply Hpre, Hh].
      * intros g [<- | Hg] Hne; [congruence | apply I5; assumption].
    + destruct (mem (label_of f) used) eqn:Eu.
      * apply mem_In in Eu.
        destruct (IH used months Hkeys Hnd) as (I1 & I2 & I3 & I4 & I5).
        split; [exact I1|]. split; [exact I2|]. split; [exact I3|].
        split.
        -- intros l df Hin. destruct (I4 l df Hin)
             as [H | (Hl & Hu & pre & g & post & -> & Hg & Hd & Hpre)];
             [left; exact H|].
           right. split; [exact Hl|]. split; [exact Hu|].
           exists (f :: pre), g, post. repeat split; auto.
           intros h [<- | Hh]; [congruence | apply Hpre, Hh].
        -- intros g [<- | Hg] Hne; [|apply I5; assumption].
           destruct I3 as [added ->]. rewrite map_app. apply in_or_app.
           left. apply Hkeys. exact Eu.
      * assert (Hnew : ~ In (label_of f) used).
        { intro H. apply mem_In in H. congruence. }
        assert (Hkeys' : forall l,
                  In l (label_of f :: used)
                  <-> In l (map fst (months ++ [(label_of f, snd f)])%list)).
        { intro l. rewrite map_app, in_app_iff, <- Hkeys. cbn. tauto. }
        assert (Hnd' : NoDup (map fst (months ++ [(label_of f, snd f)])%list)).
        { rewrite map_app. cbn [map fst].
          apply NoDup_app; [exact Hnd | repeat constructor; auto |].
          intros l Hl [<- | []]. apply Hnew, Hkeys, Hl. }
        destruct (IH _ _ Hkeys' Hnd') as (I1 & I2 & I3 & I4 & I5).
        split; [exact I1|]. split; [exact I2|]. split.
        { destruct I3 as [added ->]. rewrite <- app_assoc. eexists.
          reflexivity. }
        split.
        -- intros l df Hin. destruct (I4 l df Hin)
             as [H | (Hl & Hu & pre & g & post & -> & Hg & Hd & Hpre)].
           ++ apply in_app_or in H. destruct H as [H | [H | []]];
                [left; exact H|].
              injection H as <- <-. right.
              apply String.eqb_neq in Eb.
              split; [exact Eb|]. split; [exact Hnew|].
              exists [], f, files. repeat split. intros g [].
           ++ right. split; [exact Hl|].
              split; [intro H; apply Hu; right; exact H|].
              exists (f :: pre), g, post. repeat split; auto.
              intros h [<- | Hh]; [|apply Hpre, Hh].
              intro E. apply Hu. left. exact E.
        -- intros g [<- | Hg] Hne; [|apply I5; assumption].
           destruct I3 as [added ->]. rewrite !map_app. apply in_or_app.
           left. apply in_or_app. right. left. reflexivity.
Qed.

(** X25.  The months kept from the uploaded files have distinct labels,
    none of them blank: each is the trimmed label of the first file that
    was given it, with the sheet of that file, and every file with a label
    that is not blank has its label among them.  The labels used are the
    keys of the months kept. *)
Theorem uploaded_months_are_distinct (uploaded : list (string * A)) :
  let used_labels := fst (collect_months uploaded) in
  let month_dfs := snd (collect_months uploaded) in
  NoDup (map fst month_dfs)
  /\ (forall l, In l used_labels <-> In l (map fst month_dfs))
  /\ (forall l df, In (l, df) month_dfs ->
        l <> "" /\ strip l = l
        /\ exists pre f post,
             uploaded = (pre ++ f :: post)%list
             /\ strip (fst f) = l /\ snd f = df
             /\ forall g, In g pre -> strip (fst g) <> l)
  /\ (forall f, In f uploaded -> strip (fst f) <> "" ->
        In (strip (fst f)) (map fst month_dfs)).
Proof.
  intros used_labels month_dfs. subst used_labels month_dfs.
  unfold collect_months.
  destruct (keep_files_from uploaded [] [])
    as (I1 & I2 & _ & I4 & I5); [cbn; tauto | constructor |].
  cbv zeta in *.
  split; [exact I2|]. split; [exact I1|]. split; [|exact I5].
  intros l df Hin.
  destruct (I4 l df Hin) as [[] | (Hl & _ & pre & f & post & E & Hf & Hd & Hp)].
  split; [exact Hl|]. split.
  - rewrite <- Hf. apply strip_idempotent.
  - exists pre, f, post. auto.
Qed.

End UploadedMonths.

(** ** The further properties at the sample inputs *)

Lemma rounded_forecast_within_range_witness :
  Samples.series <> []
  /\ (10 <= Demand.forecast_next_month_rounded
              (Demand._compute_demand_stats_and_forecast Samples.sqrtQ
                 Samples.series) <= 30)%Z.
Proof.
  split; [discriminate|].
  destruct (rounded_forecast_within_range Samples.sqrtQ Samples.series 10 30)
    as [_ H]; [discriminate | unfold Qle; cbn; lia | | exact H].
  intros x Hx. cbn in Hx.
  repeat (destruct Hx as [<- | Hx];
          [split; (unfold Qle; cbn; lia)|]).
  destruct Hx.
Defined.

Lemma zero_series_forecast_witness :
  Demand.forecast_method
    (Demand._compute_demand_stats_and_forecast Samples.sqrtQ
       [Some 0%Q; None])
  = "zero_demand".
Proof.
  destruct (zero_series_forecast Samples.sqrtQ [Some 0%Q; None]) as [H _];
    [|exact H].
  intros x Hx. cbn in Hx.
  repeat (destruct Hx as [<- | Hx]; [reflexivity|]).
  destruct Hx.
Defined.

Lemma stats_counts_witness :
  Demand.zero_ratio
    (Demand._compute_demand_stats_and_forecast Samples.sqrtQ []) = 1%Q.
Proof.
  destruct (stats_counts Samples.sqrtQ []) as (_ & _ & _ & H & _).
  apply H. reflexivity.
Defined.

Lemma abc_keeps_rows_witness :
  (0 < PyNum.sumQ (map Demand.row_total [Samples.one_item]))%Q
  /\ length (Demand.abc_classify [Samples.one_item]) = 1%nat
  /\ StronglySorted (Demand.desc Demand.row_total)
       (map Demand.summary (Demand.abc_classify [Samples.one_item])).
Proof.
  assert (Hpos : (0 < PyNum.sumQ (map Demand.row_total [Samples.one_item]))%Q)
    by (vm_compute; reflexivity).
  split; [exact Hpos|].
  destruct (abc_keeps_rows [Samples.one_item]) as (_ & Hlen & Hsorted & _).
  split; [exact Hlen | exact (Hsorted Hpos)].
Defined.

Lemma three_items_nonneg :
  forall r, In r Samples.three_items -> (0 <= Demand.row_total r)%Q.
Proof.
  intros r Hr. cbn in Hr.
  repeat (destruct Hr as [<- | Hr]; [vm_compute; discriminate|]).
  destruct Hr.
Defined.

Lemma three_items_positive :
  (0 < PyNum.sumQ (map Demand.row_total Samples.three_items))%Q.
Proof. vm_compute. reflexivity. Defined.

Lemma abc_last_row_is_C_witness :
  (forall r, In r Samples.three_items -> (0 <= Demand.row_total r)%Q)
  /\ (0 < PyNum.sumQ (map Demand.row_total Samples.three_items))%Q
  /\ map (fun p => Demand.item_code (Demand.summary p))
       (Demand.abc_classify Samples.three_items) = ["2"; "1"; "3"]
  /\ Demand.abc_class
       (last (Demand.abc_classify Samples.three_items)
          (Demand.mkProduct Samples.one_item 0 0 ""))
     = "C".
Proof.
  split; [exact three_items_nonneg|].
  split; [exact three_items_positive|].
  split; [vm_compute; reflexivity|].
  destruct (abc_last_row_is_C Samples.three_items
              (Demand.mkProduct Samples.one_item 0 0 "")
              three_items_nonneg three_items_positive)
    as (_ & _ & _ & H).
  exact H.
Defined.

Lemma abc_classes_in_order_witness :
  (forall r, In r Samples.three_items -> (0 <= Demand.row_total r)%Q)
  /\ (0 < PyNum.sumQ (map Demand.row_total Samples.three_items))%Q
  /\ map Demand.abc_class (Demand.abc_classify Samples.three_items)
     = ["A"; "C"; "C"]
  /\ StronglySorted Demand.classes_in_order
       (Demand.abc_classify Samples.three_items).
Proof.
  split; [exact three_items_nonneg|].
  split; [exact three_items_positive|].
  split; [vm_compute; reflexivity|].
  destruct (abc_classes_in_order Samples.three_items
              three_items_nonneg three_items_positive) as [H _].
  exact H.
Defined.

Lemma z_grows_with_service_level_witness :
  (90 # 100 <= 95 # 100)%Q
  /\ exists za zb : Q,
       Inventory._z_from_service_level (PyVal.VFloat (90 # 100))
       = PyVal.VFloat za
       /\ Inventory._z_from_service_level (PyVal.VFloat (95 # 100))
          = PyVal.VFloat zb
       /\ (za <= zb)%Q.
Proof.
  assert (H : (90 # 100 <= 95 # 100)%Q) by (unfold Qle; cbn; lia).
  split; [exact H|].
  destruct (z_grows_with_service_level (90 # 100) (95 # 100) H)
    as (za & zb & Ha & Hb & _ & Hab & _).
  exists za, zb. auto.
Defined.

Lemma service_level_by_class_witness :
  exists sa sc : Q,
    Inventory._map_service_level Samples.float_repr true (95 # 100)
      (Samples.class_row (PyVal.VStr " a ")) = PyVal.VFloat sa
    /\ Inventory._map_service_level Samples.float_repr true (95 # 100)
         (Samples.class_row (PyVal.VStr "c")) = PyVal.VFloat sc
    /\ (sc <= 95 # 100 <= sa)%Q.
Proof.
  destruct (service_level_by_class Samples.float_repr (95 # 100)
              (Samples.class_row (PyVal.VStr " a "))
              (Samples.class_row (PyVal.VStr "B"))
              (Samples.class_row (PyVal.VStr "c"))
              (Samples.class_row PyVal.VNaN) "NAN")
    as (sa & sc & za & zc & Ha & _ & Hc & _ & Hle & _);
    [reflexivity | reflexivity | reflexivity | reflexivity
     | discriminate | discriminate |].
  exists sa, sc. auto.
Defined.

Lemma safety_stock_of_row_witness :
  (0 < 30)%Z
  /\ Samples.run = Inventory.Ok Samples.plan_table
  /\ In Samples.first_row (PyFrame.rows Samples.plan_table)
  /\ exists fd lt ssq : Q,
       Samples.first_row "safety_stock_qty" = PyVal.VFloat ssq
       /\ Samples.first_row "reorder_point" = PyVal.VFloat (fd * lt + ssq)%Q.
Proof.
  split; [lia|]. split; [exact run_ok|]. split; [exact first_row_in|].
  destruct (safety_stock_of_row Samples.float_repr Samples.parse_float
              Samples.sqrtQ Samples.forecast Samples.snapshot 30 (95 # 100)
              "stat" 7 Samples.plan_table Samples.first_row)
    as (fd & lt & ssd & sigma & sle & z & ssq & _ & _ & _ & _ & _ & _
        & Hss & Hrop & _);
    [lia | exact run_ok | exact first_row_in |].
  exists fd, lt, ssq. auto.
Defined.

Lemma days_of_supply_of_row_witness :
  (0 < 30)%Z
  /\ Samples.run = Inventory.Ok Samples.plan_table
  /\ In Samples.first_row (PyFrame.rows Samples.plan_table)
  /\ exists fm : Q,
       Samples.first_row "forecast_next_month" = PyVal.VFloat fm
       /\ (Samples.first_row "days_of_supply" = PyVal.VNaN <-> (fm <= 0)%Q).
Proof.
  split; [lia|]. split; [exact run_ok|]. split; [exact first_row_in|].
  destruct (days_of_supply_of_row Samples.float_repr Samples.parse_float
              Samples.sqrtQ Samples.forecast Samples.snapshot 30 (95 # 100)
              "stat" 7 Samples.plan_table Samples.first_row)
    as (fm & fd & avail & Hfm & _ & _ & _ & _ & Hdos & _);
    [lia | exact run_ok | exact first_row_in |].
  exists fm. auto.
Defined.

Lemma unmatched_row_is_held_witness :
  (0 < 30)%Z
  /\ Samples.run = Inventory.Ok Samples.plan_table
  /\ nth_error (PyFrame.rows (Inventory.inventory_headers Samples.snapshot)) 2
     = Some Samples.gizmo_row
  /\ exists r : PyFrame.row,
       nth_error (PyFrame.rows Samples.plan_table) 2 = Some r
       /\ r "inventory_decision" = PyVal.VStr "Hold"
       /\ r "suggested_order_qty" = PyVal.VInt 0.
Proof.
  assert (Hl : nth_error
                 (PyFrame.rows (Inventory.inventory_headers Samples.snapshot))
                 2 = Some Samples.gizmo_row) by reflexivity.
  split; [lia|]. split; [exact run_ok|]. split; [exact Hl|].
  destruct (unmatched_row_is_held Samples.float_repr Samples.parse_float
              Samples.sqrtQ Samples.forecast Samples.snapshot 30 (95 # 100)
              "stat" 7 Samples.plan_table 2 Samples.gizmo_row)
    as (r & fd & Hr & _ & _ & _ & _ & _ & _ & Hd & Hq);
    [lia | exact run_ok | exact Hl | |].
  - intros f Hf. cbn in Hf.
    repeat (destruct Hf as [<- | Hf]; [vm_compute; discriminate|]).
    destruct Hf.
  - exists r. auto.
Defined.

Lemma matched_row_takes_largest_forecast_witness :
  (0 < 30)%Z
  /\ Samples.run = Inventory.Ok Samples.plan_table
  /\ nth_error (PyFrame.rows (Inventory.inventory_headers Samples.snapshot)) 0
     = Some Samples.widget_row
  /\ In Samples.widget_forecast
       (PyFrame.rows (PyFrame.rename_columns PyStr.strip Samples.forecast))
  /\ exists r g : PyFrame.row,
       nth_error (PyFrame.rows Samples.plan_table) 0 = Some r
       /\ In g (PyFrame.rows
                  (PyFrame.rename_columns PyStr.strip Samples.forecast))
       /\ r "forecast_next_month"
          = PyVal.to_numeric_fill0 Samples.parse_float
              (g "forecast_next_month").
Proof.
  assert (Hl : nth_error
                 (PyFrame.rows (Inventory.inventory_headers Samples.snapshot))
                 0 = Some Samples.widget_row) by reflexivity.
  assert (Hf : In Samples.widget_forecast
                 (PyFrame.rows
                    (PyFrame.rename_columns PyStr.strip Samples.forecast)))
    by (left; reflexivity).
  split; [lia|]. split; [exact run_ok|]. split; [exact Hl|].
  split; [exact Hf|].
  destruct (matched_row_takes_largest_forecast Samples.float_repr
              Samples.parse_float Samples.sqrtQ Samples.forecast
              Samples.snapshot 30 (95 # 100) "stat" 7 Samples.plan_table 0
              Samples.widget_row Samples.widget_forecast)
    as (r & g & Hr & Hg & _ & _ & Hfm & _);
    [lia | exact run_ok | exact Hl | exact Hf | vm_compute; reflexivity |].
  exists r, g. auto.
Defined.

Lemma plan_columns_witness :
  Samples.run = Inventory.Ok Samples.plan_table
  /\ (forall c, In c Inventory.required_forecast_cols -> c <> "item code" ->
        PyFrame.has_col c (Inventory.inventory_headers Samples.snapshot)
        = false)
  /\ PyFrame.columns Samples.plan_table
     = (Inventory.cols_order ++ ["abc_class"])%list.
Proof.
  assert (Hnone : forall c, In c Inventory.required_forecast_cols ->
            c <> "item code" ->
            PyFrame.has_col c (Inventory.inventory_headers Samples.snapshot)
            = false).
  { intros c Hc Hne. cbv [Inventory.required_forecast_cols] in Hc.
    repeat (destruct Hc as [<- | Hc];
            [first [reflexivity | exfalso; apply Hne; reflexivity]|]).
    destruct Hc. }
  split; [exact run_ok|]. split; [exact Hnone|].
  destruct (plan_columns Samples.float_repr Samples.parse_float Samples.sqrtQ
              Samples.forecast Samples.snapshot 30 (95 # 100) "stat" 7
              Samples.plan_table run_ok) as [_ H].
  exact (H Hnone).
Defined.

Lemma reports_partition_plan_witness :
  (0 < 30)%Z
  /\ Samples.run = Inventory.Ok Samples.plan_table
  /\ (length (PyFrame.rows (App.df_order Samples.plan_table))
      + length (PyFrame.rows (App.df_review Samples.plan_table))
      + length (PyFrame.rows (App.df_hold Samples.plan_table))
      = length (PyFrame.rows Samples.plan_table))%nat.
Proof.
  split; [lia|]. split; [exact run_ok|].
  destruct (reports_partition_plan Samples.float_repr Samples.parse_float
              Samples.sqrtQ Samples.forecast Samples.snapshot 30 (95 # 100)
              "stat" 7 Samples.plan_table) as [H _];
    [lia | exact run_ok | exact H].
Defined.


Lemma demand_code_of_whole_number_witness :
  Samples.float_repr 123 = Numerals.whole_text 123 1
  /\ Demand.normalize_item_code Samples.float_repr (PyVal.VFloat 123)
     = "123".
Proof.
  assert (H : Samples.float_repr 123 = Numerals.whole_text 123 1)
    by (vm_compute; reflexivity).
  split; [exact H|].
  destruct (demand_code_of_whole_number Samples.float_repr 123 1 123)
    as (_ & _ & Hq).
  exact (Hq H).
Defined.

Lemma plan_key_of_whole_number_witness :
  Samples.float_repr 123 = Numerals.whole_text 123 1
  /\ Inventory.normalize_item_code Samples.float_repr (PyVal.VFloat 123)
     = "123".
Proof.
  assert (H : Samples.float_repr 123 = Numerals.whole_text 123 1)
    by (vm_compute; reflexivity).
  split; [exact H|].
  destruct (plan_key_of_whole_number Samples.float_repr 123 1 123)
    as (_ & _ & Hq & _).
  exact (Hq H).
Defined.

Lemma month_label_of_year_and_month_witness :
  PyStr.all_chars PyStr.is_digit "2025" = true
  /\ String.length "2025" = 4%nat
  /\ PyStr.all_chars PyStr.is_digit "1" = true
  /\ (1 <= String.length "1" <= 2)%nat
  /\ Demand.standardize_month_label "2025/1" = "2025-01"
  /\ Demand.standardize_month_label "1-2025" = "2025-01".
Proof.
  split; [reflexivity|]. split; [reflexivity|]. split; [reflexivity|].
  split; [cbn; lia|].
  destruct (month_label_of_year_and_month "2025" "1" "/" "-")
    as (H1 & H2 & _);
    [reflexivity | reflexivity | reflexivity | cbn; lia
     | right; reflexivity | left; reflexivity |].
  split; [exact H1 | exact H2].
Defined.

Lemma plan_key_idempotent_witness :
  PyStr.lower
    (Inventory.normalize_item_code Samples.float_repr (PyVal.VStr " 12.00 "))
  <> "nan"
  /\ Inventory.normalize_item_code Samples.float_repr
       (PyVal.VStr
          (Inventory.normalize_item_code Samples.float_repr
             (PyVal.VStr " 12.00 ")))
     = Inventory.normalize_item_code Samples.float_repr
         (PyVal.VStr " 12.00 ").
Proof.
  assert (H : PyStr.lower
                (Inventory.normalize_item_code Samples.float_repr
                   (PyVal.VStr " 12.00 ")) <> "nan")
    by (vm_compute; discriminate).
  split; [exact H|].
  exact (plan_key_idempotent Samples.float_repr (PyVal.VStr " 12.00 ") H).
Defined.

Lemma uploaded_months_are_distinct_witness :
  In (" 2025-01 ", 1%nat)
    [(" 2025-01 ", 1%nat); ("", 2%nat); ("2025-01", 3%nat)]
  /\ PyStr.strip (fst (" 2025-01 ", 1%nat)) <> ""
  /\ In "2025-01"
       (map fst
          (snd (App.collect_months
                  [(" 2025-01 ", 1%nat); ("", 2%nat); ("2025-01", 3%nat)]))).
Proof.
  assert (H1 : In (" 2025-01 ", 1%nat)
                 [(" 2025-01 ", 1%nat); ("", 2%nat); ("2025-01", 3%nat)])
    by (left; reflexivity).
  assert (H2 : PyStr.strip (fst (" 2025-01 ", 1%nat)) <> "")
    by (vm_compute; discriminate).
  split; [exact H1|]. split; [exact H2|].
  destruct (uploaded_months_are_distinct
              [(" 2025-01 ", 1%nat); ("", 2%nat); ("2025-01", 3%nat)])
    as (_ & _ & _ & H).
  exact (H _ H1 H2).
Defined.

Lemma plan_outcome_witness :
  (0 < 30)%Z
  /\ Inventory.schema_valid Samples.forecast Samples.snapshot = true
  /\ Inventory.forecast_clash Samples.snapshot = false
  /\ Inventory.schema_valid Samples.forecast Samples.snapshot_with_forecast
     = true
  /\ Inventory.forecast_clash Samples.snapshot_with_forecast = true.
Proof.
  assert (Hd : (0 < 30)%Z) by lia.
  split; [exact Hd|].
  assert (H := plan_outcome Samples.float_repr Samples.parse_float
                 Samples.sqrtQ Samples.forecast Samples.snapshot 30
                 (95 # 100) "stat" 7 Hd).
  cbv zeta in H.
  change (Inventory.plan_inventory_dc Samples.float_repr Samples.parse_float
            Samples.sqrtQ Samples.forecast Samples.snapshot 30 (95 # 100)
            "stat" 7)
    with Samples.run in H.
  rewrite run_ok in H. destruct H as [H1 H2].
  split; [exact H1|]. split; [exact H2|].
  split; vm_compute; reflexivity.
Defined.
